(** * Deadline and notification scheduling engine

    A shallow embedding of the scheduling core of the legal-document
    assistant backend:

    - [services/deadline_service.py]   (class [DeadlineService]),
    - [services/notification_service.py] (class [NotificationService]),
    - [services/compliance_service.py] (the GST deadline generator),
    - [models.py] (the rows [User], [Deadline], [Notification]).

    Python exceptions are values of [Result]; code that talks to the
    SQLAlchemy session is written in a state-and-exception monad over a
    session that keeps the committed database next to the working copy, so
    that [commit] and [rollback] mean what they mean in the source.

    Conventions of the embedding:
    - instants are naive UTC datetimes, as the [DateTime] columns store
      them; the calendar is the proleptic Gregorian one of the library,
      years 1 to 9999;
    - queries, [add] and [commit] succeed; the exceptions that occur are
      those the Python code and its library calls raise on their inputs;
    - [datetime.utcnow()] is an argument [now] of each service call;
    - the zone database, [datetime.fromisoformat], the mail and Twilio
      credentials and the outcome of a delivery are given by an
      environment [Env];
    - JSON columns and request payloads hold scalars and lists of whole
      numbers; strings are compared byte by byte, which is the order of
      code points. *)

From Stdlib Require Import ZArith Lia Bool Ascii String.
From stdpp Require Import base option list strings gmap.

Local Open Scope string_scope.
Local Open Scope Z_scope.

(** ** Exceptions and results *)

Inductive Exn :=
  | ValueError (msg : string)
  | OverflowError (msg : string)
  | TypeError (msg : string)
  | KeyError (key : string)
  | AttributeError (msg : string)
  | UnknownTimeZoneError (zone : string).

Inductive Result (A : Type) :=
  | Ok (a : A)
  | Raise (e : Exn).
Arguments Ok {A} a.
Arguments Raise {A} e.

Definition rbind {A B} (r : Result A) (k : A -> Result B) : Result B :=
  match r with
  | Ok a => k a
  | Raise e => Raise e
  end.

#[export] Instance Result_bind : MBind Result := λ A B k r, rbind r k.
#[export] Instance Result_ret : MRet Result := @Ok.

Definition is_ok {A} (r : Result A) : bool :=
  match r with Ok _ => true | Raise _ => false end.

(** ** Naive datetimes (Python's [datetime.datetime] without tzinfo)

    The fields are those of the Python object.  The constructor checks of
    the library ([_check_date_fields], [_check_time_fields]) are
    [check_date_fields] and [check_time_fields]; [replace] runs them, as
    the library does, on the fields of the new object. *)

Record datetime := mkdt {
  year : Z; month : Z; day : Z;
  hour : Z; minute : Z; second : Z; microsecond : Z
}.

Definition MINYEAR : Z := 1.
Definition MAXYEAR : Z := 9999.

Definition _is_leap (y : Z) : bool :=
  (y mod 4 =? 0) && (negb (y mod 100 =? 0) || (y mod 400 =? 0)).

Definition _DAYS_IN_MONTH (m : Z) : Z :=
  match m with
  | 1 => 31 | 2 => 28 | 3 => 31 | 4 => 30 | 5 => 31 | 6 => 30
  | 7 => 31 | 8 => 31 | 9 => 30 | 10 => 31 | 11 => 30 | 12 => 31
  | _ => 0
  end.

Definition _days_in_month (y m : Z) : Z :=
  if (m =? 2) && _is_leap y then 29 else _DAYS_IN_MONTH m.

Definition check_date_fields (y m d : Z) : Result unit :=
  if negb ((MINYEAR <=? y) && (y <=? MAXYEAR)) then
    Raise (ValueError "year must be in 1..9999")
  else if negb ((1 <=? m) && (m <=? 12)) then
    Raise (ValueError "month must be in 1..12")
  else if negb ((1 <=? d) && (d <=? _days_in_month y m)) then
    Raise (ValueError "day is out of range for month")
  else Ok tt.

Definition check_time_fields (h mi s us : Z) : Result unit :=
  if negb ((0 <=? h) && (h <=? 23)) then
    Raise (ValueError "hour must be in 0..23")
  else if negb ((0 <=? mi) && (mi <=? 59)) then
    Raise (ValueError "minute must be in 0..59")
  else if negb ((0 <=? s) && (s <=? 59)) then
    Raise (ValueError "second must be in 0..59")
  else if negb ((0 <=? us) && (us <=? 999999)) then
    Raise (ValueError "microsecond must be in 0..999999")
  else Ok tt.

(** [datetime(y, m, d, h, mi, s, us)] *)
Definition datetime_new (y m d h mi s us : Z) : Result datetime :=
  _ ← check_date_fields y m d;
  _ ← check_time_fields h mi s us;
  Ok (mkdt y m d h mi s us).

Definition valid_datetime (dt : datetime) : bool :=
  is_ok (datetime_new (year dt) (month dt) (day dt)
           (hour dt) (minute dt) (second dt) (microsecond dt)).

(** [dt.replace(year=.., month=.., day=..)]: an absent keyword keeps the
    field of [dt]. *)
Definition replace (dt : datetime) (yr mo dy : option Z) : Result datetime :=
  datetime_new (default (year dt) yr) (default (month dt) mo)
    (default (day dt) dy)
    (hour dt) (minute dt) (second dt) (microsecond dt).

(** [dt.replace(hour=.., minute=.., second=.., microsecond=..)] *)
Definition replace_time (dt : datetime) (h mi s us : Z) : Result datetime :=
  datetime_new (year dt) (month dt) (day dt) h mi s us.

(** Comparison of naive datetimes is the lexicographic comparison of the
    seven fields. *)
Definition dt_fields (dt : datetime) : list Z :=
  [year dt; month dt; day dt; hour dt; minute dt; second dt; microsecond dt].

Fixpoint lex_compare (a b : list Z) : comparison :=
  match a, b with
  | [], [] => Eq
  | [], _ :: _ => Lt
  | _ :: _, [] => Gt
  | x :: a', y :: b' =>
      match x ?= y with
      | Eq => lex_compare a' b'
      | c => c
      end
  end.

Definition dt_compare (a b : datetime) : comparison :=
  lex_compare (dt_fields a) (dt_fields b).

Definition dt_ltb (a b : datetime) : bool :=
  match dt_compare a b with Lt => true | _ => false end.
Definition dt_leb (a b : datetime) : bool :=
  match dt_compare a b with Gt => false | _ => true end.
Definition dt_eqb (a b : datetime) : bool :=
  match dt_compare a b with Eq => true | _ => false end.

(** *** Calendar arithmetic

    [dt + timedelta] in the library goes through the proleptic Gregorian
    ordinal of the date; here the date is moved one calendar day at a time,
    which is the same function, and the result is out of range exactly when
    it leaves the years 1..9999. *)

Definition succ_day (dt : datetime) : Result datetime :=
  if day dt <? _days_in_month (year dt) (month dt) then
    Ok (mkdt (year dt) (month dt) (day dt + 1)
          (hour dt) (minute dt) (second dt) (microsecond dt))
  else if month dt <? 12 then
    Ok (mkdt (year dt) (month dt + 1) 1
          (hour dt) (minute dt) (second dt) (microsecond dt))
  else if year dt <? MAXYEAR then
    Ok (mkdt (year dt + 1) 1 1
          (hour dt) (minute dt) (second dt) (microsecond dt))
  else Raise (OverflowError "date value out of range").

Definition pred_day (dt : datetime) : Result datetime :=
  if 1 <? day dt then
    Ok (mkdt (year dt) (month dt) (day dt - 1)
          (hour dt) (minute dt) (second dt) (microsecond dt))
  else if 1 <? month dt then
    Ok (mkdt (year dt) (month dt - 1) (_days_in_month (year dt) (month dt - 1))
          (hour dt) (minute dt) (second dt) (microsecond dt))
  else if MINYEAR <? year dt then
    Ok (mkdt (year dt - 1) 12 31
          (hour dt) (minute dt) (second dt) (microsecond dt))
  else Raise (OverflowError "date value out of range").

Definition step_result (f : datetime -> Result datetime)
    (r : Result datetime) : Result datetime := rbind r f.

(** Move the date by [n] calendar days, forwards or backwards. *)
Definition shift_days (n : Z) (dt : datetime) : Result datetime :=
  match n with
  | Z0 => Ok dt
  | Zpos p => Pos.iter (step_result succ_day) (Ok dt) p
  | Zneg p => Pos.iter (step_result pred_day) (Ok dt) p
  end.

(** A [timedelta] is kept as its total number of microseconds; the
    constructor refuses, as the library does, a magnitude of more than
    999999999 days. *)
Record timedelta := mktd { td_us : Z }.

Definition US_PER_SECOND : Z := 1000000.
Definition US_PER_DAY : Z := 86400 * US_PER_SECOND.

Definition timedelta_new (days hours minutes weeks : Z) : Result timedelta :=
  let us := (((days + 7 * weeks) * 24 + hours) * 60 + minutes) * 60 * US_PER_SECOND in
  if ((-999999999) <=? us / US_PER_DAY) && (us / US_PER_DAY <=? 999999999)
  then Ok (mktd us)
  else Raise (OverflowError "days out of range for timedelta").

Definition time_of_day_us (dt : datetime) : Z :=
  ((hour dt * 60 + minute dt) * 60 + second dt) * US_PER_SECOND + microsecond dt.

Definition with_time_of_day (dt : datetime) (us : Z) : datetime :=
  mkdt (year dt) (month dt) (day dt)
    (us / US_PER_SECOND / 3600)
    (us / US_PER_SECOND / 60 mod 60)
    (us / US_PER_SECOND mod 60)
    (us mod US_PER_SECOND).

(** [dt + td] *)
Definition dt_add (dt : datetime) (td : timedelta) : Result datetime :=
  let total := time_of_day_us dt + td_us td in
  d ← shift_days (total / US_PER_DAY) dt;
  Ok (with_time_of_day d (total mod US_PER_DAY)).

(** [dt - td] *)
Definition dt_sub (dt : datetime) (td : timedelta) : Result datetime :=
  dt_add dt (mktd (- td_us td)).

(** ** Recurrence Calculator ([DeadlineService._calculate_next_due_date])

    The [try ... except Exception as e: raise e] around the body re-raises
    what the body raised, so the result of the body is the result. *)

Definition _calculate_next_due_date (current_due_date : datetime)
    (recurrence_pattern : string) : Result datetime :=
  if String.eqb recurrence_pattern "daily" then
    td ← timedelta_new 1 0 0 0;
    dt_add current_due_date td
  else if String.eqb recurrence_pattern "weekly" then
    td ← timedelta_new 0 0 0 1;
    dt_add current_due_date td
  else if String.eqb recurrence_pattern "monthly" then
    if month current_due_date =? 12 then
      replace current_due_date (Some (year current_due_date + 1)) (Some 1) None
    else
      replace current_due_date None (Some (month current_due_date + 1)) None
  else if String.eqb recurrence_pattern "quarterly" then
    let new_month := month current_due_date + 3 in
    let new_year := year current_due_date in
    let '(new_month, new_year) :=
      if new_month >? 12 then (new_month - 12, new_year + 1)
      else (new_month, new_year) in
    replace current_due_date (Some new_year) (Some new_month) None
  else if String.eqb recurrence_pattern "annually" then
    replace current_due_date (Some (year current_due_date + 1)) None None
  else
    replace current_due_date None (Some (month current_due_date + 1)) None.

(** ** Strings: the few library functions the services use *)

Definition digit_char (d : Z) : ascii :=
  ascii_of_N (48 + Z.to_N d).

Fixpoint decimal_digits (fuel : nat) (n : Z) (acc : string) : string :=
  match fuel with
  | O => acc
  | S fuel' =>
      let acc' := String (digit_char (n mod 10)) acc in
      if n <? 10 then acc' else decimal_digits fuel' (n / 10) acc'
  end.

(** [str(n)] for an [int] *)
Definition str_of_int (n : Z) : string :=
  if n <? 0 then "-" +:+ decimal_digits (S (Z.to_nat (Z.log2 (- n)))) (- n) ""
  else decimal_digits (S (Z.to_nat (Z.log2 n))) n "".

Fixpoint zeros (n : nat) : string :=
  match n with
  | O => EmptyString
  | S n' => String "0" (zeros n')
  end.

Definition zero_pad (width : nat) (s : string) : string :=
  zeros (width - String.length s) +:+ s.

(** [dt.strftime('%Y-%m-%d')] and [dt.strftime('%H:%M')], with the zero
    padding of the library documentation. *)
Definition strftime_Ymd (dt : datetime) : string :=
  zero_pad 4 (str_of_int (year dt)) +:+ "-" +:+
  zero_pad 2 (str_of_int (month dt)) +:+ "-" +:+
  zero_pad 2 (str_of_int (day dt)).

Definition strftime_HM (dt : datetime) : string :=
  zero_pad 2 (str_of_int (hour dt)) +:+ ":" +:+ zero_pad 2 (str_of_int (minute dt)).

Definition is_upper (c : ascii) : bool :=
  let n := N_of_ascii c in (65 <=? n)%N && (n <=? 90)%N.
Definition is_lower (c : ascii) : bool :=
  let n := N_of_ascii c in (97 <=? n)%N && (n <=? 122)%N.
Definition to_upper (c : ascii) : ascii :=
  if is_lower c then ascii_of_N (N_of_ascii c - 32) else c.
Definition to_lower (c : ascii) : ascii :=
  if is_upper c then ascii_of_N (N_of_ascii c + 32) else c.

(** [s.title()] on ASCII text: the first letter of every run of letters is
    upper-cased, the others lower-cased. *)
Fixpoint title_from (previous_is_cased : bool) (s : string) : string :=
  match s with
  | EmptyString => EmptyString
  | String c r =>
      if is_upper c || is_lower c then
        String (if previous_is_cased then to_lower c else to_upper c)
          (title_from true r)
      else String c (title_from false r)
  end.
Definition title (s : string) : string := title_from false s.

(** [s.split(':')] *)
Fixpoint split_colon (s : string) : list string :=
  match s with
  | EmptyString => [EmptyString]
  | String c r =>
      let parts := split_colon r in
      if Ascii.eqb c ":" then EmptyString :: parts
      else match parts with
           | p :: ps => String c p :: ps
           | [] => [String c EmptyString]
           end
  end.

Definition is_space (c : ascii) : bool :=
  let n := N_of_ascii c in
  ((9 <=? n)%N && (n <=? 13)%N) || ((28 <=? n)%N && (n <=? 32)%N).
Definition is_digit (c : ascii) : bool :=
  let n := N_of_ascii c in (48 <=? n)%N && (n <=? 57)%N.

Fixpoint all_space (s : string) : bool :=
  match s with
  | EmptyString => true
  | String c r => is_space c && all_space r
  end.

Fixpoint lstrip (s : string) : string :=
  match s with
  | EmptyString => EmptyString
  | String c r => if is_space c then lstrip r else s
  end.

(** The digits of an [int] literal: decimal digits, with single
    underscores allowed between two digits, followed by white space only. *)
Fixpoint int_digits (s : string) (acc : Z) (after_digit : bool) : option Z :=
  match s with
  | EmptyString => if after_digit then Some acc else None
  | String c r =>
      if is_digit c then
        int_digits r (10 * acc + (Z.of_N (N_of_ascii c) - 48)) true
      else if Ascii.eqb c "_" then
        if after_digit then int_digits r acc false else None
      else if is_space c && after_digit && all_space r then Some acc
      else None
  end.

(** [int(s)] for a [str] of ASCII characters; anything else is the
    [ValueError] of the builtin. *)
Definition py_int (s : string) : Result Z :=
  let invalid := Raise (ValueError "invalid literal for int() with base 10") in
  match lstrip s with
  | String "+" r => from_option Ok invalid (int_digits r 0 false)
  | String "-" r => from_option (fun n => Ok (- n)) invalid (int_digits r 0 false)
  | r => from_option Ok invalid (int_digits r 0 false)
  end.

(** ** Rows ([models.py])

    JSON columns hold JSON values; the preferences of a user are a JSON
    object read with [dict.get(key, default)], so the default only applies
    to an absent key. *)

Inductive JValue :=
  | JNull
  | JBool (b : bool)
  | JNum (n : Z)
  | JStr (s : string).

(** Truth value of a JSON scalar in a Python condition. *)
Definition truthy (v : JValue) : bool :=
  match v with
  | JNull => false
  | JBool b => b
  | JNum n => negb (n =? 0)
  | JStr s => negb (String.eqb s "")
  end.

Inductive NotificationType := EMAIL | SMS | WHATSAPP | PUSH.
Inductive DeadlineType := GST_FILING | RENEWAL | COMPLIANCE | CUSTOM.

#[export] Instance NotificationType_eq_dec : EqDecision NotificationType.
Proof. solve_decision. Defined.
#[export] Instance DeadlineType_eq_dec : EqDecision DeadlineType.
Proof. solve_decision. Defined.

(** [DeadlineType(value)]: the enum member of a value, [ValueError] for a
    string that is no member. *)
Definition DeadlineType_of_value (v : string) : Result DeadlineType :=
  if String.eqb v "gst_filing" then Ok GST_FILING
  else if String.eqb v "renewal" then Ok RENEWAL
  else if String.eqb v "compliance" then Ok COMPLIANCE
  else if String.eqb v "custom" then Ok CUSTOM
  else Raise (ValueError "is not a valid DeadlineType").

Module User.
Record t := mk {
  id : Z;
  email : string;
  phone : option string;
  timezone : string;
  notification_preferences : option (gmap string JValue)
}.
End User.

(** The [meta_data] column is left out: the services pass [metadata=...],
    which is not that column, and nothing reads it back. *)
Module Deadline.
Record t := mk {
  id : Z;
  user_id : Z;
  document_id : option Z;
  title : string;
  description : option string;
  deadline_type : DeadlineType;
  due_date : datetime;
  is_recurring : bool;
  recurrence_pattern : option string;
  reminder_days : list Z;
  is_completed : bool;
  completed_at : option datetime;
  created_at : datetime;
  updated_at : datetime
}.

Definition with_id (i : Z) (d : t) : t :=
  mk i (user_id d) (document_id d) (title d) (description d)
    (deadline_type d) (due_date d) (is_recurring d) (recurrence_pattern d)
    (reminder_days d) (is_completed d) (completed_at d) (created_at d)
    (updated_at d).
Definition set_title (v : string) (d : t) : t :=
  mk (id d) (user_id d) (document_id d) v (description d)
    (deadline_type d) (due_date d) (is_recurring d) (recurrence_pattern d)
    (reminder_days d) (is_completed d) (completed_at d) (created_at d)
    (updated_at d).
Definition set_description (v : option string) (d : t) : t :=
  mk (id d) (user_id d) (document_id d) (title d) v
    (deadline_type d) (due_date d) (is_recurring d) (recurrence_pattern d)
    (reminder_days d) (is_completed d) (completed_at d) (created_at d)
    (updated_at d).
Definition set_due_date (v : datetime) (d : t) : t :=
  mk (id d) (user_id d) (document_id d) (title d) (description d)
    (deadline_type d) v (is_recurring d) (recurrence_pattern d)
    (reminder_days d) (is_completed d) (completed_at d) (created_at d)
    (updated_at d).
Definition set_is_recurring (v : bool) (d : t) : t :=
  mk (id d) (user_id d) (document_id d) (title d) (description d)
    (deadline_type d) (due_date d) v (recurrence_pattern d)
    (reminder_days d) (is_completed d) (completed_at d) (created_at d)
    (updated_at d).
Definition set_recurrence_pattern (v : option string) (d : t) : t :=
  mk (id d) (user_id d) (document_id d) (title d) (description d)
    (deadline_type d) (due_date d) (is_recurring d) v
    (reminder_days d) (is_completed d) (completed_at d) (created_at d)
    (updated_at d).
Definition set_reminder_days (v : list Z) (d : t) : t :=
  mk (id d) (user_id d) (document_id d) (title d) (description d)
    (deadline_type d) (due_date d) (is_recurring d) (recurrence_pattern d)
    v (is_completed d) (completed_at d) (created_at d) (updated_at d).
Definition set_is_completed (v : bool) (d : t) : t :=
  mk (id d) (user_id d) (document_id d) (title d) (description d)
    (deadline_type d) (due_date d) (is_recurring d) (recurrence_pattern d)
    (reminder_days d) v (completed_at d) (created_at d) (updated_at d).
Definition set_completed_at (v : option datetime) (d : t) : t :=
  mk (id d) (user_id d) (document_id d) (title d) (description d)
    (deadline_type d) (due_date d) (is_recurring d) (recurrence_pattern d)
    (reminder_days d) (is_completed d) v (created_at d) (updated_at d).
Definition set_updated_at (v : datetime) (d : t) : t :=
  mk (id d) (user_id d) (document_id d) (title d) (description d)
    (deadline_type d) (due_date d) (is_recurring d) (recurrence_pattern d)
    (reminder_days d) (is_completed d) (completed_at d) (created_at d) v.
End Deadline.

Module Notification.
Record t := mk {
  id : Z;
  user_id : Z;
  deadline_id : option Z;
  title : string;
  message : string;
  notification_type : NotificationType;
  is_sent : bool;
  sent_at : option datetime;
  scheduled_for : datetime;
  created_at : datetime
}.

Definition with_id (i : Z) (n : t) : t :=
  mk i (user_id n) (deadline_id n) (title n) (message n)
    (notification_type n) (is_sent n) (sent_at n) (scheduled_for n)
    (created_at n).
Definition set_scheduled_for (v : datetime) (n : t) : t :=
  mk (id n) (user_id n) (deadline_id n) (title n) (message n)
    (notification_type n) (is_sent n) (sent_at n) v (created_at n).
Definition set_is_sent (v : bool) (n : t) : t :=
  mk (id n) (user_id n) (deadline_id n) (title n) (message n)
    (notification_type n) v (sent_at n) (scheduled_for n) (created_at n).
Definition set_sent_at (v : option datetime) (n : t) : t :=
  mk (id n) (user_id n) (deadline_id n) (title n) (message n)
    (notification_type n) (is_sent n) v (scheduled_for n) (created_at n).
End Notification.

(** ** The record store and the SQLAlchemy session

    A table is the list of its rows in insertion order.  The session keeps
    the committed database and the working copy that queries read and that
    mutations and [add] change; [commit] publishes the working copy,
    [rollback] throws it away.  A new row gets its primary key when it is
    added: one more than the largest key of the table.

    The foreign keys that [models.py] declares ([deadlines.user_id],
    [notifications.user_id], [notifications.deadline_id]) are checked by
    the database when it enforces them (PostgreSQL, the default of
    [config.py]; SQLite, of the test configuration, does not), not by
    the session: [commit] and [db.session.delete] here are those of a
    transaction that the database accepts.  The statements on the
    deletion of a deadline and on the creation of a deadline with its
    reminders say in their hypotheses which references hold.

    [outbox] is the trace of the calls made to a channel sender
    ([_send_email], [_send_sms], [_send_whatsapp], [_send_push]): the id of
    the notification and the channel.  It is not part of the database. *)

Record DB := mkDB {
  users : list User.t;
  deadlines : list Deadline.t;
  notifications : list Notification.t
}.

Record Session := mkSession {
  committed : DB;
  working : DB;
  outbox : list (Z * NotificationType)
}.

Definition clean (db : DB) : Session := mkSession db db [].

Definition M (A : Type) : Type := Session -> Result A * Session.

Definition ret {A} (a : A) : M A := fun s => (Ok a, s).
Definition bind {A B} (m : M A) (k : A -> M B) : M B :=
  fun s =>
    match m s with
    | (Ok a, s') => k a s'
    | (Raise e, s') => (Raise e, s')
    end.
#[export] Instance M_bind : MBind M := λ A B k m, bind m k.
#[export] Instance M_ret : MRet M := @ret.

Definition raise {A} (e : Exn) : M A := fun s => (Raise e, s).

(** [try: body  except Exception as e: handler(e)] *)
Definition try_except {A} (body : M A) (handler : Exn -> M A) : M A :=
  fun s =>
    match body s with
    | (Ok a, s') => (Ok a, s')
    | (Raise e, s') => handler e s'
    end.

(** A pure computation that may raise, run inside the session. *)
Definition lift {A} (r : Result A) : M A := fun s => (r, s).

Definition get_working : M DB := fun s => (Ok (working s), s).
Definition put_working (db : DB) : M unit :=
  fun s => (Ok tt, mkSession (committed s) db (outbox s)).

(** [db.session.commit()] and [db.session.rollback()] *)
Definition commit : M unit :=
  fun s => (Ok tt, mkSession (working s) (working s) (outbox s)).
Definition rollback : M unit :=
  fun s => (Ok tt, mkSession (committed s) (committed s) (outbox s)).

Definition log_send (nid : Z) (ch : NotificationType) : M unit :=
  fun s => (Ok tt, mkSession (committed s) (working s) (outbox s ++ [(nid, ch)])).

Definition next_id (ids : list Z) : Z := foldr Z.max 0 ids + 1.

(** [User.query.get(user_id)] *)
Definition User_query_get (user_id : Z) : M (option User.t) :=
  db ← get_working;
  ret (find (fun u => User.id u =? user_id) (users db)).

(** [Deadline.query.filter_by(id=.., user_id=..).first()] *)
Definition Deadline_query_first (deadline_id user_id : Z) : M (option Deadline.t) :=
  db ← get_working;
  ret (find (fun d => (Deadline.id d =? deadline_id)
                       && (Deadline.user_id d =? user_id)) (deadlines db)).

(** [db.session.add(deadline)] for a new object: the row joins the table
    and the object gets its key. *)
Definition session_add_deadline (d : Deadline.t) : M Deadline.t :=
  db ← get_working;
  let d' := Deadline.with_id (next_id (Deadline.id <$> deadlines db)) d in
  _ ← put_working (mkDB (users db) (deadlines db ++ [d']) (notifications db));
  ret d'.

Definition session_add_notification (n : Notification.t) : M Notification.t :=
  db ← get_working;
  let n' := Notification.with_id (next_id (Notification.id <$> notifications db)) n in
  _ ← put_working (mkDB (users db) (deadlines db) (notifications db ++ [n']));
  ret n'.

(** An attribute assignment on a persistent object changes its row, the
    one with the object's key. *)
Definition update_rows {A} (key : A -> Z) (k : Z) (f : A -> A) (rows : list A) : list A :=
  (fun r => if key r =? k then f r else r) <$> rows.

Definition modify_deadline (deadline_id : Z) (f : Deadline.t -> Deadline.t) : M unit :=
  db ← get_working;
  put_working (mkDB (users db)
                 (update_rows Deadline.id deadline_id f (deadlines db))
                 (notifications db)).

Definition modify_notification (nid : Z) (f : Notification.t -> Notification.t) : M unit :=
  db ← get_working;
  put_working (mkDB (users db) (deadlines db)
                 (update_rows Notification.id nid f (notifications db))).

(** [db.session.delete(deadline)] *)
Definition session_delete_deadline (deadline_id : Z) : M unit :=
  db ← get_working;
  put_working (mkDB (users db)
                 (filter (fun d => Deadline.id d ≠ deadline_id) (deadlines db))
                 (notifications db)).

Fixpoint for_each {A} (l : list A) (body : A -> M unit) : M unit :=
  match l with
  | [] => ret tt
  | x :: l' => _ ← body x; for_each l' body
  end.

(** ** What the services take from outside

    [pytz_timezone name] is the zone of an IANA name, as the offset from
    UTC, in minutes, that the zone has at a UTC instant; [None] is
    [UnknownTimeZoneError].  [fromisoformat] is [datetime.fromisoformat].
    The mail and Twilio fields say whether the credentials are configured
    and whether a delivery that is attempted succeeds. *)

Record Env := mkEnv {
  pytz_timezone : string -> option (datetime -> Z);
  fromisoformat : string -> Result datetime;
  MAIL_USERNAME : bool;
  twilio_client : bool;
  smtp_delivers : User.t -> Notification.t -> bool;
  twilio_delivers : NotificationType -> User.t -> Notification.t -> bool
}.

(** [prefs.get(key, default)] *)
Definition dict_get (prefs : gmap string JValue) (key : string) (dflt : JValue) : JValue :=
  default dflt (prefs !! key).

(** [user.notification_preferences or {}] *)
Definition prefs_of (user : User.t) : gmap string JValue :=
  default ∅ (User.notification_preferences user).

(** [user.phone] as a condition: a phone number that is not empty. *)
Definition has_phone (user : User.t) : bool :=
  match User.phone user with
  | Some p => negb (String.eqb p "")
  | None => false
  end.

(** [a <= b] on JSON scalars: strings compare lexicographically, numbers
    and booleans numerically, and any other pair is a [TypeError]. *)
Definition num_of (v : JValue) : option Z :=
  match v with
  | JBool b => Some (if b then 1 else 0)
  | JNum n => Some n
  | _ => None
  end.

Definition py_le (a b : JValue) : Result bool :=
  match a, b with
  | JStr x, JStr y => Ok (String.leb x y)
  | _, _ =>
      match num_of a, num_of b with
      | Some x, Some y => Ok (x <=? y)
      | _, _ => Raise (TypeError "'<=' not supported between instances")
      end
  end.

(** [a >= b] *)
Definition py_ge (a b : JValue) : Result bool := py_le b a.

(** ** Quiet-Hours Policy ([NotificationService]) *)

(** [notification_time.replace(tzinfo=pytz.UTC).astimezone(user_tz)]: the
    local wall-clock time, and the offset of the zone it was computed
    with. *)
Definition astimezone (tz : datetime -> Z) (utc : datetime) : Result (datetime * Z) :=
  let offset := tz utc in
  td ← timedelta_new 0 0 offset 0;
  local_time ← dt_add utc td;
  Ok (local_time, offset).

Definition lookup_timezone (env : Env) (name : string) : Result (datetime -> Z) :=
  match pytz_timezone env name with
  | Some tz => Ok tz
  | None => Raise (UnknownTimeZoneError name)
  end.

Definition _is_quiet_hours (env : Env) (user : User.t) (notification_time : datetime) : bool :=
  let body : Result bool :=
    let prefs := prefs_of user in
    let quiet_start := dict_get prefs "quiet_hours_start" (JStr "22:00") in
    let quiet_end := dict_get prefs "quiet_hours_end" (JStr "08:00") in
    user_tz ← lookup_timezone env (User.timezone user);
    '(local_time, _) ← astimezone user_tz notification_time;
    let time_str := JStr (strftime_HM local_time) in
    same_day ← py_le quiet_start quiet_end;
    if same_day : bool then
      after_start ← py_le quiet_start time_str;
      if after_start : bool then py_le time_str quiet_end else Ok false
    else
      after_start ← py_ge time_str quiet_start;
      if after_start : bool then Ok true else py_le time_str quiet_end
  in
  match body with
  | Ok b => b
  | Raise _ => false
  end.

Definition _get_next_available_time (env : Env) (user : User.t)
    (notification_time : datetime) : Result datetime :=
  let body : Result datetime :=
    let prefs := prefs_of user in
    let quiet_end := dict_get prefs "quiet_hours_end" (JStr "08:00") in
    user_tz ← lookup_timezone env (User.timezone user);
    '(local_time, offset) ← astimezone user_tz notification_time;
    parts ← match quiet_end with
            | JStr s => Ok (split_colon s)
            | _ => Raise (AttributeError "object has no attribute 'split'")
            end;
    '(hour, minute) ← match parts with
                      | [h; m] => h' ← py_int h; m' ← py_int m; Ok (h', m')
                      | _ => Raise (ValueError "cannot unpack into hour, minute")
                      end;
    next_time ← replace_time local_time hour minute 0 0;
    next_time ← (if dt_leb next_time local_time then
                   td ← timedelta_new 1 0 0 0; dt_add next_time td
                 else Ok next_time);
    back ← timedelta_new 0 0 offset 0;
    dt_sub next_time back
  in
  match body with
  | Ok t => Ok t
  | Raise _ =>
      td ← timedelta_new 0 1 0 0;
      dt_add notification_time td
  end.

(** ** Notification Scheduler and Dispatcher ([NotificationService])

    [datetime.utcnow()] is the argument [now]: the reads of the clock
    within one call of a service are taken to give the same instant. *)

Definition _create_notification (now : datetime) (user_id : Z) (deadline_id : option Z)
    (title message : string) (notification_type : NotificationType)
    (scheduled_for : datetime) : M Notification.t :=
  try_except
    (notification ← session_add_notification
       (Notification.mk 0 user_id deadline_id title message notification_type
          false None scheduled_for now);
     _ ← commit;
     ret notification)
    (fun e => _ ← rollback; raise e).

Definition reminder_title (deadline : Deadline.t) : string :=
  "Reminder: " +:+ Deadline.title deadline.

(** The message of the e-mail reminder, and the shorter one of the other
    three channels. *)
Definition email_message (deadline : Deadline.t) (days_before : Z) : string :=
  "Your deadline '" +:+ Deadline.title deadline +:+ "' is due in " +:+
  str_of_int days_before +:+ " days on " +:+
  strftime_Ymd (Deadline.due_date deadline) +:+ ".".

Definition short_message (deadline : Deadline.t) (days_before : Z) : string :=
  "Deadline '" +:+ Deadline.title deadline +:+ "' due in " +:+
  str_of_int days_before +:+ " days on " +:+
  strftime_Ymd (Deadline.due_date deadline) +:+ ".".

Definition when (c : bool) (m : M unit) : M unit := if c then m else ret tt.

(** The body of the loop over [deadline.reminder_days]. *)
Definition schedule_reminder_day (now : datetime) (deadline : Deadline.t) (user : User.t)
    (prefs : gmap string JValue) (days_before : Z) : M unit :=
  td ← lift (timedelta_new days_before 0 0 0);
  notification_date ← lift (dt_sub (Deadline.due_date deadline) td);
  if dt_leb notification_date now then ret tt
  else
    _ ← when (truthy (dict_get prefs "email" (JBool true)))
          (_ ← _create_notification now (Deadline.user_id deadline)
                 (Some (Deadline.id deadline)) (reminder_title deadline)
                 (email_message deadline days_before)
                 EMAIL notification_date;
           ret tt);
    _ ← when (truthy (dict_get prefs "sms" (JBool false)) && has_phone user)
          (_ ← _create_notification now (Deadline.user_id deadline)
                 (Some (Deadline.id deadline)) (reminder_title deadline)
                 (short_message deadline days_before)
                 SMS notification_date;
           ret tt);
    _ ← when (truthy (dict_get prefs "whatsapp" (JBool false)) && has_phone user)
          (_ ← _create_notification now (Deadline.user_id deadline)
                 (Some (Deadline.id deadline)) (reminder_title deadline)
                 (short_message deadline days_before)
                 WHATSAPP notification_date;
           ret tt);
    when (truthy (dict_get prefs "push" (JBool true)))
      (_ ← _create_notification now (Deadline.user_id deadline)
             (Some (Deadline.id deadline)) (reminder_title deadline)
             (short_message deadline days_before)
             PUSH notification_date;
       ret tt).

Definition schedule_deadline_notifications (now : datetime) (deadline : Deadline.t) : M unit :=
  try_except
    (user ← User_query_get (Deadline.user_id deadline);
     match user with
     | None => ret tt
     | Some user =>
         let prefs := prefs_of user in
         for_each (Deadline.reminder_days deadline)
           (schedule_reminder_day now deadline user prefs)
     end)
    (fun e => raise e).

(** The channel senders catch every exception and answer [False]; a call
    that reaches the external service is recorded in the outbox. *)
Definition _send_email (env : Env) (user : User.t) (notification : Notification.t) : M bool :=
  if negb (MAIL_USERNAME env) then ret false
  else
    _ ← log_send (Notification.id notification) EMAIL;
    ret (smtp_delivers env user notification).

Definition _send_sms (env : Env) (user : User.t) (notification : Notification.t) : M bool :=
  if negb (twilio_client env) || negb (has_phone user) then ret false
  else
    _ ← log_send (Notification.id notification) SMS;
    ret (twilio_delivers env SMS user notification).

Definition _send_whatsapp (env : Env) (user : User.t) (notification : Notification.t) : M bool :=
  if negb (twilio_client env) || negb (has_phone user) then ret false
  else
    _ ← log_send (Notification.id notification) WHATSAPP;
    ret (twilio_delivers env WHATSAPP user notification).

Definition _send_push (env : Env) (user : User.t) (notification : Notification.t) : M bool :=
  _ ← log_send (Notification.id notification) PUSH;
  ret true.

(** [notification] is a persistent object: its attributes are those of
    the row the dispatcher selected, and an assignment to one of them
    changes the row with its key. *)
Definition send_notification (env : Env) (now : datetime) (notification : Notification.t) : M bool :=
  try_except
    (user ← User_query_get (Notification.user_id notification);
     match user with
     | None => ret false
     | Some user =>
         if _is_quiet_hours env user (Notification.scheduled_for notification) then
           next_time ← lift (_get_next_available_time env user
                               (Notification.scheduled_for notification));
           _ ← modify_notification (Notification.id notification)
                 (Notification.set_scheduled_for next_time);
           _ ← commit;
           ret true
         else
           success ← match Notification.notification_type notification with
                     | EMAIL => _send_email env user notification
                     | SMS => _send_sms env user notification
                     | WHATSAPP => _send_whatsapp env user notification
                     | PUSH => _send_push env user notification
                     end;
           _ ← modify_notification (Notification.id notification)
                 (fun n => Notification.set_sent_at (if success : bool then Some now else None)
                             (Notification.set_is_sent success n));
           _ ← commit;
           ret success
     end)
    (fun e => _ ← rollback; raise e).

(** The rows that [get_pending_notifications] selects. *)
Definition pending_rows (now : datetime) (db : DB) : list Notification.t :=
  List.filter (fun n => dt_leb (Notification.scheduled_for n) now
                        && negb (Notification.is_sent n))
    (notifications db).

Definition get_pending_notifications (now : datetime) : M (list Notification.t) :=
  try_except
    (db ← get_working; ret (pending_rows now db))
    (fun e => raise e).

Definition process_pending_notifications (env : Env) (now : datetime) : M Z :=
  try_except
    (pending_notifications ← get_pending_notifications now;
     _ ← for_each pending_notifications
           (fun notification => _ ← send_notification env now notification; ret tt);
     ret (Z.of_nat (length pending_notifications)))
    (fun e => raise e).

Definition mark_notification_sent (now : datetime) (notification_id user_id : Z) : M Notification.t :=
  try_except
    (db ← get_working;
     match find (fun n => (Notification.id n =? notification_id)
                          && (Notification.user_id n =? user_id)) (notifications db) with
     | None => raise (ValueError "Notification not found")
     | Some notification =>
         let notification :=
           Notification.set_sent_at (Some now) (Notification.set_is_sent true notification) in
         _ ← modify_notification notification_id
               (fun n => Notification.set_sent_at (Some now) (Notification.set_is_sent true n));
         _ ← commit;
         ret notification
     end)
    (fun e => _ ← rollback; raise e).

(** The periodic task [process_deadline_reminders] of [celery_app.py]: one
    sweep; an exception of the sweep is printed and the task answers
    [False] ([None] here). *)
Definition process_deadline_reminders (env : Env) (now : datetime) : M (option Z) :=
  try_except
    (count ← process_pending_notifications env now; ret (Some count))
    (fun e => ret None).

(** The sweeps of a schedule, one after the other, each with the clock
    and the outside world of its own time. *)
Fixpoint run_sweeps (schedule : list (Env * datetime)) (s : Session) : Session :=
  match schedule with
  | [] => s
  | (env, now) :: rest => run_sweeps rest (process_deadline_reminders env now s).2
  end.

(** ** Deadline Lifecycle Manager ([DeadlineService])

    The request payloads [deadline_data] and [update_data] are JSON
    objects: a field is [None] when the key is absent; [description],
    [document_id] and [recurrence_pattern] may be present with the value
    null. *)

Inductive DueDate :=
  | DueStr (s : string)
  | DueDatetime (dt : datetime).

Record Payload := mkPayload {
  p_due_date : option DueDate;
  p_document_id : option (option Z);
  p_title : option string;
  p_description : option (option string);
  p_deadline_type : option string;
  p_is_recurring : option bool;
  p_recurrence_pattern : option (option string);
  p_reminder_days : option (list Z)
}.

(** [d[key]] *)
Definition item {A} (key : string) (v : option A) : Result A :=
  match v with
  | Some a => Ok a
  | None => Raise (KeyError key)
  end.

(** [s.replace('Z', '+00:00')] *)
Fixpoint replace_Z (s : string) : string :=
  match s with
  | EmptyString => EmptyString
  | String c r => if Ascii.eqb c "Z" then "+00:00" +:+ replace_Z r else String c (replace_Z r)
  end.

Definition parse_due_date (env : Env) (v : DueDate) : Result datetime :=
  match v with
  | DueStr s => fromisoformat env (replace_Z s)
  | DueDatetime dt => Ok dt
  end.

(** A recurrence pattern as a condition: a string that is not empty. *)
Definition pattern_truthy (p : option string) : bool :=
  match p with
  | Some s => negb (String.eqb s "")
  | None => false
  end.

Definition create_deadline (env : Env) (now : datetime) (user_id : Z)
    (deadline_data : Payload) : M Deadline.t :=
  try_except
    (raw ← lift (item "due_date" (p_due_date deadline_data));
     due_date ← lift (parse_due_date env raw);
     title ← lift (item "title" (p_title deadline_data));
     type_value ← lift (item "deadline_type" (p_deadline_type deadline_data));
     deadline_type ← lift (DeadlineType_of_value type_value);
     deadline ← session_add_deadline
       (Deadline.mk 0 user_id
          (default None (p_document_id deadline_data))
          title
          (default None (p_description deadline_data))
          deadline_type
          due_date
          (default false (p_is_recurring deadline_data))
          (default None (p_recurrence_pattern deadline_data))
          (default [7; 3; 1] (p_reminder_days deadline_data))
          false None now now);
     _ ← commit;
     _ ← schedule_deadline_notifications now deadline;
     ret deadline)
    (fun e => _ ← rollback; raise e).

(** [deadline.attr = value] on a persistent deadline: the row changes and
    so does the object at hand. *)
Definition setattr (f : Deadline.t -> Deadline.t) (deadline : Deadline.t) : M Deadline.t :=
  _ ← modify_deadline (Deadline.id deadline) f;
  ret (f deadline).

Definition set_if_present {A} (v : option A) (f : A -> Deadline.t -> Deadline.t)
    (deadline : Deadline.t) : M Deadline.t :=
  match v with
  | Some a => setattr (f a) deadline
  | None => ret deadline
  end.

Definition update_deadline (env : Env) (now : datetime) (deadline_id user_id : Z)
    (update_data : Payload) : M Deadline.t :=
  try_except
    (found ← Deadline_query_first deadline_id user_id;
     match found with
     | None => raise (ValueError "Deadline not found")
     | Some deadline =>
         deadline ← set_if_present (p_title update_data) Deadline.set_title deadline;
         deadline ← set_if_present (p_description update_data) Deadline.set_description deadline;
         deadline ← match p_due_date update_data with
                    | Some raw =>
                        due_date ← lift (parse_due_date env raw);
                        setattr (Deadline.set_due_date due_date) deadline
                    | None => ret deadline
                    end;
         deadline ← set_if_present (p_is_recurring update_data) Deadline.set_is_recurring deadline;
         deadline ← set_if_present (p_recurrence_pattern update_data)
                      Deadline.set_recurrence_pattern deadline;
         deadline ← set_if_present (p_reminder_days update_data)
                      Deadline.set_reminder_days deadline;
         deadline ← setattr (Deadline.set_updated_at now) deadline;
         _ ← commit;
         _ ← when (bool_decide (is_Some (p_due_date update_data)))
               (schedule_deadline_notifications now deadline);
         ret deadline
     end)
    (fun e => _ ← rollback; raise e).

Definition _create_next_recurring_deadline (now : datetime)
    (completed_deadline : Deadline.t) : M (option Deadline.t) :=
  try_except
    (match Deadline.recurrence_pattern completed_deadline with
     | Some pattern =>
         if String.eqb pattern "" then ret None
         else
           next_due_date ← lift (_calculate_next_due_date
                                   (Deadline.due_date completed_deadline) pattern);
           new_deadline ← session_add_deadline
             (Deadline.mk 0
                (Deadline.user_id completed_deadline)
                (Deadline.document_id completed_deadline)
                (Deadline.title completed_deadline)
                (Deadline.description completed_deadline)
                (Deadline.deadline_type completed_deadline)
                next_due_date
                (Deadline.is_recurring completed_deadline)
                (Deadline.recurrence_pattern completed_deadline)
                (Deadline.reminder_days completed_deadline)
                false None now now);
           _ ← commit;
           _ ← schedule_deadline_notifications now new_deadline;
           ret (Some new_deadline)
     | None => ret None
     end)
    (fun e => _ ← rollback; raise e).

Definition mark_deadline_completed (now : datetime) (deadline_id user_id : Z) : M Deadline.t :=
  try_except
    (found ← Deadline_query_first deadline_id user_id;
     match found with
     | None => raise (ValueError "Deadline not found")
     | Some deadline =>
         deadline ← setattr (Deadline.set_is_completed true) deadline;
         deadline ← setattr (Deadline.set_completed_at (Some now)) deadline;
         deadline ← setattr (Deadline.set_updated_at now) deadline;
         _ ← commit;
         _ ← (if Deadline.is_recurring deadline
                   && pattern_truthy (Deadline.recurrence_pattern deadline)
              then _ ← _create_next_recurring_deadline now deadline; ret tt
              else ret tt);
         ret deadline
     end)
    (fun e => _ ← rollback; raise e).

Definition delete_deadline (deadline_id user_id : Z) : M bool :=
  try_except
    (found ← Deadline_query_first deadline_id user_id;
     match found with
     | None => raise (ValueError "Deadline not found")
     | Some deadline =>
         _ ← session_delete_deadline (Deadline.id deadline);
         _ ← commit;
         ret true
     end)
    (fun e => _ ← rollback; raise e).

(** ** GST deadline generator ([ComplianceService._create_gst_deadline]) *)

Definition gst_match (user_id : Z) (due_date : datetime) (d : Deadline.t) : bool :=
  (Deadline.user_id d =? user_id)
  && bool_decide (Deadline.deadline_type d = GST_FILING)
  && dt_eqb (Deadline.due_date d) due_date.

Definition _create_gst_deadline (now : datetime) (user_id : Z) (business_type : string)
    (due_date : datetime) : M Deadline.t :=
  try_except
    (db ← get_working;
     match find (gst_match user_id due_date) (deadlines db) with
     | Some existing_deadline => ret existing_deadline
     | None =>
         deadline ← session_add_deadline
           (Deadline.mk 0 user_id None
              ("GST " +:+ title business_type +:+ " Return Filing")
              (Some ("File GST " +:+ business_type +:+ " return by "
                     +:+ strftime_Ymd due_date))
              GST_FILING due_date true (Some business_type) [7; 3; 1]
              false None now now);
         _ ← commit;
         ret deadline
     end)
    (fun e => _ ← rollback; raise e).

(** ** Statements about computations in the session

    [preserves P m]: whatever [m] answers, it takes a session with [P] to
    a session with [P].  [never_raises m]: [m] returns a value from every
    session.  [both Q]: the working copy and the committed database
    satisfy [Q]. *)

Definition preserves {A} (P : Session -> Prop) (m : M A) : Prop :=
  forall s, P s -> P (m s).2.

Definition never_raises {A} (m : M A) : Prop :=
  forall s, is_ok (m s).1 = true.

Definition both (Q : DB -> Prop) (s : Session) : Prop :=
  Q (working s) /\ Q (committed s).

(** ** What the claims speak about *)

(** The instant of the reminder [days_before] days ahead of [due_date],
    as the scheduler computes it. *)
Definition notify_at (due_date : datetime) (days_before : Z) : Result datetime :=
  td ← timedelta_new days_before 0 0 0;
  dt_sub due_date td.

(** The rows of [after] that are tied to the deadline, are not sent, and
    were already stored in [before]. *)
Definition stale_unsent (before after : DB) (deadline_id : Z) : list Notification.t :=
  List.filter
    (fun n => bool_decide (Notification.deadline_id n = Some deadline_id)
              && negb (Notification.is_sent n)
              && existsb (fun m => Notification.id m =? Notification.id n)
                   (notifications before))
    (notifications after).


(** No user row has the key [user_id]. *)
Definition no_such_user (user_id : Z) (db : DB) : Prop :=
  find (fun u => User.id u =? user_id) (users db) = None.

(** The calendar date of [a] lies before the calendar date of [b]. *)
Definition date_lt (a b : datetime) : Prop :=
  year a < year b
  \/ (year a = year b
      /\ (month a < month b \/ (month a = month b /\ day a < day b))).

(** ** What a send may do to the session

    [dated n]: a row that is marked sent carries the instant it was sent
    at.  [row_kept r U db]: the row [r] is stored in [db] as it is, the
    keys of the notifications are distinct, and the users are [U].
    [undisturbed r U s]: that holds of both copies of the database, and
    no channel sender was called for [r]. *)

Definition dated (n : Notification.t) : Prop :=
  Notification.is_sent n = true -> is_Some (Notification.sent_at n).

Definition row_kept (r : Notification.t) (U : list User.t) (db : DB) : Prop :=
  r ∈ notifications db
  /\ NoDup (Notification.id <$> notifications db)
  /\ users db = U.

Definition undisturbed (r : Notification.t) (U : list User.t) (s : Session) : Prop :=
  both (row_kept r U) s
  /\ forall ch, (Notification.id r, ch) ∉ outbox s.

(** The three ways [send_notification] leaves a session: as it was; rolled
    back; or, committed, with the rows of the notification's key changed
    by a function that keeps keys and dates, and with channel calls for
    that key only. *)
Inductive send_effect (n : Notification.t) (s s' : Session) : Prop :=
  | effect_none :
      s' = s -> send_effect n s s'
  | effect_rollback :
      s' = mkSession (committed s) (committed s) (outbox s) -> send_effect n s s'
  | effect_update (f : Notification.t -> Notification.t) (calls : list (Z * NotificationType)) :
      (forall x, Notification.id (f x) = Notification.id x) ->
      (forall x, dated x -> dated (f x)) ->
      Forall (fun c => c.1 = Notification.id n) calls ->
      s' = (let w := mkDB (users (working s)) (deadlines (working s))
                       (update_rows Notification.id (Notification.id n) f
                          (notifications (working s))) in
            mkSession w w (outbox s ++ calls)) ->
      send_effect n s s'.

Definition sent_rows_dated (db : DB) : Prop :=
  forall n, n ∈ notifications db -> dated n.

(** ** The fan-out of reminders *)

(** Every channel is switched on in the preferences of the user, and a
    phone number is on file. *)
Definition all_channels_enabled (user : User.t) : bool :=
  truthy (dict_get (prefs_of user) "email" (JBool true))
  && truthy (dict_get (prefs_of user) "sms" (JBool false))
  && truthy (dict_get (prefs_of user) "whatsapp" (JBool false))
  && truthy (dict_get (prefs_of user) "push" (JBool true))
  && has_phone user.

(** One reminder per channel at each of the instants that lie after
    [now], none at the others. *)
Definition fan_out (now : datetime) (instants : list datetime)
    : list (NotificationType * datetime) :=
  flat_map (fun t => if dt_leb t now then []
                     else [(EMAIL, t); (SMS, t); (WHATSAPP, t); (PUSH, t)])
    instants.

Definition channel_and_instant (n : Notification.t) : NotificationType * datetime :=
  (Notification.notification_type n, Notification.scheduled_for n).

(** A reminder as the scheduler creates it for the deadline: unsent, not
    dated, tied to the deadline and its owner. *)
Definition fresh_reminder (deadline : Deadline.t) (n : Notification.t) : Prop :=
  Notification.is_sent n = false
  /\ Notification.sent_at n = None
  /\ Notification.deadline_id n = Some (Deadline.id deadline)
  /\ Notification.user_id n = Deadline.user_id deadline.

(** Every lead time of the list gives an instant. *)
Definition reminders_computable (due_date : datetime) (reminder_days : list Z) : bool :=
  forallb (fun days_before => is_ok (notify_at due_date days_before)) reminder_days.

(** ** Completion of a recurring deadline *)

(** The deadline once it is marked completed at [now]. *)
Definition completed (now : datetime) (d : Deadline.t) : Deadline.t :=
  Deadline.set_updated_at now
    (Deadline.set_completed_at (Some now) (Deadline.set_is_completed true d)).

(** The next occurrence of [d]: a new, open deadline under the key [key],
    due at [due_date], with the owner, document, title, description,
    type, recurrence and lead times of [d]. *)
Definition successor_of (now : datetime) (d : Deadline.t) (key : Z) (due_date : datetime)
    : Deadline.t :=
  Deadline.mk key (Deadline.user_id d) (Deadline.document_id d) (Deadline.title d)
    (Deadline.description d) (Deadline.deadline_type d) due_date
    (Deadline.is_recurring d) (Deadline.recurrence_pattern d) (Deadline.reminder_days d)
    false None now now.

(** ** A scenario: one user in Kolkata with every channel switched on *)

Module Scenario.
Definition env : Env :=
  mkEnv
    (fun name =>
       if String.eqb name "Asia/Kolkata" then Some (fun _ => 330)
       else if String.eqb name "UTC" then Some (fun _ => 0)
       else None)
    (fun s =>
       if String.eqb s "2025-03-20T00:00:00+00:00" then Ok (mkdt 2025 3 20 0 0 0 0)
       else if String.eqb s "2025-03-25T00:00:00+00:00" then Ok (mkdt 2025 3 25 0 0 0 0)
       else Raise (ValueError "Invalid isoformat string"))
    true true (fun _ _ => true) (fun _ _ _ => true).

Definition all_channels : gmap string JValue :=
  <["email" := JBool true]> (<["sms" := JBool true]>
    (<["whatsapp" := JBool true]> (<["push" := JBool true]> ∅))).

Definition asha : User.t :=
  User.mk 1 "asha@example.org" (Some "+911234567890") "Asia/Kolkata" (Some all_channels).

Definition db0 : DB := mkDB [asha] [] [].

(** 2025-03-01 12:00 UTC *)
Definition now : datetime := mkdt 2025 3 1 12 0 0 0.

(** The deadline of the end-to-end scenario of the specification. *)
Definition gst_monthly : Payload :=
  mkPayload (Some (DueStr "2025-03-20T00:00:00Z")) None (Some "GST return") None
    (Some "gst_filing") (Some true) (Some (Some "monthly")) (Some [7; 3; 1]).

Definition after_create : Session := (create_deadline env now 1 gst_monthly (clean db0)).2.

Definition move_due_date : Payload :=
  mkPayload (Some (DueStr "2025-03-25T00:00:00Z")) None None None None None None None.

Definition after_update : Session :=
  (update_deadline env now 1 1 move_due_date after_create).2.

(** A recurring monthly deadline that falls on the 31st of January. *)
Definition month_end : Deadline.t :=
  Deadline.mk 1 1 None "Rent" None CUSTOM (mkdt 2025 1 31 0 0 0 0) true
    (Some "monthly") [7; 3; 1] false None (mkdt 2025 1 1 0 0 0 0) (mkdt 2025 1 1 0 0 0 0).

Definition db_month_end : DB := mkDB [asha] [month_end] [].

(** The deadline of the scenario as a stored row. *)
Definition gst_deadline : Deadline.t :=
  Deadline.mk 1 1 None "GST return" None GST_FILING (mkdt 2025 3 20 0 0 0 0) true
    (Some "monthly") [7; 3; 1] false None now now.

Definition db_gst : DB := mkDB [asha] [gst_deadline] [].

(** Three notifications: one that was sent, one of a user that does not
    exist, and one that is due outside the quiet hours of its user. *)
Definition sent_row : Notification.t :=
  Notification.mk 1 1 (Some 1) "Reminder: GST return"
    "Your deadline 'GST return' is due in 7 days on 2025-03-20."
    EMAIL true (Some (mkdt 2025 3 13 6 0 5 0)) (mkdt 2025 3 13 6 0 0 0) now.

Definition orphan_row : Notification.t :=
  Notification.mk 2 99 None "Reminder: Licence"
    "Deadline 'Licence' due in 3 days on 2025-03-16."
    PUSH false None (mkdt 2025 3 13 6 0 0 0) now.

Definition due_row : Notification.t :=
  Notification.mk 3 1 (Some 1) "Reminder: GST return"
    "Deadline 'GST return' due in 7 days on 2025-03-20."
    PUSH false None (mkdt 2025 3 13 6 0 0 0) now.

Definition db_dispatch : DB := mkDB [asha] [gst_deadline] [sent_row; orphan_row; due_row].

(** Two sweeps, a quarter of an hour apart. *)
Definition sweeps : list (Env * datetime) :=
  [(env, mkdt 2025 3 13 6 15 0 0); (env, mkdt 2025 3 13 6 30 0 0)].

(** A request whose second lead time reaches back before the year 1. *)
Definition far_reminder : Payload :=
  mkPayload (Some (DueDatetime (mkdt 2025 3 20 0 0 0 0))) None (Some "Audit") None
    (Some "custom") None None (Some [7; 800000]).
End Scenario.

(** * More of the services

    The read-only queries of the Deadline Lifecycle Manager, the periodic
    GST date of the compliance service, and the tasks of [celery_app.py]
    that call the notification service. *)

(** ** Read-only queries ([DeadlineService]) *)

Definition get_deadline (deadline_id user_id : Z) : M Deadline.t :=
  try_except
    (found ← Deadline_query_first deadline_id user_id;
     match found with
     | None => raise (ValueError "Deadline not found")
     | Some deadline => ret deadline
     end)
    (fun e => raise e).

(** [.order_by(Deadline.due_date)]: ascending; rows with the same due
    date stay in table order. *)
Fixpoint insert_by_due_date (d : Deadline.t) (sorted : list Deadline.t) : list Deadline.t :=
  match sorted with
  | [] => [d]
  | x :: rest =>
      if dt_leb (Deadline.due_date d) (Deadline.due_date x) then d :: sorted
      else x :: insert_by_due_date d rest
  end.

Definition order_by_due_date (rows : list Deadline.t) : list Deadline.t :=
  foldr insert_by_due_date [] rows.

Definition upcoming_filter (now end_date : datetime) (user_id : Z) (d : Deadline.t) : bool :=
  (Deadline.user_id d =? user_id)
  && dt_ltb now (Deadline.due_date d)
  && dt_leb (Deadline.due_date d) end_date
  && negb (Deadline.is_completed d).

Definition overdue_filter (now : datetime) (user_id : Z) (d : Deadline.t) : bool :=
  (Deadline.user_id d =? user_id)
  && dt_ltb (Deadline.due_date d) now
  && negb (Deadline.is_completed d).

Definition get_upcoming_deadlines (now : datetime) (user_id days_ahead : Z)
    : M (list Deadline.t) :=
  try_except
    (td ← lift (timedelta_new days_ahead 0 0 0);
     end_date ← lift (dt_add now td);
     db ← get_working;
     ret (order_by_due_date
            (List.filter (upcoming_filter now end_date user_id) (deadlines db))))
    (fun e => raise e).

Definition get_overdue_deadlines (now : datetime) (user_id : Z) : M (list Deadline.t) :=
  try_except
    (db ← get_working;
     ret (order_by_due_date (List.filter (overdue_filter now user_id) (deadlines db))))
    (fun e => raise e).

(** ** GST filing date ([ComplianceService._calculate_next_gst_deadline])

    [datetime.utcnow()] is [now], also in the handler. *)

Definition _calculate_next_gst_deadline (now : datetime) (business_type : string)
    (deadline_day : Z) : Result datetime :=
  let body : Result datetime :=
    if String.eqb business_type "monthly" then
      if day now <=? deadline_day then
        replace now None None (Some deadline_day)
      else if month now =? 12 then
        replace now (Some (year now + 1)) (Some 1) (Some deadline_day)
      else
        replace now None (Some (month now + 1)) (Some deadline_day)
    else if String.eqb business_type "quarterly" then
      let current_quarter := (month now - 1) / 3 + 1 in
      let next_quarter := if current_quarter <? 4 then current_quarter + 1 else 1 in
      let next_quarter_month := (next_quarter - 1) * 3 + 1 in
      if next_quarter =? 1 then
        replace now (Some (year now + 1)) (Some next_quarter_month) (Some deadline_day)
      else
        replace now None (Some next_quarter_month) (Some deadline_day)
    else if String.eqb business_type "annual" then
      next_deadline ← replace now None (Some 12) (Some 31);
      if (month now =? 12) && (day now >? 31) then
        replace next_deadline (Some (year now + 1)) None None
      else Ok next_deadline
    else
      next_deadline ← replace now None None (Some deadline_day);
      if day now >? deadline_day then
        if month now =? 12 then
          replace now (Some (year now + 1)) (Some 1) (Some deadline_day)
        else
          replace now None (Some (month now + 1)) (Some deadline_day)
      else Ok next_deadline
  in
  match body with
  | Ok next_deadline => Ok next_deadline
  | Raise _ =>
      td ← timedelta_new 30 0 0 0;
      dt_add now td
  end.

(** ** Tasks of [celery_app.py] *)

(** [db.session.delete(notification)] *)
Definition session_delete_notification (nid : Z) : M unit :=
  db ← get_working;
  put_working (mkDB (users db) (deadlines db)
                 (List.filter (fun n => negb (Notification.id n =? nid)) (notifications db))).

(** The rows that the retention task selects: sent, with a [sent_at]
    before the cutoff (a row without [sent_at] is not selected, as in
    SQL). *)
Definition old_notifications (cutoff_date : datetime) (db : DB) : list Notification.t :=
  List.filter
    (fun n => match Notification.sent_at n with
              | Some t => dt_ltb t cutoff_date
              | None => false
              end && Notification.is_sent n)
    (notifications db).

(** [cleanup_old_notifications]: the number of rows deleted, or [None]
    for the answer [False] of the handler. *)
Definition cleanup_old_notifications (now : datetime) : M (option Z) :=
  try_except
    (td ← lift (timedelta_new 30 0 0 0);
     cutoff_date ← lift (dt_sub now td);
     db ← get_working;
     let old_notifications := old_notifications cutoff_date db in
     _ ← for_each old_notifications
           (fun notification => session_delete_notification (Notification.id notification));
     _ ← commit;
     ret (Some (Z.of_nat (length old_notifications))))
    (fun e => ret None).

(** [send_notification_task] *)
Definition send_notification_task (env : Env) (now : datetime) (notification_id : Z) : M bool :=
  try_except
    (db ← get_working;
     match find (fun n => Notification.id n =? notification_id) (notifications db) with
     | None => ret false
     | Some notification => send_notification env now notification
     end)
    (fun e => ret false).

(** ** What the further properties speak about *)

(** [_calculate_next_due_date] applied [n] times with the same pattern. *)
Fixpoint next_due_times (n : nat) (pattern : string) (d : datetime) : Result datetime :=
  match n with
  | O => Ok d
  | S n' => d' ← _calculate_next_due_date d pattern; next_due_times n' pattern d'
  end.

(** The channels on which the scheduler creates reminders for a user. *)
Definition enabled_channels (user : User.t) : list NotificationType :=
  (if truthy (dict_get (prefs_of user) "email" (JBool true)) then [EMAIL] else [])
  ++ (if truthy (dict_get (prefs_of user) "sms" (JBool false)) && has_phone user
      then [SMS] else [])
  ++ (if truthy (dict_get (prefs_of user) "whatsapp" (JBool false)) && has_phone user
      then [WHATSAPP] else [])
  ++ (if truthy (dict_get (prefs_of user) "push" (JBool true)) then [PUSH] else []).

(** One reminder per channel of the list at each instant after [now]. *)
Definition fan_out_on (channels : list NotificationType) (now : datetime)
    (instants : list datetime) : list (NotificationType * datetime) :=
  flat_map (fun t => if dt_leb t now then [] else (fun c => (c, t)) <$> channels) instants.

(** The time of day is in range. *)
Definition valid_time (dt : datetime) : bool :=
  is_ok (check_time_fields (hour dt) (minute dt) (second dt) (microsecond dt)).

(** Ascending by due date. *)
Fixpoint sorted_by_due_date (l : list Deadline.t) : Prop :=
  match l with
  | [] => True
  | x :: rest =>
      Forall (fun y => dt_leb (Deadline.due_date x) (Deadline.due_date y) = true) rest
      /\ sorted_by_due_date rest
  end.

(** The calendar date is in range. *)
Definition valid_date (dt : datetime) : bool :=
  is_ok (check_date_fields (year dt) (month dt) (day dt)).

(** Months counted from the year 0, and the datetime of [dt] moved to the
    month of a count. *)
Definition month_index (dt : datetime) : Z := year dt * 12 + (month dt - 1).

Definition at_month_index (dt : datetime) (i : Z) : datetime :=
  mkdt (i / 12) (i mod 12 + 1) (day dt) (hour dt) (minute dt) (second dt) (microsecond dt).

(** [n] calendar days forward, one after the other. *)
Fixpoint succ_days (n : nat) (d : datetime) : Result datetime :=
  match n with
  | O => Ok d
  | S n' => d' ← succ_day d; succ_days n' d'
  end.

(** The date of [x] with the time of day of [d]. *)
Definition at_time_of (d x : datetime) : datetime :=
  mkdt (year x) (month x) (day x) (hour d) (minute d) (second d) (microsecond d).

(** The proleptic Gregorian ordinal of a date, as the library computes it
    ([_days_before_year], [_days_before_month], [_ymd2ord],
    [toordinal]), and an instant as a number of microseconds on the time
    line. *)
Definition _days_before_year (y : Z) : Z :=
  let y := y - 1 in y * 365 + y / 4 - y / 100 + y / 400.

Definition _DAYS_BEFORE_MONTH (m : Z) : Z :=
  match m with
  | 1 => 0 | 2 => 31 | 3 => 59 | 4 => 90 | 5 => 120 | 6 => 151
  | 7 => 181 | 8 => 212 | 9 => 243 | 10 => 273 | 11 => 304 | 12 => 334
  | _ => 0
  end.

Definition _days_before_month (y m : Z) : Z :=
  _DAYS_BEFORE_MONTH m + (if (2 <? m) && _is_leap y then 1 else 0).

Definition _ymd2ord (y m d : Z) : Z :=
  _days_before_year y + _days_before_month y m + d.

Definition toordinal (dt : datetime) : Z := _ymd2ord (year dt) (month dt) (day dt).

Definition instant_us (dt : datetime) : Z :=
  toordinal dt * US_PER_DAY + time_of_day_us dt.

(** The text [HH:MM] of an hour and a minute. *)
Definition clock (h m : Z) : string := strftime_HM (mkdt 1 1 1 h m 0 0).

(** The zone of the name has the same offset from UTC, of less than a
    day, at every instant. *)
Definition fixed_offset_zone (env : Env) (name : string) (offset : Z) : Prop :=
  -1440 < offset < 1440
  /\ exists tz, pytz_timezone env name = Some tz /\ forall t, tz t = offset.

(** The instant [t] at which a row that started as [r] may be held by
    the quiet hours of its user: a valid instant within them, not before
    the first one, and away from the ends of the calendar. *)
Definition held_in_quiet_hours (env : Env) (user : User.t) (r : Notification.t)
    (t : datetime) : Prop :=
  valid_datetime t = true
  /\ 5 <= year t <= 9995
  /\ _is_quiet_hours env user t = true
  /\ dt_leb (Notification.scheduled_for r) t = true.

(** A sweep whose environment has the zone of the user as [env] has it,
    at a time before the year 9993. *)
Definition sweep_in_zone (env : Env) (user : User.t) (sweep : Env * datetime) : Prop :=
  pytz_timezone sweep.1 (User.timezone user) = pytz_timezone env (User.timezone user)
  /\ year sweep.2 <= 9992.

(** The fields of a deadline that no request to [update_deadline] can
    name. *)
Definition protected_fields (d : Deadline.t)
    : Z * Z * option Z * DeadlineType * bool * option datetime * datetime :=
  (Deadline.id d, Deadline.user_id d, Deadline.document_id d, Deadline.deadline_type d,
   Deadline.is_completed d, Deadline.completed_at d, Deadline.created_at d).

(** A notification whose scheduled instant is a valid datetime away from
    the ends of the calendar. *)
Definition schedulable (n : Notification.t) : Prop :=
  valid_datetime (Notification.scheduled_for n) = true
  /\ 1 < year (Notification.scheduled_for n) < 9999.

(** The deadline table of [db] has the rows of [db0], in their order, as
    far as the protected fields go, and the users are those of [db0]. *)
Definition same_protected_fields (db0 db : DB) : Prop :=
  protected_fields <$> deadlines db = protected_fields <$> deadlines db0
  /\ users db = users db0.

(** Whether the channel sender of a notification gets as far as its
    external service, and what it answers: the e-mail sender needs a
    configured mail user, the SMS and WhatsApp senders a Twilio client
    and a phone number of the user; the answer is then the outcome of
    the delivery.  The push sender always answers [True]. *)
Definition channel_sender_called (env : Env) (user : User.t) (n : Notification.t) : bool :=
  match Notification.notification_type n with
  | EMAIL => MAIL_USERNAME env
  | SMS | WHATSAPP => twilio_client env && has_phone user
  | PUSH => true
  end.

Definition channel_sender_answer (env : Env) (user : User.t) (n : Notification.t) : bool :=
  match Notification.notification_type n with
  | EMAIL => MAIL_USERNAME env && smtp_delivers env user n
  | SMS => twilio_client env && has_phone user && twilio_delivers env SMS user n
  | WHATSAPP => twilio_client env && has_phone user && twilio_delivers env WHATSAPP user n
  | PUSH => true
  end.

(** * Sanity checks of the embedding *)

Example next_due_daily_month_end :
  _calculate_next_due_date (mkdt 2025 2 28 9 30 0 0) "daily"
  = Ok (mkdt 2025 3 1 9 30 0 0).
Proof. vm_compute. reflexivity. Qed.
Example next_due_weekly_year_end :
  _calculate_next_due_date (mkdt 2024 12 28 0 0 0 0) "weekly"
  = Ok (mkdt 2025 1 4 0 0 0 0).
Proof. vm_compute. reflexivity. Qed.
Example next_due_monthly_plain :
  _calculate_next_due_date (mkdt 2025 3 20 0 0 0 0) "monthly"
  = Ok (mkdt 2025 4 20 0 0 0 0).
Proof. vm_compute. reflexivity. Qed.
Example next_due_quarterly_wrap :
  _calculate_next_due_date (mkdt 2025 11 15 0 0 0 0) "quarterly"
  = Ok (mkdt 2026 2 15 0 0 0 0).
Proof. vm_compute. reflexivity. Qed.
Example strftime_Ymd_pads : strftime_Ymd (mkdt 2025 3 5 8 5 0 0) = "2025-03-05".
Proof. reflexivity. Qed.
Example title_monthly : title "monthly" = "Monthly".
Proof. reflexivity. Qed.
Example py_int_08 : py_int "08" = Ok 8.
Proof. reflexivity. Qed.
Example strftime_Ymd_early : strftime_Ymd (mkdt 25 12 1 0 0 0 0) = "0025-12-01".
Proof. reflexivity. Qed.
Example str_of_int_2025 : str_of_int 2025 = "2025".
Proof. reflexivity. Qed.
Example strftime_HM_pads : strftime_HM (mkdt 2025 3 5 8 5 0 0) = "08:05".
Proof. reflexivity. Qed.
Example split_colon_0800 : split_colon "08:00" = ["08"; "00"].
Proof. reflexivity. Qed.
Example py_int_bad : is_ok (py_int "8h") = false.
Proof. reflexivity. Qed.

(** * Reasoning about the session monad *)

Lemma run_bind {A B} (m : M A) (k : A -> M B) (s : Session) :
  (m ≫= k) s = match m s with
               | (Ok a, s') => k a s'
               | (Raise e, s') => (Raise e, s')
               end.
Proof. reflexivity. Qed.

Lemma run_try_except {A} (body : M A) (handler : Exn -> M A) (s : Session) :
  try_except body handler s = match body s with
                              | (Ok a, s') => (Ok a, s')
                              | (Raise e, s') => handler e s'
                              end.
Proof. reflexivity. Qed.

Section Preserves.
Context (P : Session -> Prop).

Lemma preserves_ret {A} (a : A) : preserves P (ret a).
Proof. intros s Hs. exact Hs. Qed.

Lemma preserves_raise {A} (e : Exn) : preserves P (@raise A e).
Proof. intros s Hs. exact Hs. Qed.

Lemma preserves_lift {A} (r : Result A) : preserves P (lift r).
Proof. intros s Hs. exact Hs. Qed.

Lemma preserves_bind {A B} (m : M A) (k : A -> M B) :
  preserves P m -> (forall a, preserves P (k a)) -> preserves P (m ≫= k).
Proof.
  intros Hm Hk s Hs. rewrite run_bind.
  specialize (Hm s Hs). destruct (m s) as [[a|e] s']; simpl in *.
  - apply Hk, Hm.
  - exact Hm.
Qed.

Lemma preserves_try_except {A} (body : M A) (handler : Exn -> M A) :
  preserves P body -> (forall e, preserves P (handler e)) ->
  preserves P (try_except body handler).
Proof.
  intros Hb Hh s Hs. rewrite run_try_except.
  specialize (Hb s Hs). destruct (body s) as [[a|e] s']; simpl in *.
  - exact Hb.
  - apply Hh, Hb.
Qed.

Lemma preserves_when (c : bool) (m : M unit) :
  preserves P m -> preserves P (when c m).
Proof. intros Hm. destruct c; [exact Hm | apply preserves_ret]. Qed.

Lemma preserves_for_each {A} (l : list A) (body : A -> M unit) :
  (forall x, x ∈ l -> preserves P (body x)) -> preserves P (for_each l body).
Proof.
  induction l as [|x l IH]; intros Hbody; simpl.
  - apply preserves_ret.
  - apply preserves_bind.
    + apply Hbody. left.
    + intros _. apply IH. intros y Hy. apply Hbody. right. exact Hy.
Qed.
End Preserves.

Lemma never_raises_ret {A} (a : A) : never_raises (ret a).
Proof. intros s. reflexivity. Qed.

Lemma never_raises_bind {A B} (m : M A) (k : A -> M B) :
  never_raises m -> (forall a, never_raises (k a)) -> never_raises (m ≫= k).
Proof.
  intros Hm Hk s. rewrite run_bind.
  specialize (Hm s). destruct (m s) as [[a|e] s']; simpl in *.
  - apply Hk.
  - discriminate.
Qed.

Lemma never_raises_try_except {A} (body : M A) (handler : Exn -> M A) :
  never_raises body -> never_raises (try_except body handler).
Proof.
  intros Hb s. rewrite run_try_except.
  specialize (Hb s). destruct (body s) as [[a|e] s']; simpl in *.
  - reflexivity.
  - discriminate.
Qed.

Lemma never_raises_when (c : bool) (m : M unit) :
  never_raises m -> never_raises (when c m).
Proof. intros Hm. destruct c; [exact Hm | apply never_raises_ret]. Qed.

Lemma never_raises_for_each {A} (l : list A) (body : A -> M unit) :
  (forall x, x ∈ l -> never_raises (body x)) -> never_raises (for_each l body).
Proof.
  induction l as [|x l IH]; intros Hbody; simpl.
  - apply never_raises_ret.
  - apply never_raises_bind.
    + apply Hbody. left.
    + intros _. apply IH. intros y Hy. apply Hbody. right. exact Hy.
Qed.

Lemma never_raises_lift_Ok {A} (a : A) : never_raises (lift (Ok a)).
Proof. intros s. reflexivity. Qed.

Lemma never_raises_get_working : never_raises get_working.
Proof. intros s. reflexivity. Qed.

Lemma never_raises_put_working db : never_raises (put_working db).
Proof. intros s. reflexivity. Qed.

Lemma never_raises_commit : never_raises commit.
Proof. intros s. reflexivity. Qed.

(** ** Invariants of the two copies of the database

    [commit] and [rollback] keep an invariant [both Q] whatever [Q] is. *)

Section TwoCopies.
Context (Q : DB -> Prop).

Lemma both_clean db : Q db -> both Q (clean db).
Proof. intros H. split; exact H. Qed.

Lemma both_get_working : preserves (both Q) get_working.
Proof. intros s Hs. exact Hs. Qed.

Lemma both_commit : preserves (both Q) commit.
Proof. intros s [Hw _]. split; exact Hw. Qed.

Lemma both_rollback : preserves (both Q) rollback.
Proof. intros s [_ Hc]. split; exact Hc. Qed.

Lemma both_handler {A} (e : Exn) : preserves (both Q) (_ ← rollback; @raise A e).
Proof. apply preserves_bind; [apply both_rollback | intros _; apply preserves_raise]. Qed.

Lemma both_User_query_get uid : preserves (both Q) (User_query_get uid).
Proof. intros s Hs. exact Hs. Qed.

Lemma both_Deadline_query_first i u : preserves (both Q) (Deadline_query_first i u).
Proof. intros s Hs. exact Hs. Qed.

(** Rows may be added to the notifications table. *)
Hypothesis Q_append : forall db n,
  Q db -> Q (mkDB (users db) (deadlines db) (notifications db ++ [n])).

Lemma both_session_add_notification n : preserves (both Q) (session_add_notification n).
Proof. intros s [Hw Hc]. split; simpl; [apply Q_append, Hw | exact Hc]. Qed.

Lemma both__create_notification now uid did t msg ty at_ :
  preserves (both Q) (_create_notification now uid did t msg ty at_).
Proof.
  apply preserves_try_except.
  - apply preserves_bind; [apply both_session_add_notification | intros n].
    apply preserves_bind; [apply both_commit | intros _; apply preserves_ret].
  - intros e. apply both_handler.
Qed.

Lemma both_schedule_deadline_notifications now deadline :
  preserves (both Q) (schedule_deadline_notifications now deadline).
Proof.
  apply preserves_try_except; [| intros e; apply preserves_raise].
  apply preserves_bind; [apply both_User_query_get | intros [user|]];
    [| apply preserves_ret].
  apply preserves_for_each. intros days_before _. unfold schedule_reminder_day.
  apply preserves_bind; [apply preserves_lift | intros td].
  apply preserves_bind; [apply preserves_lift | intros notification_date].
  destruct (dt_leb notification_date now); [apply preserves_ret |].
  repeat (apply preserves_bind; [| intros _]);
    try (apply preserves_when; apply preserves_bind;
         [apply both__create_notification | intros _; apply preserves_ret]).
Qed.

(** The deadlines table may change freely. *)
Hypothesis Q_deadlines : forall db ds,
  Q db -> Q (mkDB (users db) ds (notifications db)).

Lemma both_modify_deadline i f : preserves (both Q) (modify_deadline i f).
Proof. intros s [Hw Hc]. split; simpl; [apply Q_deadlines, Hw | exact Hc]. Qed.

Lemma both_setattr f d : preserves (both Q) (setattr f d).
Proof.
  apply preserves_bind; [apply both_modify_deadline | intros _; apply preserves_ret].
Qed.

Lemma both_set_if_present {A} (v : option A) f d :
  preserves (both Q) (set_if_present v f d).
Proof. destruct v; [apply both_setattr | apply preserves_ret]. Qed.

Lemma both_update_deadline env now deadline_id user_id update_data :
  preserves (both Q) (update_deadline env now deadline_id user_id update_data).
Proof.
  apply preserves_try_except; [| intros e; apply both_handler].
  apply preserves_bind; [apply both_Deadline_query_first | intros [deadline|]];
    [| apply preserves_raise].
  apply preserves_bind; [apply both_set_if_present | intros d1].
  apply preserves_bind; [apply both_set_if_present | intros d2].
  apply preserves_bind.
  { destruct (p_due_date update_data); [| apply preserves_ret].
    apply preserves_bind; [apply preserves_lift | intros due; apply both_setattr]. }
  intros d3.
  apply preserves_bind; [apply both_set_if_present | intros d4].
  apply preserves_bind; [apply both_set_if_present | intros d5].
  apply preserves_bind; [apply both_set_if_present | intros d6].
  apply preserves_bind; [apply both_setattr | intros d7].
  apply preserves_bind; [apply both_commit | intros _].
  apply preserves_bind; [| intros _; apply preserves_ret].
  apply preserves_when, both_schedule_deadline_notifications.
Qed.
End TwoCopies.

(** * The Recurrence Calculator *)

(** Outside December the fallback branch and the monthly branch are the
    same call of [replace]. *)
Lemma fallback_is_monthly_before_december (d : datetime) (pattern : string) :
  month d <> 12 ->
  pattern <> "daily" -> pattern <> "weekly" -> pattern <> "quarterly" ->
  pattern <> "annually" ->
  _calculate_next_due_date d pattern = _calculate_next_due_date d "monthly".
Proof.
  intros Hm Hd Hw Hq Ha. unfold _calculate_next_due_date.
  apply String.eqb_neq in Hd, Hw, Hq, Ha. rewrite Hd, Hw, Hq, Ha. simpl.
  apply Z.eqb_neq in Hm. rewrite Hm.
  destruct (String.eqb pattern "monthly"); reflexivity.
Qed.

(** ** When the calculator returns, it returns a later instant *)

Lemma date_lt_trans (a b c : datetime) : date_lt a b -> date_lt b c -> date_lt a c.
Proof. unfold date_lt. lia. Qed.

Lemma date_lt_ltb (a b : datetime) : date_lt a b -> dt_ltb a b = true.
Proof.
  unfold date_lt, dt_ltb, dt_compare, dt_fields. simpl.
  intros [Hy | [Hy [Hm | [Hm Hd]]]].
  - apply Z.compare_lt_iff in Hy. rewrite Hy. reflexivity.
  - rewrite Hy, Z.compare_refl. apply Z.compare_lt_iff in Hm. rewrite Hm. reflexivity.
  - rewrite Hy, Hm, !Z.compare_refl. apply Z.compare_lt_iff in Hd. rewrite Hd. reflexivity.
Qed.

Lemma succ_day_later (d d' : datetime) : succ_day d = Ok d' -> date_lt d d'.
Proof.
  unfold succ_day, date_lt.
  destruct (day d <? _) eqn:H1; [intros [= <-]; simpl; lia |].
  destruct (month d <? 12) eqn:H2; [intros [= <-]; simpl; lia |].
  destruct (year d <? MAXYEAR) eqn:H3; [intros [= <-]; simpl; lia | discriminate].
Qed.

Lemma shift_days_later (p : positive) (d d' : datetime) :
  shift_days (Zpos p) d = Ok d' -> date_lt d d'.
Proof.
  unfold shift_days. revert d'. induction p as [|p IH] using Pos.peano_ind; intros d'.
  - simpl. unfold step_result, rbind. apply succ_day_later.
  - rewrite Pos.iter_succ. unfold step_result at 1, rbind.
    destruct (Pos.iter (step_result succ_day) (Ok d) p) as [d2|e]; [| discriminate].
    intros H. apply succ_day_later in H. eapply date_lt_trans; [apply IH; reflexivity | exact H].
Qed.

Lemma datetime_new_Ok y m d h mi s us x :
  datetime_new y m d h mi s us = Ok x -> x = mkdt y m d h mi s us.
Proof.
  unfold datetime_new.
  destruct (check_date_fields y m d); simpl; [| discriminate].
  destruct (check_time_fields h mi s us); simpl; [| discriminate].
  intros [= <-]. reflexivity.
Qed.

Lemma valid_time_of_day (d : datetime) :
  valid_datetime d = true -> 0 <= time_of_day_us d < US_PER_DAY.
Proof.
  unfold valid_datetime, datetime_new.
  destruct (check_date_fields _ _ _); simpl; [| discriminate].
  unfold check_time_fields, time_of_day_us, US_PER_DAY, US_PER_SECOND.
  repeat match goal with
         | |- context [negb (?a && ?b)] => destruct a eqn:?; destruct b eqn:?; simpl;
                                           try discriminate
         end.
  intros _. lia.
Qed.

(** [dt + timedelta(days=k)] for a positive [k] lands on a later date. *)
Lemma dt_add_days_later (d d' : datetime) (k : positive) :
  valid_datetime d = true ->
  dt_add d (mktd (Zpos k * US_PER_DAY)) = Ok d' -> date_lt d d'.
Proof.
  intros Hvalid. apply valid_time_of_day in Hvalid.
  unfold dt_add. simpl td_us.
  assert (Hq : (time_of_day_us d + Zpos k * US_PER_DAY) / US_PER_DAY = Zpos k).
  { rewrite Z.div_add by (unfold US_PER_DAY, US_PER_SECOND; lia).
    rewrite Z.div_small by exact Hvalid. reflexivity. }
  rewrite Hq.
  destruct (shift_days (Zpos k) d) as [d2|e] eqn:Hshift; simpl; [| discriminate].
  intros [= <-]. apply shift_days_later in Hshift. exact Hshift.
Qed.

(** On a valid due instant, whatever the pattern, an answer of the
    calculator is strictly later than the due instant. *)
Lemma next_due_later_when_it_returns (d d' : datetime) (pattern : string) :
  valid_datetime d = true ->
  _calculate_next_due_date d pattern = Ok d' ->
  dt_ltb d d' = true.
Proof.
  intros Hvalid. unfold _calculate_next_due_date.
  destruct (String.eqb pattern "daily").
  { intros H. apply date_lt_ltb. apply (dt_add_days_later d d' 1 Hvalid). exact H. }
  destruct (String.eqb pattern "weekly").
  { intros H. apply date_lt_ltb. apply (dt_add_days_later d d' 7 Hvalid). exact H. }
  assert (Hmonthly : forall r,
    (if month d =? 12 then replace d (Some (year d + 1)) (Some 1) None
     else replace d None (Some (month d + 1)) None) = Ok r -> dt_ltb d r = true).
  { intros r. destruct (month d =? 12); unfold replace; simpl;
      intros H; apply datetime_new_Ok in H; subst r;
      apply date_lt_ltb; unfold date_lt; simpl; lia. }
  destruct (String.eqb pattern "monthly"); [apply Hmonthly |].
  destruct (String.eqb pattern "quarterly").
  { destruct (month d + 3 >? 12) eqn:Hwrap; unfold replace; simpl;
      intros H; apply datetime_new_Ok in H; subst d';
      apply date_lt_ltb; unfold date_lt; simpl; lia. }
  destruct (String.eqb pattern "annually").
  { unfold replace; simpl. intros H; apply datetime_new_Ok in H; subst d'.
    apply date_lt_ltb; unfold date_lt; simpl; lia. }
  unfold replace; simpl. intros H; apply datetime_new_Ok in H; subst d'.
  apply date_lt_ltb; unfold date_lt; simpl; lia.
Qed.

(** C1 (the code at the failing inputs): the calculator raises
    [ValueError] on valid due instants whose day does not exist in the
    target month: the 31st of January with pattern monthly, the 29th of
    February with pattern annually, the 30th of November with pattern
    quarterly; and on any December instant with an unrecognized pattern. *)
Theorem next_due_raises_at_month_end :
  valid_datetime (mkdt 2025 1 31 0 0 0 0) = true
  /\ _calculate_next_due_date (mkdt 2025 1 31 0 0 0 0) "monthly"
     = Raise (ValueError "day is out of range for month")
  /\ valid_datetime (mkdt 2024 2 29 0 0 0 0) = true
  /\ _calculate_next_due_date (mkdt 2024 2 29 0 0 0 0) "annually"
     = Raise (ValueError "day is out of range for month")
  /\ valid_datetime (mkdt 2025 11 30 0 0 0 0) = true
  /\ _calculate_next_due_date (mkdt 2025 11 30 0 0 0 0) "quarterly"
     = Raise (ValueError "day is out of range for month")
  /\ valid_datetime (mkdt 2025 12 15 0 0 0 0) = true
  /\ _calculate_next_due_date (mkdt 2025 12 15 0 0 0 0) "fortnightly"
     = Raise (ValueError "month must be in 1..12").
Proof. repeat split; vm_compute; reflexivity. Qed.

(** C9 (the code at the failing input): on 2025-12-15 the monthly branch
    answers 2026-01-15, and the fallback branch of an unrecognized pattern
    raises [ValueError], since it asks for month 13. *)
Theorem fallback_differs_from_monthly_in_december :
  _calculate_next_due_date (mkdt 2025 12 15 0 0 0 0) "monthly"
  = Ok (mkdt 2026 1 15 0 0 0 0)
  /\ _calculate_next_due_date (mkdt 2025 12 15 0 0 0 0) "fortnightly"
     = Raise (ValueError "month must be in 1..12").
Proof. split; vm_compute; reflexivity. Qed.

(** * The Deadline Lifecycle Manager *)

(** C2 (the code at the failing inputs): [mark_deadline_completed] on a
    monthly deadline due on the 31st of January raises, and the completion
    it committed before stays in the database; [create_deadline] with a
    lead time that reaches back before the year 1 raises, and the deadline
    and the reminders of the first lead time stay in the database. *)
Theorem operations_leave_partial_state :
  (let '(r, s') := mark_deadline_completed Scenario.now 1 1 (clean Scenario.db_month_end) in
   r = Raise (ValueError "day is out of range for month")
   /\ Deadline.is_completed <$> deadlines Scenario.db_month_end = [false]
   /\ Deadline.is_completed <$> deadlines (committed s') = [true]
   /\ Deadline.completed_at <$> deadlines (committed s') = [Some Scenario.now])
  /\
  (let '(r, s') := create_deadline Scenario.env Scenario.now 1 Scenario.far_reminder
                     (clean Scenario.db0) in
   r = Raise (OverflowError "date value out of range")
   /\ deadlines Scenario.db0 = []
   /\ Deadline.title <$> deadlines (committed s') = ["Audit"]
   /\ Notification.notification_type <$> notifications (committed s')
      = [EMAIL; SMS; WHATSAPP; PUSH]).
Proof. split; vm_compute; repeat split; reflexivity. Qed.

(** ** Re-scheduling on edit *)

(** Whatever the request and however the call ends, [update_deadline]
    never removes or changes a stored notification: the notifications
    stored before the call are, unchanged and in their order, the first
    rows of the table after it. *)
Lemma update_deadline_keeps_notifications
    (env : Env) (now : datetime) (deadline_id user_id : Z) (update_data : Payload) (db : DB) :
  let s' := (update_deadline env now deadline_id user_id update_data (clean db)).2 in
  notifications db `prefix_of` notifications (committed s')
  /\ notifications db `prefix_of` notifications (working s').
Proof.
  simpl.
  pose (Q := fun db' : DB => notifications db `prefix_of` notifications db').
  assert (H : both Q (update_deadline env now deadline_id user_id update_data (clean db)).2).
  { apply both_update_deadline.
    - intros db' n Hq. unfold Q in *. simpl. apply prefix_app_r. exact Hq.
    - intros db' ds Hq. exact Hq.
    - apply both_clean. unfold Q. reflexivity. }
  destruct H as [Hw Hc]. split; assumption.
Qed.

(** C3 (the code at the failing input): the deadline of the scenario,
    due on 2025-03-20 with twelve reminders scheduled, is moved to
    2025-03-25.  [update_deadline] returns the deadline with the new due
    date and schedules twelve reminders from it (at the 18th, the 22nd
    and the 24th), but supersedes nothing: the twelve reminders of the
    first schedule (at the 13th, the 17th and the 19th) are all still
    stored, unsent and tied to the deadline, as the first rows of a
    table of 24 rows, with messages that name the old due date, and the
    dispatcher selects all 24 once they are due. *)
Theorem update_keeps_stale_reminders :
  let before := committed Scenario.after_create in
  let after := committed Scenario.after_update in
  let old_schedule :=
    fan_out Scenario.now
      [mkdt 2025 3 13 0 0 0 0; mkdt 2025 3 17 0 0 0 0; mkdt 2025 3 19 0 0 0 0] in
  let new_schedule :=
    fan_out Scenario.now
      [mkdt 2025 3 18 0 0 0 0; mkdt 2025 3 22 0 0 0 0; mkdt 2025 3 24 0 0 0 0] in
  (exists d,
     (update_deadline Scenario.env Scenario.now 1 1 Scenario.move_due_date
        Scenario.after_create).1 = Ok d
     /\ Deadline.id d = 1
     /\ Deadline.due_date d = mkdt 2025 3 25 0 0 0 0)
  /\ Deadline.due_date <$> deadlines before = [mkdt 2025 3 20 0 0 0 0]
  /\ Deadline.due_date <$> deadlines after = [mkdt 2025 3 25 0 0 0 0]
  /\ length (notifications before) = 12%nat
  /\ channel_and_instant <$> notifications before = old_schedule
  /\ stale_unsent before after 1 = notifications before
  /\ stale_unsent before after 1 <> []
  /\ length (stale_unsent before after 1) = 12%nat
  /\ notifications after
     = (notifications before ++ drop 12 (notifications after))%list
  /\ channel_and_instant <$> drop 12 (notifications after) = new_schedule
  /\ length (notifications after) = 24%nat
  /\ Notification.message <$> take 1 (notifications after)
     = ["Your deadline 'GST return' is due in 7 days on 2025-03-20."]
  /\ pending_rows (mkdt 2025 3 24 0 0 0 0) after = notifications after.
Proof.
  cbv zeta.
  split.
  { exists (Deadline.set_updated_at Scenario.now
              (Deadline.set_due_date (mkdt 2025 3 25 0 0 0 0) Scenario.gst_deadline)).
    split; [vm_compute; reflexivity |]. split; reflexivity. }
  split; [vm_compute; reflexivity |].
  split; [vm_compute; reflexivity |].
  split; [vm_compute; reflexivity |].
  split; [vm_compute; reflexivity |].
  split; [vm_compute; reflexivity |].
  split.
  { intros H. apply (f_equal length) in H. vm_compute in H. discriminate. }
  split; [vm_compute; reflexivity |].
  split; [vm_compute; reflexivity |].
  split; [vm_compute; reflexivity |].
  split; [vm_compute; reflexivity |].
  split; vm_compute; reflexivity.
Qed.

(** * The GST deadline generator *)

Lemma lex_compare_refl (l : list Z) : lex_compare l l = Eq.
Proof. induction l as [|x l IH]; simpl; [reflexivity |]. rewrite Z.compare_refl. exact IH. Qed.

Lemma dt_eqb_refl (d : datetime) : dt_eqb d d = true.
Proof. unfold dt_eqb, dt_compare. rewrite lex_compare_refl. reflexivity. Qed.

Lemma find_app_None {A} (f : A -> bool) (l k : list A) :
  find f l = None -> find f (l ++ k) = find f k.
Proof.
  induction l as [|x l IH]; simpl; [reflexivity |].
  destruct (f x); [discriminate | exact IH].
Qed.

Lemma find_None_filter {A} (f : A -> bool) (l : list A) :
  find f l = None -> List.filter f l = [].
Proof.
  induction l as [|x l IH]; simpl; [reflexivity |].
  destruct (f x); [discriminate | exact IH].
Qed.

Lemma find_Some_filter {A} (f : A -> bool) (l : list A) (x : A) :
  find f l = Some x -> f x = true /\ x ∈ l /\ (1 <= length (List.filter f l))%nat.
Proof.
  induction l as [|y l IH]; simpl; [discriminate |].
  destruct (f y) eqn:Hy.
  - intros [= ->]. repeat split; [exact Hy | left | simpl; lia].
  - intros H. destruct (IH H) as (Hf & Hin & Hlen). repeat split; [exact Hf | right; exact Hin | exact Hlen].
Qed.

(** C8: [_create_gst_deadline] called twice for the same user, cadence
    and due date: the second call changes nothing in the session and
    returns the row the first call returned, a row of the table with that
    user, type gst_filing and due date; of such rows the table then holds
    one if it held none before, and as many as before otherwise. *)
Theorem gst_deadline_generated_once
    (now now' : datetime) (user_id : Z) (business_type : string) (due_date : datetime)
    (s : Session) :
  let '(r1, s1) := _create_gst_deadline now user_id business_type due_date s in
  let '(r2, s2) := _create_gst_deadline now' user_id business_type due_date s1 in
  s2 = s1
  /\ r2 = r1
  /\ (exists d, r1 = Ok d /\ gst_match user_id due_date d = true
                /\ d ∈ deadlines (working s1))
  /\ length (List.filter (gst_match user_id due_date) (deadlines (working s2)))
     = Nat.max 1 (length (List.filter (gst_match user_id due_date) (deadlines (working s)))).
Proof.
  unfold _create_gst_deadline.
  rewrite !run_try_except, !run_bind. simpl.
  destruct (find (gst_match user_id due_date) (deadlines (working s))) as [e|] eqn:Hfind.
  - simpl. rewrite !run_try_except, !run_bind. simpl. rewrite Hfind. simpl.
    destruct (find_Some_filter _ _ _ Hfind) as (Hm & Hin & Hlen).
    repeat split; [exists e; repeat split; assumption | lia].
  - rewrite !run_bind. simpl.
    rewrite !run_try_except, !run_bind. simpl.
    rewrite (find_app_None _ _ _ Hfind). simpl.
    set (d := Deadline.with_id _ _).
    assert (Hd : gst_match user_id due_date d = true).
    { unfold gst_match, d. simpl. rewrite Z.eqb_refl, dt_eqb_refl. reflexivity. }
    rewrite Hd. simpl.
    repeat split.
    + exists d. repeat split; [exact Hd |]. apply elem_of_app. right. left.
    + rewrite List.filter_app, (find_None_filter _ _ Hfind). simpl. rewrite Hd. reflexivity.
Qed.

(** * The Quiet-Hours Policy *)

Example quiet_at_2330_local :
  astimezone (fun _ => 330) (mkdt 2025 3 13 18 0 0 0) = Ok (mkdt 2025 3 13 23 30 0 0, 330)
  /\ _is_quiet_hours Scenario.env Scenario.asha (mkdt 2025 3 13 18 0 0 0) = true.
Proof. split; vm_compute; reflexivity. Qed.

(** C7: for a user whose quiet-hours window is the pair of strings
    [quiet_start], [quiet_end] (stored, or the defaults 22:00 and 08:00):
    a failed timezone lookup gives [false]; otherwise, with [time_str] the
    HH:MM of the local time, the answer is true exactly when
    [quiet_start <= time_str <= quiet_end] if [quiet_start <= quiet_end],
    and exactly when [time_str >= quiet_start] or [time_str <= quiet_end]
    if not, all comparisons being lexicographic on strings. *)
Theorem is_quiet_hours_window
    (env : Env) (user : User.t) (scheduled_utc : datetime) (quiet_start quiet_end : string) :
  dict_get (prefs_of user) "quiet_hours_start" (JStr "22:00") = JStr quiet_start ->
  dict_get (prefs_of user) "quiet_hours_end" (JStr "08:00") = JStr quiet_end ->
  (pytz_timezone env (User.timezone user) = None ->
   _is_quiet_hours env user scheduled_utc = false)
  /\ (forall tz local_time offset,
        pytz_timezone env (User.timezone user) = Some tz ->
        astimezone tz scheduled_utc = Ok (local_time, offset) ->
        let time_str := strftime_HM local_time in
        (String.leb quiet_start quiet_end = true ->
         (_is_quiet_hours env user scheduled_utc = true
          <-> String.leb quiet_start time_str = true /\ String.leb time_str quiet_end = true))
        /\ (String.leb quiet_start quiet_end = false ->
            (_is_quiet_hours env user scheduled_utc = true
             <-> String.leb quiet_start time_str = true \/ String.leb time_str quiet_end = true))).
Proof.
  intros Hstart Hend. unfold _is_quiet_hours. rewrite Hstart, Hend.
  unfold lookup_timezone. split.
  - intros Htz. rewrite Htz. reflexivity.
  - intros tz local_time offset Htz Hlocal. rewrite Htz. simpl.
    unfold mbind, Result_bind, rbind. rewrite Hlocal. simpl.
    unfold py_ge, py_le. split; intros Hwindow; rewrite Hwindow.
    + destruct (String.leb quiet_start (strftime_HM local_time)); simpl.
      * split; [intros H; split; [reflexivity | exact H] | intros [_ H]; exact H].
      * split; [discriminate | intros [H _]; discriminate].
    + destruct (String.leb quiet_start (strftime_HM local_time)); simpl.
      * split; [intros _; left; reflexivity | reflexivity].
      * split; [intros H; right; exact H | intros [H | H]; [discriminate | exact H]].
Qed.

Lemma is_quiet_hours_window_witness :
  dict_get (prefs_of Scenario.asha) "quiet_hours_start" (JStr "22:00") = JStr "22:00"
  /\ dict_get (prefs_of Scenario.asha) "quiet_hours_end" (JStr "08:00") = JStr "08:00"
  /\ (pytz_timezone Scenario.env (User.timezone Scenario.asha) = None ->
      _is_quiet_hours Scenario.env Scenario.asha (mkdt 2025 3 13 18 0 0 0) = false)
  /\ (forall tz local_time offset,
        pytz_timezone Scenario.env (User.timezone Scenario.asha) = Some tz ->
        astimezone tz (mkdt 2025 3 13 18 0 0 0) = Ok (local_time, offset) ->
        let time_str := strftime_HM local_time in
        (String.leb "22:00" "08:00" = true ->
         (_is_quiet_hours Scenario.env Scenario.asha (mkdt 2025 3 13 18 0 0 0) = true
          <-> String.leb "22:00" time_str = true /\ String.leb time_str "08:00" = true))
        /\ (String.leb "22:00" "08:00" = false ->
            (_is_quiet_hours Scenario.env Scenario.asha (mkdt 2025 3 13 18 0 0 0) = true
             <-> String.leb "22:00" time_str = true \/ String.leb time_str "08:00" = true))).
Proof.
  split; [vm_compute; reflexivity |].
  split; [vm_compute; reflexivity |].
  apply (is_quiet_hours_window Scenario.env Scenario.asha (mkdt 2025 3 13 18 0 0 0)
           "22:00" "08:00"); vm_compute; reflexivity.
Defined.

(** * The Notification Dispatcher *)

Lemma update_rows_keys {A} (key : A -> Z) (k : Z) (f : A -> A) (rows : list A) :
  (forall x, key (f x) = key x) ->
  key <$> update_rows key k f rows = key <$> rows.
Proof.
  intros Hf. unfold update_rows. induction rows as [|x rows IH]; simpl; [reflexivity |].
  f_equal; [| exact IH]. destruct (key x =? k); [apply Hf | reflexivity].
Qed.

Lemma update_rows_other {A} (key : A -> Z) (k : Z) (f : A -> A) (rows : list A) (r : A) :
  r ∈ rows -> key r <> k -> r ∈ update_rows key k f rows.
Proof.
  intros Hin Hne. unfold update_rows. apply list_elem_of_fmap.
  exists r. split; [| exact Hin].
  apply Z.eqb_neq in Hne. rewrite Hne. reflexivity.
Qed.

Lemma update_rows_elem {A} (key : A -> Z) (k : Z) (f : A -> A) (rows : list A) (y : A) :
  y ∈ update_rows key k f rows -> exists x, x ∈ rows /\ (y = x \/ y = f x).
Proof.
  unfold update_rows. intros H. apply list_elem_of_fmap in H as (x & -> & Hin).
  exists x. split; [exact Hin |]. destruct (key x =? k); [right | left]; reflexivity.
Qed.

Lemma same_key_same_row {A} (key : A -> Z) (rows : list A) (x y : A) :
  NoDup (key <$> rows) -> x ∈ rows -> y ∈ rows -> key x = key y -> x = y.
Proof.
  induction rows as [|z rows IH]; intros Hnd Hx Hy Hk.
  - inversion Hx.
  - simpl in Hnd. apply NoDup_cons in Hnd as [Hz Hnd].
    apply elem_of_cons in Hx as [-> | Hx]; apply elem_of_cons in Hy as [-> | Hy].
    + reflexivity.
    + exfalso. apply Hz. rewrite Hk. apply list_elem_of_fmap_2. exact Hy.
    + exfalso. apply Hz. rewrite <- Hk. apply list_elem_of_fmap_2. exact Hx.
    + apply IH; assumption.
Qed.

(** [send_notification] for a notification whose user does not exist:
    the answer is [False] and the session is as it was. *)
Lemma send_notification_no_user env now n s :
  no_such_user (Notification.user_id n) (working s) ->
  send_notification env now n s = (Ok false, s).
Proof.
  intros Hnone. unfold send_notification.
  rewrite run_try_except, run_bind. simpl.
  unfold no_such_user in Hnone. rewrite Hnone. reflexivity.
Qed.

Lemma dated_dispatch (success : bool) (now : datetime) (x : Notification.t) :
  dated (Notification.set_sent_at (if success then Some now else None)
           (Notification.set_is_sent success x)).
Proof. unfold dated. simpl. intros ->. eexists. reflexivity. Qed.

Lemma send_notification_effect env now n s :
  send_effect n s (send_notification env now n s).2.
Proof.
  unfold send_notification. rewrite run_try_except, run_bind. simpl.
  destruct (find _ (users (working s))) as [user|]; [| apply effect_none; reflexivity].
  destruct (_is_quiet_hours env user (Notification.scheduled_for n)).
  - rewrite run_bind. unfold lift.
    destruct (_get_next_available_time env user (Notification.scheduled_for n)) as [t|e]; simpl.
    + apply (effect_update n s _ (Notification.set_scheduled_for t) []).
      * reflexivity.
      * intros x Hx. exact Hx.
      * constructor.
      * simpl. rewrite app_nil_r. reflexivity.
    + apply effect_rollback. reflexivity.
  - rewrite run_bind.
    assert (Hsend : exists success calls,
      Forall (fun c => c.1 = Notification.id n) calls
      /\ (match Notification.notification_type n with
          | EMAIL => _send_email env user n
          | SMS => _send_sms env user n
          | WHATSAPP => _send_whatsapp env user n
          | PUSH => _send_push env user n
          end) s = (Ok success, mkSession (committed s) (working s) (outbox s ++ calls))).
    { destruct s as [c w o].
      destruct (Notification.notification_type n);
        unfold _send_email, _send_sms, _send_whatsapp, _send_push;
        repeat match goal with
               | |- context [if ?b then _ else _] => destruct b
               end;
        try (eexists _, []; split; [constructor | simpl; rewrite app_nil_r; reflexivity]);
        try (eexists _, [_]; split; [repeat constructor | reflexivity]).
      all: reflexivity. }
    destruct Hsend as (success & calls & Hcalls & ->). simpl.
    apply (effect_update n s _
             (fun x => Notification.set_sent_at (if success then Some now else None)
                         (Notification.set_is_sent success x)) calls).
    + reflexivity.
    + intros x _. apply dated_dispatch.
    + exact Hcalls.
    + reflexivity.
Qed.

Lemma row_kept_update r U db k f :
  row_kept r U db -> Notification.id r <> k ->
  (forall x, Notification.id (f x) = Notification.id x) ->
  row_kept r U (mkDB (users db) (deadlines db)
                  (update_rows Notification.id k f (notifications db))).
Proof.
  intros (Hin & Hnd & Hu) Hne Hf. repeat split; simpl.
  - apply update_rows_other; assumption.
  - rewrite update_rows_keys; assumption.
  - exact Hu.
Qed.

Lemma undisturbed_send r U env now n s :
  undisturbed r U s ->
  Notification.id n <> Notification.id r
  \/ find (fun u => User.id u =? Notification.user_id n) U = None ->
  undisturbed r U (send_notification env now n s).2.
Proof.
  intros Hs [Hne | Hnone].
  - destruct Hs as [[Hw Hc] Hout].
    destruct (send_notification_effect env now n s) as [-> | -> | f calls Hf _ Hcalls ->].
    + split; [split |]; assumption.
    + split; [split |]; assumption.
    + assert (Hw' := row_kept_update r U (working s) (Notification.id n) f Hw
                       (fun H => Hne (eq_sym H)) Hf).
      split; [split; exact Hw' |]. simpl.
      intros ch Hin. apply elem_of_app in Hin as [Hin | Hin]; [exact (Hout ch Hin) |].
      rewrite Forall_forall in Hcalls. apply Hcalls in Hin. simpl in Hin. congruence.
  - rewrite send_notification_no_user; [exact Hs |].
    destruct Hs as [[(_ & _ & Hu) _] _]. unfold no_such_user. rewrite Hu. exact Hnone.
Qed.

Lemma sent_rows_dated_update db k f :
  sent_rows_dated db -> (forall x, dated x -> dated (f x)) ->
  sent_rows_dated (mkDB (users db) (deadlines db)
                     (update_rows Notification.id k f (notifications db))).
Proof.
  intros Hdb Hf y Hy. simpl in Hy.
  apply update_rows_elem in Hy as (x & Hx & [-> | ->]); [| apply Hf]; apply Hdb, Hx.
Qed.

Lemma dated_send env now n :
  preserves (both sent_rows_dated) (send_notification env now n).
Proof.
  intros s [Hw Hc].
  destruct (send_notification_effect env now n s) as [-> | -> | f calls _ Hf _ ->].
  - split; assumption.
  - split; assumption.
  - split; apply sent_rows_dated_update; assumption.
Qed.

(** The session after a sweep is the session after the sends of the rows
    that the sweep selected. *)
Lemma sweep_state env now s :
  (process_deadline_reminders env now s).2
  = (for_each (pending_rows now (working s))
       (fun notification => _ ← send_notification env now notification; ret tt) s).2.
Proof.
  unfold process_deadline_reminders, process_pending_notifications,
    get_pending_notifications.
  rewrite !run_try_except, !run_bind, !run_try_except, !run_bind. simpl.
  rewrite !run_bind.
  destruct (for_each _ _ s) as [[[]|e] s']; reflexivity.
Qed.

Lemma pending_rows_elem now db n :
  n ∈ pending_rows now db <->
  n ∈ notifications db
  /\ dt_leb (Notification.scheduled_for n) now = true
  /\ Notification.is_sent n = false.
Proof.
  unfold pending_rows. rewrite !list_elem_of_In, List.filter_In.
  rewrite andb_true_iff, negb_true_iff. tauto.
Qed.

Lemma undisturbed_sweep r U env now s :
  undisturbed r U s ->
  Notification.is_sent r = true
  \/ find (fun u => User.id u =? Notification.user_id r) U = None ->
  undisturbed r U (process_deadline_reminders env now s).2.
Proof.
  intros Hs Hr. rewrite sweep_state.
  apply (preserves_for_each (undisturbed r U)); [| exact Hs].
  intros n Hn. apply preserves_bind; [| intros _; apply preserves_ret].
  intros s0 Hs0. apply undisturbed_send; [exact Hs0 |].
  apply pending_rows_elem in Hn as (Hin & _ & Hunsent).
  destruct (decide (Notification.id n = Notification.id r)) as [Hid | Hid]; [| left; exact Hid].
  destruct Hs as [[(Hrin & Hnd & _) _] _].
  assert (n = r) as -> by (eapply same_key_same_row; eassumption).
  destruct Hr as [Hsent | Hnone]; [congruence | right; exact Hnone].
Qed.

Lemma undisturbed_run_sweeps r U schedule s :
  undisturbed r U s ->
  Notification.is_sent r = true
  \/ find (fun u => User.id u =? Notification.user_id r) U = None ->
  undisturbed r U (run_sweeps schedule s).
Proof.
  intros Hs Hr. revert s Hs.
  induction schedule as [|[env now] rest IH]; intros s Hs; simpl; [exact Hs |].
  apply IH, undisturbed_sweep; assumption.
Qed.

Lemma dated_run_sweeps schedule s :
  both sent_rows_dated s -> both sent_rows_dated (run_sweeps schedule s).
Proof.
  revert s. induction schedule as [|[env now] rest IH]; intros s Hs; simpl; [exact Hs |].
  apply IH. rewrite sweep_state.
  apply (preserves_for_each (both sent_rows_dated)); [| exact Hs].
  intros n _. apply preserves_bind; [apply dated_send | intros _; apply preserves_ret].
Qed.

Lemma undisturbed_clean r db :
  NoDup (Notification.id <$> notifications db) -> r ∈ notifications db ->
  undisturbed r (users db) (clean db).
Proof.
  intros Hnd Hin. split.
  - apply both_clean. repeat split; assumption.
  - intros ch Hch. inversion Hch.
Qed.

(** C4: a notification row that is marked sent, stored under a key of its
    own, through any number of dispatcher sweeps (each at its own time
    and with its own outcome of the channel senders): the row stays
    stored as it is, no sweep selects a row with its key, no channel
    sender is ever called for it, and if every sent row carried its
    [sent_at] before the sweeps, every sent row does after them. *)
Theorem sent_notification_never_resent
    (schedule : list (Env * datetime)) (db : DB) (r : Notification.t) (now : datetime) :
  NoDup (Notification.id <$> notifications db) ->
  r ∈ notifications db ->
  Notification.is_sent r = true ->
  let s' := run_sweeps schedule (clean db) in
  r ∈ notifications (committed s')
  /\ r ∈ notifications (working s')
  /\ (forall n, n ∈ pending_rows now (working s') ->
                Notification.id n <> Notification.id r)
  /\ (forall ch, (Notification.id r, ch) ∉ outbox s')
  /\ (sent_rows_dated db -> sent_rows_dated (committed s')).
Proof.
  intros Hnd Hin Hsent. simpl.
  destruct (undisturbed_run_sweeps r (users db) schedule (clean db))
    as [[(Hw & Hndw & _) (Hc & _ & _)] Hout];
    [apply undisturbed_clean; assumption | left; exact Hsent |].
  repeat split; try assumption.
  - intros n Hn Hid. apply pending_rows_elem in Hn as (Hnin & _ & Hunsent).
    assert (n = r) as -> by (eapply same_key_same_row; eassumption).
    congruence.
  - intros Hdated. apply (dated_run_sweeps schedule (clean db)).
    apply both_clean. exact Hdated.
Qed.

(** C10: a pending notification whose user does not exist, stored under
    a key of its own: [send_notification] answers [False] and leaves the
    session as it is; through any number of sweeps the row stays stored as
    it is (unsent, with its [sent_at] and [scheduled_for]), every sweep at
    or after its scheduled instant selects it, and no channel sender is
    called for it. *)
Theorem orphaned_notification_stays_pending
    (schedule : list (Env * datetime)) (db : DB) (r : Notification.t) :
  NoDup (Notification.id <$> notifications db) ->
  r ∈ notifications db ->
  Notification.is_sent r = false ->
  no_such_user (Notification.user_id r) db ->
  (forall env now, send_notification env now r (clean db) = (Ok false, clean db))
  /\ let s' := run_sweeps schedule (clean db) in
     r ∈ notifications (committed s')
     /\ r ∈ notifications (working s')
     /\ no_such_user (Notification.user_id r) (working s')
     /\ (forall env now, send_notification env now r s' = (Ok false, s'))
     /\ (forall now, dt_leb (Notification.scheduled_for r) now = true ->
                     r ∈ pending_rows now (working s'))
     /\ (forall ch, (Notification.id r, ch) ∉ outbox s').
Proof.
  intros Hnd Hin Hunsent Hnone. split.
  - intros env now. apply send_notification_no_user. exact Hnone.
  - simpl.
    destruct (undisturbed_run_sweeps r (users db) schedule (clean db))
      as [[(Hw & _ & Hu) (Hc & _ & _)] Hout];
      [apply undisturbed_clean; assumption | right; exact Hnone |].
    assert (Hnone' : no_such_user (Notification.user_id r)
                       (working (run_sweeps schedule (clean db)))).
    { unfold no_such_user. rewrite Hu. exact Hnone. }
    repeat split; try assumption.
    + intros env now. apply send_notification_no_user. exact Hnone'.
    + intros now Hdue. apply pending_rows_elem. repeat split; assumption.
Qed.

(** * The Notification Scheduler *)

Lemma notify_at_inv due_date days_before t :
  notify_at due_date days_before = Ok t ->
  exists td, timedelta_new days_before 0 0 0 = Ok td /\ dt_sub due_date td = Ok t.
Proof.
  unfold notify_at. destruct (timedelta_new days_before 0 0 0) as [td|e]; simpl.
  - intros H. exists td. split; [reflexivity | exact H].
  - discriminate.
Qed.

(** One turn of the loop, for a user with every channel on: nothing for
    an instant that is not after [now], four committed rows otherwise. *)
Lemma schedule_reminder_day_run now deadline user days_before t s :
  all_channels_enabled user = true ->
  notify_at (Deadline.due_date deadline) days_before = Ok t ->
  exists created,
    channel_and_instant <$> created = fan_out now [t]
    /\ Forall (fresh_reminder deadline) created
    /\ schedule_reminder_day now deadline user (prefs_of user) days_before s
       = (Ok tt,
          if dt_leb t now then s
          else let w := mkDB (users (working s)) (deadlines (working s))
                          (notifications (working s) ++ created) in
               mkSession w w (outbox s)).
Proof.
  intros Hon Ht. unfold all_channels_enabled in Hon. destruct s as [c w o].
  repeat (apply andb_true_iff in Hon as [Hon ?]).
  apply notify_at_inv in Ht as (td & Htd & Hsub).
  unfold schedule_reminder_day, fan_out. simpl.
  rewrite !run_bind. unfold lift. rewrite Htd, Hsub.
  rewrite run_bind. cbn beta iota.
  destruct (dt_leb t now) eqn:Hpast.
  - exists []. split; [reflexivity |]. split; [constructor | reflexivity].
  - repeat match goal with
           | H : ?b = true |- context [?b] => rewrite H
           end.
    simpl. eexists [_; _; _; _]. split; [| split]; cycle 2.
    + cbv [mbind M_bind bind mret M_ret ret _create_notification try_except
             session_add_notification get_working put_working commit
             working committed outbox users deadlines notifications].
      rewrite <- !app_assoc. reflexivity.
    + reflexivity.
    + repeat constructor.
Qed.

Lemma fan_out_cons now t ts : fan_out now (t :: ts) = (fan_out now [t] ++ fan_out now ts)%list.
Proof. unfold fan_out. simpl. rewrite app_nil_r. reflexivity. Qed.

Lemma for_each_cons {A} (x : A) (l : list A) (body : A -> M unit) :
  for_each (x :: l) body = (_ ← body x; for_each l body).
Proof. reflexivity. Qed.

(** The whole loop, from a session without uncommitted changes. *)
Lemma schedule_loop_run now deadline user days instants s :
  all_channels_enabled user = true ->
  Forall2 (fun days_before t => notify_at (Deadline.due_date deadline) days_before = Ok t)
    days instants ->
  committed s = working s ->
  exists created,
    channel_and_instant <$> created = fan_out now instants
    /\ Forall (fresh_reminder deadline) created
    /\ for_each days (schedule_reminder_day now deadline user (prefs_of user)) s
       = (Ok tt,
          let w := mkDB (users (working s)) (deadlines (working s))
                     (notifications (working s) ++ created) in
          mkSession w w (outbox s)).
Proof.
  intros Hon Hdays. revert s.
  induction Hdays as [|days_before t days instants Ht _ IH]; intros s Hclean.
  - exists []. repeat split; [constructor |]. simpl.
    destruct s as [c w o]. simpl in *. subst c. destruct w. rewrite app_nil_r. reflexivity.
  - destruct (schedule_reminder_day_run now deadline user days_before t s Hon Ht)
      as (first & Hfirst & Hfresh & Hrun).
    rewrite for_each_cons, run_bind, Hrun.
    destruct (dt_leb t now) eqn:Hpast.
    + destruct (IH s Hclean) as (created & Hcreated & Hfresh' & Hloop).
      exists created. rewrite fan_out_cons. unfold fan_out at 1. simpl. rewrite Hpast.
      repeat split; assumption.
    + match goal with
      | |- context [for_each _ _ ?s1] =>
          destruct (IH s1 eq_refl) as (created & Hcreated & Hfresh' & Hloop); rewrite Hloop
      end.
      exists (first ++ created)%list. rewrite fmap_app, Hfirst, Hcreated, <- fan_out_cons.
      repeat split; [apply Forall_app; split; assumption |].
      simpl. rewrite <- app_assoc. reflexivity.
Qed.

Lemma lex_compare_antisym (a b : list Z) :
  lex_compare b a = CompOpp (lex_compare a b).
Proof.
  revert b. induction a as [|x a IH]; intros [|y b]; simpl; try reflexivity.
  rewrite (Z.compare_antisym x y).
  destruct (x ?= y); simpl; [apply IH | reflexivity | reflexivity].
Qed.

(** [now < t] says the same as not [t <= now]. *)
Lemma dt_ltb_leb (now t : datetime) : dt_ltb now t = negb (dt_leb t now).
Proof.
  unfold dt_ltb, dt_leb, dt_compare.
  rewrite (lex_compare_antisym (dt_fields t) (dt_fields now)).
  destruct (lex_compare (dt_fields t) (dt_fields now)); reflexivity.
Qed.

Lemma fan_out_future now (instants : list datetime) (p : NotificationType * datetime) :
  p ∈ fan_out now instants -> dt_leb p.2 now = false.
Proof.
  unfold fan_out. rewrite list_elem_of_In, in_flat_map.
  intros (t & _ & Hp). destruct (dt_leb t now) eqn:Hpast; [destruct Hp |].
  simpl in Hp. destruct Hp as [<- | [<- | [<- | [<- | []]]]]; exact Hpast.
Qed.

Lemma run_User_query_get user_id s :
  User_query_get user_id s
  = (Ok (find (fun u => User.id u =? user_id) (users (working s))), s).
Proof. reflexivity. Qed.

(** C6: a deadline with lead times 7, 3 and 1 days, whose owner has the
    four channels on and a phone number on file, and whose three instants
    [due_date - days_before] exist: the scheduler answers without raising
    and adds, per lead time whose instant is after [now], one unsent row
    for each of e-mail, SMS, WhatsApp and push at that instant, and no row
    for a lead time whose instant is at or before [now]; with the three
    instants after [now] that is exactly 12 rows. *)
Theorem reminder_fan_out
    (now : datetime) (deadline : Deadline.t) (user : User.t) (db : DB)
    (t7 t3 t1 : datetime) :
  find (fun u => User.id u =? Deadline.user_id deadline) (users db) = Some user ->
  all_channels_enabled user = true ->
  Deadline.reminder_days deadline = [7; 3; 1] ->
  notify_at (Deadline.due_date deadline) 7 = Ok t7 ->
  notify_at (Deadline.due_date deadline) 3 = Ok t3 ->
  notify_at (Deadline.due_date deadline) 1 = Ok t1 ->
  let '(r, s') := schedule_deadline_notifications now deadline (clean db) in
  r = Ok tt
  /\ exists created,
       notifications (committed s') = (notifications db ++ created)%list
       /\ channel_and_instant <$> created = fan_out now [t7; t3; t1]
       /\ Forall (fresh_reminder deadline) created
       /\ (dt_ltb now t7 = true -> dt_ltb now t3 = true -> dt_ltb now t1 = true ->
           length created = 12%nat)
       /\ (forall n, n ∈ created -> dt_leb (Notification.scheduled_for n) now = false).
Proof.
  intros Huser Hon Hdays H7 H3 H1.
  destruct (schedule_loop_run now deadline user [7; 3; 1] [t7; t3; t1] (clean db) Hon)
    as (created & Hcreated & Hfresh & Hrun); [repeat constructor; assumption | reflexivity |].
  unfold schedule_deadline_notifications.
  rewrite run_try_except, run_bind, run_User_query_get.
  change (working (clean db)) with db. rewrite Huser. cbn beta iota.
  rewrite Hdays, Hrun.
  split; [reflexivity |]. exists created. simpl.
  repeat split; try assumption.
  - intros F7 F3 F1. rewrite dt_ltb_leb, negb_true_iff in F7, F3, F1.
    apply (f_equal length) in Hcreated. rewrite length_fmap in Hcreated.
    rewrite Hcreated. unfold fan_out. simpl. rewrite F7, F3, F1. reflexivity.
  - intros n Hn.
    apply (fan_out_future now [t7; t3; t1] (channel_and_instant n)).
    rewrite <- Hcreated. apply list_elem_of_fmap_2. exact Hn.
Qed.

(** ** Scheduling never fails when the instants exist *)

Lemma never_raises__create_notification now uid did t msg ty at_ :
  never_raises (_create_notification now uid did t msg ty at_).
Proof.
  apply never_raises_try_except.
  apply never_raises_bind; [| intros n].
  - unfold session_add_notification.
    apply never_raises_bind; [apply never_raises_get_working | intros db].
    apply never_raises_bind; [apply never_raises_put_working | intros _; apply never_raises_ret].
  - apply never_raises_bind; [apply never_raises_commit | intros _; apply never_raises_ret].
Qed.

Lemma never_raises_schedule_reminder_day now deadline user prefs days_before :
  is_ok (notify_at (Deadline.due_date deadline) days_before) = true ->
  never_raises (schedule_reminder_day now deadline user prefs days_before).
Proof.
  unfold notify_at, schedule_reminder_day.
  destruct (timedelta_new days_before 0 0 0) as [td|e] eqn:Htd; simpl; [| discriminate].
  destruct (dt_sub (Deadline.due_date deadline) td) as [t|e] eqn:Hsub; simpl;
    [intros _ | discriminate].
  intros s. rewrite run_bind. unfold lift. cbn beta iota.
  rewrite run_bind, Hsub. cbn beta iota.
  destruct (dt_leb t now); [reflexivity |].
  revert s.
  repeat (apply never_raises_bind; [| intros _]);
    try (apply never_raises_when; apply never_raises_bind;
         [apply never_raises__create_notification | intros _; apply never_raises_ret]).
Qed.

Lemma never_raises_schedule_deadline_notifications now deadline :
  reminders_computable (Deadline.due_date deadline) (Deadline.reminder_days deadline) = true ->
  never_raises (schedule_deadline_notifications now deadline).
Proof.
  intros Hdays. unfold reminders_computable in Hdays. rewrite forallb_forall in Hdays.
  apply never_raises_try_except.
  apply never_raises_bind; [intros s; reflexivity | intros [user|]];
    [| apply never_raises_ret].
  apply never_raises_for_each. intros days_before Hin.
  apply never_raises_schedule_reminder_day, Hdays, list_elem_of_In, Hin.
Qed.

Lemma next_id_above (ids : list Z) (i : Z) : i ∈ ids -> i < next_id ids.
Proof.
  unfold next_id. induction ids as [|j ids IH]; intros Hin.
  - inversion Hin.
  - simpl. apply elem_of_cons in Hin as [-> | Hin]; [lia |].
    specialize (IH Hin). lia.
Qed.

Lemma next_id_fresh (ids : list Z) : next_id ids ∉ ids.
Proof. intros Hin. apply next_id_above in Hin. lia. Qed.

Lemma update_rows_compose {A} (key : A -> Z) (k : Z) (f g : A -> A) (rows : list A) :
  (forall x, key (f x) = key x) ->
  update_rows key k g (update_rows key k f rows)
  = update_rows key k (fun x => g (f x)) rows.
Proof.
  intros Hf. unfold update_rows. rewrite <- list_fmap_compose.
  apply list_fmap_ext. intros _ x _. simpl.
  destruct (key x =? k) eqn:Hk; [rewrite Hf, Hk; reflexivity | rewrite Hk; reflexivity].
Qed.

Lemma update_rows_found {A} (key : A -> Z) (k : Z) (f : A -> A) (rows : list A) (d : A) :
  d ∈ rows -> key d = k -> f d ∈ update_rows key k f rows.
Proof.
  intros Hin Hk. unfold update_rows. apply list_elem_of_fmap.
  exists d. split; [| exact Hin]. rewrite Hk, Z.eqb_refl. reflexivity.
Qed.

(** * Completion of a recurring deadline *)

Lemma run_Deadline_query_first deadline_id user_id s :
  Deadline_query_first deadline_id user_id s
  = (Ok (find (fun d => (Deadline.id d =? deadline_id) && (Deadline.user_id d =? user_id))
           (deadlines (working s))), s).
Proof. reflexivity. Qed.

Lemma _create_next_recurring_deadline_run now c pattern due_date db :
  Deadline.recurrence_pattern c = Some pattern ->
  pattern <> "" ->
  _calculate_next_due_date (Deadline.due_date c) pattern = Ok due_date ->
  reminders_computable due_date (Deadline.reminder_days c) = true ->
  let spawned := successor_of now c (next_id (Deadline.id <$> deadlines db)) due_date in
  exists s',
    _create_next_recurring_deadline now c (clean db) = (Ok (Some spawned), s')
    /\ deadlines (committed s') = (deadlines db ++ [spawned])%list
    /\ deadlines (working s') = (deadlines db ++ [spawned])%list.
Proof.
  intros Hpat Hne Hdue Hdays spawned.
  unfold _create_next_recurring_deadline.
  rewrite run_try_except, Hpat.
  apply String.eqb_neq in Hne. rewrite Hne.
  rewrite run_bind. unfold lift. rewrite Hdue. cbn beta iota.
  rewrite run_bind.
  match goal with
  | |- context [session_add_deadline ?x (clean db)] =>
      assert (session_add_deadline x (clean db)
              = (Ok spawned, mkSession db (mkDB (users db) (deadlines db ++ [spawned])
                                             (notifications db)) [])) as ->
        by (unfold spawned, successor_of; rewrite Hpat; reflexivity)
  end.
  cbn beta iota. rewrite run_bind. cbn [commit working committed outbox].
  cbn beta iota. rewrite run_bind.
  set (s2 := mkSession _ _ _).
  pose proof (never_raises_schedule_deadline_notifications now spawned Hdays s2) as Hok.
  pose proof (both_schedule_deadline_notifications
                (fun db' => deadlines db' = (deadlines db ++ [spawned])%list)
                (fun db' n H => H) now spawned s2 (conj eq_refl eq_refl)) as [Hw Hc].
  destruct (schedule_deadline_notifications now spawned s2) as [[[]|e] s3];
    [| discriminate].
  simpl in *. exists s3. repeat split; assumption.
Qed.

(** The request of the scenario is completed: the value returned is the
    completed deadline, with key 1 and due 2025-03-20; the successor, with
    key 2 and due 2025-04-20, is stored but is not what is returned. *)
Lemma complete_returns_completed_only :
  let '(r, s') := mark_deadline_completed Scenario.now 1 1 Scenario.after_create in
  (Deadline.id <$> deadlines (committed s') = [1; 2]
   /\ Deadline.due_date <$> deadlines (committed s')
      = [mkdt 2025 3 20 0 0 0 0; mkdt 2025 4 20 0 0 0 0])
  /\ (exists d, r = Ok d /\ Deadline.id d = 1
                /\ Deadline.due_date d = mkdt 2025 3 20 0 0 0 0
                /\ Deadline.is_completed d = true)
  /\ ~ (exists d, r = Ok d /\ Deadline.id d = 2).
Proof.
  vm_compute. split; [split; reflexivity |]. split.
  - eexists. repeat split; reflexivity.
  - intros (d & [= <-] & Hid). discriminate.
Qed.

(** C5 (amended): completing a recurring deadline whose pattern is not
    empty, for which the Recurrence Calculator gives a next due date and
    whose lead times give instants from that date: the call returns the
    completed deadline (flag set, completed at [now]) and only that; the
    table then holds the deadline as completed and, as a new last row
    under a fresh key, its successor: due at the date the calculator gave,
    open, with the owner, document, title, description, type, recurrence
    and lead times of the original. *)
Theorem complete_recurring_deadline
    (now : datetime) (deadline_id user_id : Z) (db : DB) (d : Deadline.t)
    (pattern : string) (next_due_date : datetime) :
  find (fun x => (Deadline.id x =? deadline_id) && (Deadline.user_id x =? user_id))
    (deadlines db) = Some d ->
  Deadline.is_recurring d = true ->
  Deadline.recurrence_pattern d = Some pattern ->
  pattern <> "" ->
  _calculate_next_due_date (Deadline.due_date d) pattern = Ok next_due_date ->
  reminders_computable next_due_date (Deadline.reminder_days d) = true ->
  let '(r, s') := mark_deadline_completed now deadline_id user_id (clean db) in
  let key := next_id (Deadline.id <$> deadlines db) in
  r = Ok (completed now d)
  /\ deadlines (committed s')
     = (update_rows Deadline.id deadline_id (completed now) (deadlines db)
        ++ [successor_of now d key next_due_date])%list
  /\ completed now d ∈ deadlines (committed s')
  /\ key ∉ Deadline.id <$> deadlines db.
Proof.
  intros Hfind Hrec Hpat Hne Hdue Hdays.
  destruct (find_Some_filter _ _ _ Hfind) as (Hkey & Hin & _).
  apply andb_true_iff in Hkey as [Hkey _]. apply Z.eqb_eq in Hkey.
  unfold mark_deadline_completed.
  rewrite run_try_except, run_bind, run_Deadline_query_first.
  change (working (clean db)) with db. rewrite Hfind. cbn beta iota.
  set (db1 := mkDB (users db)
                (update_rows Deadline.id deadline_id (completed now) (deadlines db))
                (notifications db)).
  assert (Hdb1 : forall k : Deadline.t -> M Deadline.t,
    (deadline ← setattr (Deadline.set_is_completed true) d;
     deadline ← setattr (Deadline.set_completed_at (Some now)) deadline;
     deadline ← setattr (Deadline.set_updated_at now) deadline;
     _ ← commit; k deadline) (clean db) = k (completed now d) (clean db1)).
  { intros k. unfold setattr, modify_deadline.
    cbv [mbind M_bind bind mret M_ret ret get_working put_working commit
           working committed outbox clean users deadlines notifications].
    simpl. rewrite Hkey, !update_rows_compose by reflexivity. reflexivity. }
  rewrite Hdb1.
  change (Deadline.is_recurring (completed now d)) with (Deadline.is_recurring d).
  change (Deadline.recurrence_pattern (completed now d)) with (Deadline.recurrence_pattern d).
  rewrite Hrec, Hpat. simpl pattern_truthy.
  apply String.eqb_neq in Hne as Hne'. rewrite Hne'. cbn [negb andb].
  destruct (_create_next_recurring_deadline_run now (completed now d) pattern
              next_due_date db1 Hpat Hne Hdue Hdays) as (s' & Hrun & Hc & _).
  rewrite !run_bind, Hrun. cbn beta iota. unfold ret at 1 2. cbn beta iota.
  assert (Hids : Deadline.id <$> deadlines db1 = Deadline.id <$> deadlines db).
  { apply update_rows_keys. reflexivity. }
  rewrite Hids in Hc.
  repeat split.
  - exact Hc.
  - rewrite Hc. apply elem_of_app. left.
    apply update_rows_found; assumption.
  - apply next_id_fresh.
Qed.


(** * The theorems at the scenario *)

Example sweeps_send_the_due_row_once :
  let s' := run_sweeps Scenario.sweeps (clean Scenario.db_dispatch) in
  outbox s' = [(3, PUSH)]
  /\ Notification.is_sent <$> notifications (committed s') = [true; false; true]
  /\ Notification.sent_at <$> notifications (committed s')
     = [Some (mkdt 2025 3 13 6 0 5 0); None; Some (mkdt 2025 3 13 6 15 0 0)].
Proof. vm_compute. repeat split; reflexivity. Qed.

Lemma sent_notification_never_resent_witness :
  NoDup (Notification.id <$> notifications Scenario.db_dispatch)
  /\ Scenario.sent_row ∈ notifications Scenario.db_dispatch
  /\ Notification.is_sent Scenario.sent_row = true
  /\ let s' := run_sweeps Scenario.sweeps (clean Scenario.db_dispatch) in
     Scenario.sent_row ∈ notifications (committed s')
     /\ Scenario.sent_row ∈ notifications (working s')
     /\ (forall n, n ∈ pending_rows (mkdt 2025 3 13 6 45 0 0) (working s') ->
                   Notification.id n <> Notification.id Scenario.sent_row)
     /\ (forall ch, (Notification.id Scenario.sent_row, ch) ∉ outbox s')
     /\ (sent_rows_dated Scenario.db_dispatch -> sent_rows_dated (committed s')).
Proof.
  assert (Hnd : NoDup (Notification.id <$> notifications Scenario.db_dispatch))
    by (apply (bool_decide_unpack _); vm_compute; exact I).
  assert (Hin : Scenario.sent_row ∈ notifications Scenario.db_dispatch) by left.
  pose proof (sent_notification_never_resent Scenario.sweeps Scenario.db_dispatch
                Scenario.sent_row (mkdt 2025 3 13 6 45 0 0) Hnd Hin eq_refl) as H.
  split; [exact Hnd |]. split; [exact Hin |]. split; [reflexivity |]. exact H.
Defined.

Lemma orphaned_notification_stays_pending_witness :
  NoDup (Notification.id <$> notifications Scenario.db_dispatch)
  /\ Scenario.orphan_row ∈ notifications Scenario.db_dispatch
  /\ Notification.is_sent Scenario.orphan_row = false
  /\ no_such_user (Notification.user_id Scenario.orphan_row) Scenario.db_dispatch
  /\ (forall env now,
        send_notification env now Scenario.orphan_row (clean Scenario.db_dispatch)
        = (Ok false, clean Scenario.db_dispatch))
  /\ let s' := run_sweeps Scenario.sweeps (clean Scenario.db_dispatch) in
     Scenario.orphan_row ∈ notifications (committed s')
     /\ Scenario.orphan_row ∈ notifications (working s')
     /\ no_such_user (Notification.user_id Scenario.orphan_row) (working s')
     /\ (forall env now, send_notification env now Scenario.orphan_row s' = (Ok false, s'))
     /\ (forall now, dt_leb (Notification.scheduled_for Scenario.orphan_row) now = true ->
                     Scenario.orphan_row ∈ pending_rows now (working s'))
     /\ (forall ch, (Notification.id Scenario.orphan_row, ch) ∉ outbox s').
Proof.
  assert (Hnd : NoDup (Notification.id <$> notifications Scenario.db_dispatch))
    by (apply (bool_decide_unpack _); vm_compute; exact I).
  assert (Hin : Scenario.orphan_row ∈ notifications Scenario.db_dispatch) by (right; left).
  assert (Hnone : no_such_user (Notification.user_id Scenario.orphan_row) Scenario.db_dispatch)
    by reflexivity.
  pose proof (orphaned_notification_stays_pending Scenario.sweeps Scenario.db_dispatch
                Scenario.orphan_row Hnd Hin eq_refl Hnone) as H.
  split; [exact Hnd |]. split; [exact Hin |]. split; [reflexivity |].
  split; [exact Hnone |]. exact H.
Defined.

Lemma reminder_fan_out_witness :
  find (fun u => User.id u =? Deadline.user_id Scenario.gst_deadline) (users Scenario.db_gst)
  = Some Scenario.asha
  /\ all_channels_enabled Scenario.asha = true
  /\ Deadline.reminder_days Scenario.gst_deadline = [7; 3; 1]
  /\ notify_at (Deadline.due_date Scenario.gst_deadline) 7 = Ok (mkdt 2025 3 13 0 0 0 0)
  /\ notify_at (Deadline.due_date Scenario.gst_deadline) 3 = Ok (mkdt 2025 3 17 0 0 0 0)
  /\ notify_at (Deadline.due_date Scenario.gst_deadline) 1 = Ok (mkdt 2025 3 19 0 0 0 0)
  /\ let '(r, s') := schedule_deadline_notifications Scenario.now Scenario.gst_deadline
                       (clean Scenario.db_gst) in
     r = Ok tt
     /\ exists created,
          notifications (committed s') = (notifications Scenario.db_gst ++ created)%list
          /\ channel_and_instant <$> created
             = fan_out Scenario.now
                 [mkdt 2025 3 13 0 0 0 0; mkdt 2025 3 17 0 0 0 0; mkdt 2025 3 19 0 0 0 0]
          /\ Forall (fresh_reminder Scenario.gst_deadline) created
          /\ (dt_ltb Scenario.now (mkdt 2025 3 13 0 0 0 0) = true ->
              dt_ltb Scenario.now (mkdt 2025 3 17 0 0 0 0) = true ->
              dt_ltb Scenario.now (mkdt 2025 3 19 0 0 0 0) = true ->
              length created = 12%nat)
          /\ (forall n, n ∈ created ->
                        dt_leb (Notification.scheduled_for n) Scenario.now = false).
Proof.
  assert (Huser : find (fun u => User.id u =? Deadline.user_id Scenario.gst_deadline)
                    (users Scenario.db_gst) = Some Scenario.asha) by reflexivity.
  assert (Hon : all_channels_enabled Scenario.asha = true) by (vm_compute; reflexivity).
  assert (H7 : notify_at (Deadline.due_date Scenario.gst_deadline) 7
               = Ok (mkdt 2025 3 13 0 0 0 0)) by (vm_compute; reflexivity).
  assert (H3 : notify_at (Deadline.due_date Scenario.gst_deadline) 3
               = Ok (mkdt 2025 3 17 0 0 0 0)) by (vm_compute; reflexivity).
  assert (H1 : notify_at (Deadline.due_date Scenario.gst_deadline) 1
               = Ok (mkdt 2025 3 19 0 0 0 0)) by (vm_compute; reflexivity).
  pose proof (reminder_fan_out Scenario.now Scenario.gst_deadline Scenario.asha
                Scenario.db_gst _ _ _ Huser Hon eq_refl H7 H3 H1) as H.
  split; [exact Huser |]. split; [exact Hon |]. split; [reflexivity |].
  split; [exact H7 |]. split; [exact H3 |]. split; [exact H1 |]. exact H.
Defined.

Lemma complete_recurring_deadline_witness :
  find (fun x => (Deadline.id x =? 1) && (Deadline.user_id x =? 1))
    (deadlines Scenario.db_gst) = Some Scenario.gst_deadline
  /\ Deadline.is_recurring Scenario.gst_deadline = true
  /\ Deadline.recurrence_pattern Scenario.gst_deadline = Some "monthly"
  /\ "monthly" <> ""
  /\ _calculate_next_due_date (Deadline.due_date Scenario.gst_deadline) "monthly"
     = Ok (mkdt 2025 4 20 0 0 0 0)
  /\ reminders_computable (mkdt 2025 4 20 0 0 0 0)
       (Deadline.reminder_days Scenario.gst_deadline) = true
  /\ let '(r, s') := mark_deadline_completed Scenario.now 1 1 (clean Scenario.db_gst) in
     let key := next_id (Deadline.id <$> deadlines Scenario.db_gst) in
     r = Ok (completed Scenario.now Scenario.gst_deadline)
     /\ deadlines (committed s')
        = (update_rows Deadline.id 1 (completed Scenario.now) (deadlines Scenario.db_gst)
           ++ [successor_of Scenario.now Scenario.gst_deadline key (mkdt 2025 4 20 0 0 0 0)])%list
     /\ completed Scenario.now Scenario.gst_deadline ∈ deadlines (committed s')
     /\ key ∉ Deadline.id <$> deadlines Scenario.db_gst.
Proof.
  assert (Hfind : find (fun x => (Deadline.id x =? 1) && (Deadline.user_id x =? 1))
                    (deadlines Scenario.db_gst) = Some Scenario.gst_deadline) by reflexivity.
  assert (Hne : "monthly" <> "") by (apply (bool_decide_unpack _); vm_compute; exact I).
  assert (Hdue : _calculate_next_due_date (Deadline.due_date Scenario.gst_deadline) "monthly"
                 = Ok (mkdt 2025 4 20 0 0 0 0)) by (vm_compute; reflexivity).
  assert (Hdays : reminders_computable (mkdt 2025 4 20 0 0 0 0)
                    (Deadline.reminder_days Scenario.gst_deadline) = true)
    by (vm_compute; reflexivity).
  pose proof (complete_recurring_deadline Scenario.now 1 1 Scenario.db_gst
                Scenario.gst_deadline "monthly" _ Hfind eq_refl eq_refl Hne Hdue Hdays) as H.
  split; [exact Hfind |]. split; [reflexivity |]. split; [reflexivity |].
  split; [exact Hne |]. split; [exact Hdue |]. split; [exact Hdays |]. exact H.
Defined.

(** * Further properties of the Recurrence Calculator *)

Ltac divmod := Z.div_mod_to_equations; lia.

Lemma valid_datetime_split (d : datetime) :
  valid_datetime d = true <-> valid_date d = true /\ valid_time d = true.
Proof.
  unfold valid_datetime, valid_date, valid_time, datetime_new.
  destruct (check_date_fields _ _ _) as [[]|e]; simpl.
  - destruct (check_time_fields _ _ _ _) as [[]|e]; simpl; intuition congruence.
  - intuition congruence.
Qed.

Lemma days_in_month_range (y m : Z) : 1 <= m <= 12 -> 28 <= _days_in_month y m <= 31.
Proof.
  intros Hm. unfold _days_in_month.
  assert (m = 1 \/ m = 2 \/ m = 3 \/ m = 4 \/ m = 5 \/ m = 6 \/ m = 7 \/ m = 8 \/ m = 9
          \/ m = 10 \/ m = 11 \/ m = 12) as Hcases by lia.
  repeat (destruct Hcases as [-> | Hcases]); try subst m; simpl;
    try (destruct (_is_leap y); simpl); lia.
Qed.

Lemma check_date_fields_Ok (y m d : Z) :
  check_date_fields y m d = Ok tt
  <-> (1 <= y <= 9999 /\ 1 <= m <= 12 /\ 1 <= d <= _days_in_month y m).
Proof.
  unfold check_date_fields, MINYEAR, MAXYEAR.
  destruct (1 <=? y) eqn:H1; destruct (y <=? 9999) eqn:H2;
    destruct (1 <=? m) eqn:H3; destruct (m <=? 12) eqn:H4;
    destruct (1 <=? d) eqn:H5; destruct (d <=? _days_in_month y m) eqn:H6; simpl;
    split; try discriminate; try reflexivity; lia.
Qed.

Lemma valid_date_iff (d : datetime) :
  valid_date d = true
  <-> (1 <= year d <= 9999 /\ 1 <= month d <= 12
       /\ 1 <= day d <= _days_in_month (year d) (month d)).
Proof.
  unfold valid_date. rewrite <- check_date_fields_Ok.
  destruct (check_date_fields _ _ _) as [[]|e]; simpl; intuition congruence.
Qed.

Lemma replace_Ok (d : datetime) (yr mo dy : option Z) :
  valid_time d = true ->
  check_date_fields (default (year d) yr) (default (month d) mo) (default (day d) dy) = Ok tt ->
  replace d yr mo dy
  = Ok (mkdt (default (year d) yr) (default (month d) mo) (default (day d) dy)
          (hour d) (minute d) (second d) (microsecond d)).
Proof.
  unfold valid_time, replace, datetime_new. intros Ht Hd. rewrite Hd. simpl.
  destruct (check_time_fields _ _ _ _) as [[]|e]; [reflexivity | discriminate].
Qed.

(** One monthly step from a day up to the 28th. *)
Lemma monthly_step (d : datetime) :
  valid_datetime d = true -> day d <= 28 -> (month_index d + 1) / 12 <= 9999 ->
  _calculate_next_due_date d "monthly" = Ok (at_month_index d (month_index d + 1)).
Proof.
  intros Hvalid Hday Hyear. apply valid_datetime_split in Hvalid as [Hdate Htime].
  apply valid_date_iff in Hdate as (Hy & Hm & Hd).
  unfold month_index in *. unfold _calculate_next_due_date. simpl.
  destruct (month d =? 12) eqn:Hdec.
  - apply Z.eqb_eq in Hdec. rewrite replace_Ok; [| exact Htime |].
    + unfold at_month_index. simpl. f_equal. f_equal; divmod.
    + simpl. apply check_date_fields_Ok. simpl.
      pose proof (days_in_month_range (year d + 1) 1). divmod.
  - apply Z.eqb_neq in Hdec. rewrite replace_Ok; [| exact Htime |].
    + unfold at_month_index. simpl. f_equal. f_equal; divmod.
    + simpl. apply check_date_fields_Ok.
      pose proof (days_in_month_range (year d) (month d + 1)). divmod.
Qed.

Lemma month_index_at (d : datetime) (i : Z) : month_index (at_month_index d i) = i.
Proof. unfold month_index, at_month_index. simpl. divmod. Qed.

Lemma at_month_index_self (d : datetime) :
  1 <= month d <= 12 -> at_month_index d (month_index d) = d.
Proof.
  intros Hm. unfold at_month_index, month_index. destruct d as [y m dd h mi s us].
  simpl in *. f_equal; divmod.
Qed.

Lemma at_month_index_valid (d : datetime) (i : Z) :
  valid_datetime d = true -> day d <= 28 -> 1 <= i / 12 <= 9999 ->
  valid_datetime (at_month_index d i) = true.
Proof.
  intros Hvalid Hday Hi. apply valid_datetime_split in Hvalid as [Hdate Htime].
  apply valid_date_iff in Hdate as (Hy & Hm & Hd).
  apply valid_datetime_split. split; [| exact Htime].
  apply valid_date_iff. simpl.
  pose proof (days_in_month_range (i / 12) (i mod 12 + 1)). divmod.
Qed.

(** [n] monthly steps from a day up to the 28th move the month by [n]
    and keep the day and the time. *)
Lemma monthly_steps (n : nat) (d : datetime) :
  valid_datetime d = true -> day d <= 28 ->
  (month_index d + Z.of_nat n) / 12 <= 9999 ->
  next_due_times n "monthly" d = Ok (at_month_index d (month_index d + Z.of_nat n)).
Proof.
  revert d. induction n as [|n IH]; intros d Hvalid Hday Hyear.
  - simpl. rewrite Z.add_0_r, at_month_index_self; [reflexivity |].
    apply valid_datetime_split in Hvalid as [Hdate _].
    apply valid_date_iff in Hdate. lia.
  - assert (Hy : 1 <= year d)
      by (apply valid_datetime_split in Hvalid as [Hdate _];
          apply valid_date_iff in Hdate; lia).
    assert (Hm : 1 <= month d <= 12)
      by (apply valid_datetime_split in Hvalid as [Hdate _];
          apply valid_date_iff in Hdate; lia).
    unfold month_index in Hyear.
    cbn [next_due_times]. rewrite monthly_step; [| exact Hvalid | exact Hday |].
    + change (mbind ?k (Ok ?x)) with (k x). cbn beta.
      rewrite IH.
      * rewrite month_index_at.
        replace (month_index d + 1 + Z.of_nat n) with (month_index d + Z.of_nat (S n)) by lia.
        reflexivity.
      * apply at_month_index_valid; [exact Hvalid | exact Hday |].
        unfold month_index. divmod.
      * exact Hday.
      * rewrite month_index_at. unfold month_index. divmod.
    + unfold month_index. divmod.
Qed.

(** X3: from a valid due instant on a day up to the 28th, before the year
    9999: three monthly steps are one quarterly step, four quarterly
    steps are one annual step, and twelve monthly steps are one annual
    step. *)
Theorem recurrence_steps_compose (d : datetime) :
  valid_datetime d = true -> day d <= 28 -> year d < 9999 ->
  next_due_times 3 "monthly" d = _calculate_next_due_date d "quarterly"
  /\ next_due_times 12 "monthly" d = _calculate_next_due_date d "annually"
  /\ next_due_times 4 "quarterly" d = _calculate_next_due_date d "annually".
Proof.
  intros Hvalid Hday Hyear.
  pose proof Hvalid as Hv. apply valid_datetime_split in Hv as [Hdate Htime].
  apply valid_date_iff in Hdate as (Hy & Hm & Hd).
  assert (Hquarterly : forall x, valid_datetime x = true -> day x <= 28 ->
            (month_index x + 3) / 12 <= 9999 ->
            _calculate_next_due_date x "quarterly"
            = Ok (at_month_index x (month_index x + 3))).
  { intros x Hx Hxday Hxyear. apply valid_datetime_split in Hx as [Hxd Hxt].
    apply valid_date_iff in Hxd as (Hxy & Hxm & Hxdd). unfold month_index in *.
    unfold _calculate_next_due_date. simpl.
    destruct (month x + 3 >? 12) eqn:Hwrap.
    - rewrite replace_Ok; [| exact Hxt |].
      + unfold at_month_index. simpl. f_equal. f_equal; divmod.
      + simpl. apply check_date_fields_Ok.
        pose proof (days_in_month_range (year x + 1) (month x + 3 - 12)). divmod.
    - rewrite replace_Ok; [| exact Hxt |].
      + unfold at_month_index. simpl. f_equal. f_equal; divmod.
      + simpl. apply check_date_fields_Ok.
        pose proof (days_in_month_range (year x) (month x + 3)). divmod. }
  assert (Hannually : _calculate_next_due_date d "annually"
                      = Ok (at_month_index d (month_index d + 12))).
  { unfold _calculate_next_due_date. simpl. rewrite replace_Ok; [| exact Htime |].
    - unfold at_month_index, month_index. simpl. f_equal. f_equal; divmod.
    - simpl. apply check_date_fields_Ok.
      pose proof (days_in_month_range (year d + 1) (month d)). lia. }
  split; [| split].
  - rewrite monthly_steps, Hquarterly; try assumption; try reflexivity;
      unfold month_index; divmod.
  - rewrite monthly_steps, Hannually; try assumption; try reflexivity;
      unfold month_index; divmod.
  - rewrite Hannually. cbn [next_due_times].
    rewrite Hquarterly; [| assumption | assumption | unfold month_index; divmod].
    change (mbind ?k (Ok ?x)) with (k x). cbn beta.
    rewrite Hquarterly;
      [| apply at_month_index_valid; [assumption | assumption | unfold month_index; divmod]
       | exact Hday | rewrite month_index_at; unfold month_index; divmod].
    change (mbind ?k (Ok ?x)) with (k x). cbn beta.
    rewrite Hquarterly;
      [| apply at_month_index_valid;
         [apply at_month_index_valid; [assumption | assumption | unfold month_index; divmod]
         | exact Hday | rewrite month_index_at; unfold month_index; divmod]
       | exact Hday | rewrite !month_index_at; unfold month_index; divmod].
    change (mbind ?k (Ok ?x)) with (k x). cbn beta.
    rewrite Hquarterly;
      [| repeat (apply at_month_index_valid;
                 [| exact Hday | rewrite ?month_index_at; unfold month_index; divmod]);
         assumption
       | exact Hday | rewrite !month_index_at; unfold month_index; divmod].
    change (mbind ?k (Ok ?x)) with (k x). cbn beta.
    rewrite !month_index_at. unfold at_month_index, month_index. simpl.
    f_equal. f_equal; divmod.
Qed.

(** ** Days and weeks *)

Lemma valid_time_iff (d : datetime) :
  valid_time d = true
  <-> (0 <= hour d <= 23 /\ 0 <= minute d <= 59 /\ 0 <= second d <= 59
       /\ 0 <= microsecond d <= 999999).
Proof.
  unfold valid_time, check_time_fields.
  destruct (0 <=? hour d) eqn:H1; destruct (hour d <=? 23) eqn:H2;
    destruct (0 <=? minute d) eqn:H3; destruct (minute d <=? 59) eqn:H4;
    destruct (0 <=? second d) eqn:H5; destruct (second d <=? 59) eqn:H6;
    destruct (0 <=? microsecond d) eqn:H7; destruct (microsecond d <=? 999999) eqn:H8;
    simpl; split; try discriminate; try reflexivity; lia.
Qed.

Lemma time_of_day_range (d : datetime) :
  valid_time d = true -> 0 <= time_of_day_us d < US_PER_DAY.
Proof.
  intros H. apply valid_time_iff in H.
  unfold time_of_day_us, US_PER_DAY, US_PER_SECOND. lia.
Qed.

Lemma with_time_of_day_of (d x : datetime) :
  valid_time d = true ->
  with_time_of_day x (time_of_day_us d) = at_time_of d x.
Proof.
  intros H. apply valid_time_iff in H.
  unfold with_time_of_day, at_time_of, time_of_day_us, US_PER_SECOND.
  f_equal; divmod.
Qed.

Lemma succ_day_time (d d' : datetime) :
  succ_day d = Ok d' -> at_time_of d d' = d' /\ valid_time d' = valid_time d.
Proof.
  unfold succ_day.
  repeat match goal with
         | |- context [if ?b then _ else _] => destruct b
         end; try discriminate; intros [= <-]; split; reflexivity.
Qed.

Lemma succ_days_S (n : nat) (d : datetime) :
  succ_days (S n) d = rbind (succ_day d) (succ_days n).
Proof. reflexivity. Qed.

Lemma succ_days_snoc (n : nat) (d : datetime) :
  succ_days (S n) d = rbind (succ_days n d) succ_day.
Proof.
  revert d. induction n as [|n IH]; intros d.
  - simpl. unfold mbind, Result_bind, rbind. destruct (succ_day d); reflexivity.
  - rewrite (succ_days_S (S n)), (succ_days_S n). unfold rbind at 1 3.
    destruct (succ_day d) as [d'|e]; [apply IH | reflexivity].
Qed.

Lemma shift_days_succ_days (p : positive) (d : datetime) :
  shift_days (Zpos p) d = succ_days (Pos.to_nat p) d.
Proof.
  unfold shift_days. induction p as [|p IH] using Pos.peano_ind.
  - simpl. unfold step_result, mbind, Result_bind, rbind. destruct (succ_day d); reflexivity.
  - rewrite Pos.iter_succ, Pos2Nat.inj_succ, succ_days_snoc, IH. reflexivity.
Qed.

Lemma succ_days_time (n : nat) (d d' : datetime) :
  succ_days n d = Ok d' -> at_time_of d d' = d'.
Proof.
  revert d. induction n as [|n IH]; intros d; simpl.
  - intros [= <-]. destruct d; reflexivity.
  - unfold mbind, Result_bind, rbind. destruct (succ_day d) as [d1|e] eqn:H1; [| discriminate].
    intros H. apply IH in H. apply succ_day_time in H1 as [H1 _].
    rewrite <- H. unfold at_time_of in *. simpl. inversion H1. reflexivity.
Qed.

(** [dt + timedelta(days=k)] for a positive [k] on a valid time of day:
    [k] calendar days forward, at the same time of day. *)
Lemma dt_add_days (d : datetime) (k : positive) :
  valid_time d = true ->
  dt_add d (mktd (Zpos k * US_PER_DAY)) = succ_days (Pos.to_nat k) d.
Proof.
  intros Htime. pose proof (time_of_day_range d Htime) as Hrange.
  unfold dt_add. simpl td_us.
  assert (Hq : (time_of_day_us d + Zpos k * US_PER_DAY) / US_PER_DAY = Zpos k).
  { rewrite Z.div_add by (unfold US_PER_DAY, US_PER_SECOND; lia).
    rewrite Z.div_small by exact Hrange. reflexivity. }
  assert (Hr : (time_of_day_us d + Zpos k * US_PER_DAY) mod US_PER_DAY = time_of_day_us d).
  { rewrite Z.mod_add by (unfold US_PER_DAY, US_PER_SECOND; lia).
    apply Z.mod_small. exact Hrange. }
  rewrite Hq, Hr, shift_days_succ_days.
  unfold mbind, Result_bind, rbind.
  destruct (succ_days (Pos.to_nat k) d) as [x|e] eqn:Hx; [| reflexivity].
  rewrite with_time_of_day_of by exact Htime.
  rewrite (succ_days_time _ _ _ Hx). reflexivity.
Qed.

Lemma daily_steps (n : nat) (d : datetime) :
  valid_time d = true -> next_due_times n "daily" d = succ_days n d.
Proof.
  revert d. induction n as [|n IH]; intros d Htime; [reflexivity |].
  cbn [next_due_times succ_days].
  assert (Hstep : _calculate_next_due_date d "daily" = succ_day d).
  { unfold _calculate_next_due_date. simpl String.eqb. cbv iota.
    change (timedelta_new 1 0 0 0) with (Ok (mktd (1 * US_PER_DAY))).
    change (mbind ?k (Ok ?x)) with (k x). cbn beta.
    rewrite (dt_add_days d 1 Htime). simpl.
    unfold mbind, Result_bind, rbind. destruct (succ_day d); reflexivity. }
  rewrite Hstep. unfold mbind, Result_bind, rbind.
  destruct (succ_day d) as [d'|e] eqn:Hd; [| reflexivity].
  apply IH. apply succ_day_time in Hd as [_ ->]. exact Htime.
Qed.

(** X4: on a due instant with a valid time of day, seven daily steps are
    one weekly step, failures included. *)
Theorem seven_daily_steps_are_one_weekly (d : datetime) :
  valid_time d = true ->
  next_due_times 7 "daily" d = _calculate_next_due_date d "weekly".
Proof.
  intros Htime. rewrite daily_steps by exact Htime.
  unfold _calculate_next_due_date. simpl String.eqb. cbv iota.
  change (timedelta_new 0 0 0 1) with (Ok (mktd (7 * US_PER_DAY))).
  change (mbind ?k (Ok ?x)) with (k x). cbn beta.
  rewrite (dt_add_days d 7 Htime). reflexivity.
Qed.

(** ** Answers of the calculator *)

Lemma datetime_new_valid y m d h mi s us x :
  datetime_new y m d h mi s us = Ok x -> valid_datetime x = true.
Proof.
  intros H. pose proof (datetime_new_Ok _ _ _ _ _ _ _ _ H) as ->.
  unfold valid_datetime. simpl. rewrite H. reflexivity.
Qed.

Lemma replace_valid (d x : datetime) (yr mo dy : option Z) :
  replace d yr mo dy = Ok x ->
  valid_datetime x = true
  /\ x = mkdt (default (year d) yr) (default (month d) mo) (default (day d) dy)
           (hour d) (minute d) (second d) (microsecond d).
Proof.
  unfold replace. intros H. split; [eapply datetime_new_valid, H | eapply datetime_new_Ok, H].
Qed.

Lemma succ_day_valid (d d' : datetime) :
  valid_date d = true -> succ_day d = Ok d' -> valid_date d' = true.
Proof.
  rewrite !valid_date_iff. intros (Hy & Hm & Hd). unfold succ_day, MAXYEAR.
  destruct (day d <? _) eqn:H1; [intros [= <-]; simpl; lia |].
  destruct (month d <? 12) eqn:H2.
  - intros [= <-]; simpl. pose proof (days_in_month_range (year d) (month d + 1)). lia.
  - destruct (year d <? 9999) eqn:H3; [| discriminate].
    intros [= <-]; simpl. pose proof (days_in_month_range (year d + 1) 1). lia.
Qed.

Lemma succ_days_valid (n : nat) (d d' : datetime) :
  valid_datetime d = true -> succ_days n d = Ok d' -> valid_datetime d' = true.
Proof.
  revert d. induction n as [|n IH]; intros d Hvalid; simpl.
  - intros [= <-]. exact Hvalid.
  - unfold mbind, Result_bind, rbind. destruct (succ_day d) as [d1|e] eqn:H1; [| discriminate].
    apply IH. apply valid_datetime_split in Hvalid as [Hdate Htime].
    apply valid_datetime_split. split; [eapply succ_day_valid; eassumption |].
    apply succ_day_time in H1 as [_ ->]. exact Htime.
Qed.

(** X1: on a valid due instant, whatever the pattern, an answer of the
    calculator is a valid instant strictly later than the due instant,
    at the same time of day. *)
Theorem next_due_answer_is_later_and_valid (d d' : datetime) (pattern : string) :
  valid_datetime d = true ->
  _calculate_next_due_date d pattern = Ok d' ->
  dt_ltb d d' = true /\ valid_datetime d' = true /\ at_time_of d d' = d'.
Proof.
  intros Hvalid Hnext. split; [eapply next_due_later_when_it_returns; eassumption |].
  pose proof Hvalid as Hv. apply valid_datetime_split in Hv as [_ Htime].
  revert Hnext. unfold _calculate_next_due_date.
  destruct (String.eqb pattern "daily").
  { change (timedelta_new 1 0 0 0) with (Ok (mktd (1 * US_PER_DAY))).
    change (mbind ?k (Ok ?x)) with (k x). cbn beta. rewrite (dt_add_days d 1 Htime).
    intros H. split; [eapply succ_days_valid; eassumption | eapply succ_days_time, H]. }
  destruct (String.eqb pattern "weekly").
  { change (timedelta_new 0 0 0 1) with (Ok (mktd (7 * US_PER_DAY))).
    change (mbind ?k (Ok ?x)) with (k x). cbn beta. rewrite (dt_add_days d 7 Htime).
    intros H. split; [eapply succ_days_valid; eassumption | eapply succ_days_time, H]. }
  assert (Hreplace : forall yr mo, replace d yr mo None = Ok d' ->
            valid_datetime d' = true /\ at_time_of d d' = d').
  { intros yr mo H. apply replace_valid in H as [Hv ->]. split; [exact Hv | reflexivity]. }
  destruct (String.eqb pattern "monthly").
  { destruct (month d =? 12); apply Hreplace. }
  destruct (String.eqb pattern "quarterly").
  { destruct (month d + 3 >? 12); apply Hreplace. }
  destruct (String.eqb pattern "annually"); apply Hreplace.
Qed.

Lemma next_due_answer_is_later_and_valid_witness :
  valid_datetime (mkdt 2024 12 31 23 59 59 0) = true
  /\ _calculate_next_due_date (mkdt 2024 12 31 23 59 59 0) "daily"
     = Ok (mkdt 2025 1 1 23 59 59 0)
  /\ dt_ltb (mkdt 2024 12 31 23 59 59 0) (mkdt 2025 1 1 23 59 59 0) = true
  /\ valid_datetime (mkdt 2025 1 1 23 59 59 0) = true
  /\ at_time_of (mkdt 2024 12 31 23 59 59 0) (mkdt 2025 1 1 23 59 59 0)
     = mkdt 2025 1 1 23 59 59 0.
Proof.
  assert (Hv : valid_datetime (mkdt 2024 12 31 23 59 59 0) = true) by reflexivity.
  assert (Hn : _calculate_next_due_date (mkdt 2024 12 31 23 59 59 0) "daily"
               = Ok (mkdt 2025 1 1 23 59 59 0)) by (vm_compute; reflexivity).
  pose proof (next_due_answer_is_later_and_valid _ _ _ Hv Hn) as H.
  split; [exact Hv |]. split; [exact Hn |]. exact H.
Defined.

(** X2: a pattern that is none of daily, weekly, monthly, quarterly and
    annually gives the answer of the monthly pattern on every due instant
    outside December, and raises [ValueError] on every due instant in
    December of a year from 1 to 9999. *)
Theorem unrecognized_pattern_behaviour (d : datetime) (pattern : string) :
  pattern <> "daily" -> pattern <> "weekly" -> pattern <> "monthly" ->
  pattern <> "quarterly" -> pattern <> "annually" ->
  (month d <> 12 ->
   _calculate_next_due_date d pattern = _calculate_next_due_date d "monthly")
  /\ (month d = 12 -> 1 <= year d <= 9999 ->
      _calculate_next_due_date d pattern = Raise (ValueError "month must be in 1..12")).
Proof.
  intros Hd Hw Hm Hq Ha. split.
  - intros Hmonth. apply fallback_is_monthly_before_december; assumption.
  - intros Hmonth Hyear. unfold _calculate_next_due_date.
    apply String.eqb_neq in Hd, Hw, Hm, Hq, Ha. rewrite Hd, Hw, Hm, Hq, Ha.
    unfold replace, datetime_new, check_date_fields, MINYEAR, MAXYEAR. simpl.
    rewrite Hmonth. simpl.
    destruct (1 <=? year d) eqn:H1; destruct (year d <=? 9999) eqn:H2; try lia.
    reflexivity.
Qed.

Lemma unrecognized_pattern_behaviour_witness :
  "annual" <> "daily" /\ "annual" <> "weekly" /\ "annual" <> "monthly"
  /\ "annual" <> "quarterly" /\ "annual" <> "annually"
  /\ (month (mkdt 2025 12 31 0 0 0 0) <> 12 ->
      _calculate_next_due_date (mkdt 2025 12 31 0 0 0 0) "annual"
      = _calculate_next_due_date (mkdt 2025 12 31 0 0 0 0) "monthly")
  /\ (month (mkdt 2025 12 31 0 0 0 0) = 12 -> 1 <= year (mkdt 2025 12 31 0 0 0 0) <= 9999 ->
      _calculate_next_due_date (mkdt 2025 12 31 0 0 0 0) "annual"
      = Raise (ValueError "month must be in 1..12")).
Proof.
  assert (H1 : "annual" <> "daily") by (apply (bool_decide_unpack _); vm_compute; exact I).
  assert (H2 : "annual" <> "weekly") by (apply (bool_decide_unpack _); vm_compute; exact I).
  assert (H3 : "annual" <> "monthly") by (apply (bool_decide_unpack _); vm_compute; exact I).
  assert (H4 : "annual" <> "quarterly") by (apply (bool_decide_unpack _); vm_compute; exact I).
  assert (H5 : "annual" <> "annually") by (apply (bool_decide_unpack _); vm_compute; exact I).
  pose proof (unrecognized_pattern_behaviour (mkdt 2025 12 31 0 0 0 0) "annual"
                H1 H2 H3 H4 H5) as H.
  split; [exact H1 |]. split; [exact H2 |]. split; [exact H3 |]. split; [exact H4 |].
  split; [exact H5 |]. exact H.
Defined.

Lemma recurrence_steps_compose_witness :
  valid_datetime (mkdt 2025 11 28 9 30 0 0) = true
  /\ day (mkdt 2025 11 28 9 30 0 0) <= 28
  /\ year (mkdt 2025 11 28 9 30 0 0) < 9999
  /\ next_due_times 3 "monthly" (mkdt 2025 11 28 9 30 0 0)
     = _calculate_next_due_date (mkdt 2025 11 28 9 30 0 0) "quarterly"
  /\ next_due_times 12 "monthly" (mkdt 2025 11 28 9 30 0 0)
     = _calculate_next_due_date (mkdt 2025 11 28 9 30 0 0) "annually"
  /\ next_due_times 4 "quarterly" (mkdt 2025 11 28 9 30 0 0)
     = _calculate_next_due_date (mkdt 2025 11 28 9 30 0 0) "annually".
Proof.
  assert (Hv : valid_datetime (mkdt 2025 11 28 9 30 0 0) = true) by reflexivity.
  assert (Hd : day (mkdt 2025 11 28 9 30 0 0) <= 28) by (simpl; lia).
  assert (Hy : year (mkdt 2025 11 28 9 30 0 0) < 9999) by (simpl; lia).
  pose proof (recurrence_steps_compose _ Hv Hd Hy) as H.
  split; [exact Hv |]. split; [exact Hd |]. split; [exact Hy |]. exact H.
Defined.

Lemma seven_daily_steps_are_one_weekly_witness :
  valid_time (mkdt 2024 2 26 18 0 0 0) = true
  /\ next_due_times 7 "daily" (mkdt 2024 2 26 18 0 0 0)
     = _calculate_next_due_date (mkdt 2024 2 26 18 0 0 0) "weekly".
Proof.
  assert (Hv : valid_time (mkdt 2024 2 26 18 0 0 0) = true) by reflexivity.
  pose proof (seven_daily_steps_are_one_weekly _ Hv) as H.
  split; [exact Hv | exact H].
Defined.

(** * The GST filing date *)

Ltac bools_to_Z :=
  repeat match goal with
         | H : (_ <=? _) = true |- _ => apply Z.leb_le in H
         | H : (_ <=? _) = false |- _ => apply Z.leb_gt in H
         | H : (_ <? _) = true |- _ => apply Z.ltb_lt in H
         | H : (_ <? _) = false |- _ => apply Z.ltb_ge in H
         | H : (_ =? _) = true |- _ => apply Z.eqb_eq in H
         | H : (_ =? _) = false |- _ => apply Z.eqb_neq in H
         | H : (_ && _) = true |- _ => apply andb_true_iff in H; destruct H
         | H : (_ && _) = false |- _ => apply andb_false_iff in H
         end.

Lemma dt_leb_same_time (now : datetime) (y m d : Z) :
  year now < y
  \/ (year now = y /\ (month now < m \/ (month now = m /\ day now <= d))) ->
  dt_leb now (mkdt y m d (hour now) (minute now) (second now) (microsecond now)) = true.
Proof.
  intros H. unfold dt_leb, dt_compare, dt_fields. simpl.
  destruct (year now ?= y) eqn:Hy; [| reflexivity |];
    [apply Z.compare_eq in Hy | apply Z.compare_gt_iff in Hy; lia].
  destruct (month now ?= m) eqn:Hm; [| reflexivity |];
    [apply Z.compare_eq in Hm | apply Z.compare_gt_iff in Hm; lia].
  destruct (day now ?= d) eqn:Hd; [| reflexivity |];
    [| apply Z.compare_gt_iff in Hd; lia].
  rewrite !Z.compare_refl. reflexivity.
Qed.

Lemma dt_ltb_le (a b : datetime) : dt_ltb a b = true -> dt_leb a b = true.
Proof. unfold dt_ltb, dt_leb. destruct (dt_compare a b); congruence. Qed.

(** The GST date has the time of day of its reference instant. *)
Lemma gst_deadline_keeps_time now r business_type deadline_day :
  valid_time now = true ->
  _calculate_next_gst_deadline now business_type deadline_day = Ok r ->
  at_time_of now r = r.
Proof.
  intros Htime. unfold _calculate_next_gst_deadline.
  assert (Hreplace : forall d yr mo dy x,
            at_time_of now d = d -> replace d yr mo dy = Ok x -> at_time_of now x = x).
  { intros d yr mo dy x Hd Hx. apply replace_valid in Hx as [_ ->].
    unfold at_time_of in *. simpl. inversion Hd. reflexivity. }
  assert (Hnow : at_time_of now now = now) by (destruct now; reflexivity).
  match goal with
  | |- context [match ?b with Ok _ => _ | Raise _ => _ end] => destruct b as [x|e] eqn:Hbody
  end.
  - intros [= <-]. revert Hbody. unfold mbind, Result_bind, rbind.
    repeat match goal with
           | |- context [if ?c then _ else _] => destruct c
           | |- context [match replace ?d ?a ?b ?c with Ok _ => _ | Raise _ => _ end] =>
               let H := fresh "Hnd" in
               destruct (replace d a b c) eqn:H; [apply (Hreplace _ _ _ _ _ Hnow) in H |]
           end;
      try discriminate;
      try (intros [= <-]; assumption);
      try (intros H; eapply Hreplace; [| exact H]; assumption).
  - change (timedelta_new 30 0 0 0) with (Ok (mktd (30 * US_PER_DAY))).
    change (mbind ?k (Ok ?x)) with (k x). cbn beta.
    rewrite (dt_add_days now 30 Htime). apply succ_days_time.
Qed.

(** X5: on a valid instant [now], whatever the cadence and the filing
    day, an answer of the GST date function is a valid instant that is not
    before [now] and has the time of day of [now]. *)
Theorem gst_deadline_is_not_before_now
    (now r : datetime) (business_type : string) (deadline_day : Z) :
  valid_datetime now = true ->
  _calculate_next_gst_deadline now business_type deadline_day = Ok r ->
  dt_leb now r = true /\ valid_datetime r = true /\ at_time_of now r = r.
Proof.
  intros Hvalid. pose proof Hvalid as Hv.
  apply valid_datetime_split in Hv as [Hdate Htime].
  apply valid_date_iff in Hdate as (Hy & Hm & Hd).
  assert (Hreplace : forall yr mo dy x,
            replace now yr mo dy = Ok x ->
            (year now < default (year now) yr
             \/ (year now = default (year now) yr
                 /\ (month now < default (month now) mo
                     \/ (month now = default (month now) mo
                         /\ day now <= default (day now) dy)))) ->
            dt_leb now x = true /\ valid_datetime x = true /\ at_time_of now x = x).
  { intros yr mo dy x Hx Hle. apply replace_valid in Hx as [Hxv ->].
    split; [apply dt_leb_same_time, Hle | split; [exact Hxv | reflexivity]]. }
  unfold _calculate_next_gst_deadline.
  match goal with
  | |- context [match ?b with Ok _ => _ | Raise _ => _ end] => destruct b as [x|e] eqn:Hbody
  end.
  - intros [= <-]. revert Hbody. rewrite !Z.gtb_ltb.
    destruct (String.eqb business_type "monthly").
    { destruct (day now <=? deadline_day) eqn:H1; [| destruct (month now =? 12) eqn:H2];
        bools_to_Z; intros H; apply (Hreplace _ _ _ _ H); simpl; lia. }
    destruct (String.eqb business_type "quarterly").
    { match goal with |- context [if ?c then _ else _] => destruct c eqn:H1 end;
        intros H; apply (Hreplace _ _ _ _ H); simpl;
        destruct ((month now - 1) / 3 + 1 <? 4) eqn:H2; bools_to_Z; divmod. }
    destruct (String.eqb business_type "annual").
    { unfold mbind, Result_bind, rbind.
      destruct (replace now None (Some 12) (Some 31)) as [nd|e] eqn:Hnd; [| discriminate].
      pose proof (days_in_month_range (year now) (month now)).
      destruct ((month now =? 12) && (31 <? day now)) eqn:H1; bools_to_Z; [lia |].
      intros [= <-]. apply (Hreplace _ _ _ _ Hnd); simpl; lia. }
    unfold mbind, Result_bind, rbind.
    destruct (replace now None None (Some deadline_day)) as [nd|e] eqn:Hnd; [| discriminate].
    destruct (deadline_day <? day now) eqn:H1; [destruct (month now =? 12) eqn:H2 |];
      bools_to_Z.
    + intros H; apply (Hreplace _ _ _ _ H); simpl; lia.
    + intros H; apply (Hreplace _ _ _ _ H); simpl; lia.
    + intros [= <-]. apply (Hreplace _ _ _ _ Hnd); simpl; lia.
  - change (timedelta_new 30 0 0 0) with (Ok (mktd (30 * US_PER_DAY))).
    change (mbind ?k (Ok ?x)) with (k x). cbn beta.
    intros H. pose proof (dt_add_days_later now r 30 Hvalid H) as Hlater.
    rewrite (dt_add_days now 30 Htime) in H.
    split; [apply dt_ltb_le, date_lt_ltb, Hlater |].
    split; [eapply succ_days_valid; eassumption | eapply succ_days_time, H].
Qed.

Lemma gst_deadline_is_not_before_now_witness :
  valid_datetime (mkdt 2025 3 25 10 15 0 0) = true
  /\ _calculate_next_gst_deadline (mkdt 2025 3 25 10 15 0 0) "monthly" 20
     = Ok (mkdt 2025 4 20 10 15 0 0)
  /\ dt_leb (mkdt 2025 3 25 10 15 0 0) (mkdt 2025 4 20 10 15 0 0) = true
  /\ valid_datetime (mkdt 2025 4 20 10 15 0 0) = true
  /\ at_time_of (mkdt 2025 3 25 10 15 0 0) (mkdt 2025 4 20 10 15 0 0)
     = mkdt 2025 4 20 10 15 0 0.
Proof.
  assert (Hv : valid_datetime (mkdt 2025 3 25 10 15 0 0) = true) by reflexivity.
  assert (Hr : _calculate_next_gst_deadline (mkdt 2025 3 25 10 15 0 0) "monthly" 20
               = Ok (mkdt 2025 4 20 10 15 0 0)) by (vm_compute; reflexivity).
  pose proof (gst_deadline_is_not_before_now _ _ _ _ Hv Hr) as H.
  split; [exact Hv |]. split; [exact Hr |]. exact H.
Defined.

(** X6: for the cadence annual the GST date is the 31st of December of
    the year of [now], whatever the filing day; and the Recurrence
    Calculator raises [ValueError] on that date with the pattern annual,
    the pattern under which the generator stores the deadline. *)
Theorem gst_annual_deadline_cannot_recur (now : datetime) (deadline_day : Z) :
  valid_datetime now = true ->
  exists r,
    _calculate_next_gst_deadline now "annual" deadline_day = Ok r
    /\ r = mkdt (year now) 12 31 (hour now) (minute now) (second now) (microsecond now)
    /\ _calculate_next_due_date r "annual" = Raise (ValueError "month must be in 1..12").
Proof.
  intros Hvalid. apply valid_datetime_split in Hvalid as [Hdate Htime].
  apply valid_date_iff in Hdate as (Hy & Hm & Hd).
  pose proof (days_in_month_range (year now) (month now) Hm) as Hdim.
  eexists. split; [| split; [reflexivity |]].
  - unfold _calculate_next_gst_deadline. simpl String.eqb. cbv iota.
    rewrite replace_Ok; [| exact Htime |].
    + change (mbind ?k (Ok ?x)) with (k x). cbn beta.
      assert (Hno : (month now =? 12) && (day now >? 31) = false).
      { rewrite Z.gtb_ltb. apply andb_false_iff. right. apply Z.ltb_ge. lia. }
      rewrite Hno. reflexivity.
    + simpl. apply check_date_fields_Ok. unfold _days_in_month. simpl. lia.
  - unfold _calculate_next_due_date, replace, datetime_new, check_date_fields,
      MINYEAR, MAXYEAR. simpl.
    destruct (1 <=? year now) eqn:H1; destruct (year now <=? 9999) eqn:H2; try lia.
    reflexivity.
Qed.

Lemma gst_annual_deadline_cannot_recur_witness :
  valid_datetime (mkdt 2025 3 25 10 15 0 0) = true
  /\ exists r,
       _calculate_next_gst_deadline (mkdt 2025 3 25 10 15 0 0) "annual" 31 = Ok r
       /\ r = mkdt (year (mkdt 2025 3 25 10 15 0 0)) 12 31
                (hour (mkdt 2025 3 25 10 15 0 0)) (minute (mkdt 2025 3 25 10 15 0 0))
                (second (mkdt 2025 3 25 10 15 0 0)) (microsecond (mkdt 2025 3 25 10 15 0 0))
       /\ _calculate_next_due_date r "annual" = Raise (ValueError "month must be in 1..12").
Proof.
  assert (Hv : valid_datetime (mkdt 2025 3 25 10 15 0 0) = true) by reflexivity.
  pose proof (gst_annual_deadline_cannot_recur (mkdt 2025 3 25 10 15 0 0) 31 Hv) as H.
  split; [exact Hv | exact H].
Defined.

(** * Further properties of the Deadline Lifecycle Manager *)

(** The deadline table once the row [deadline_id] is marked completed. *)
Lemma mark_completed_prefix {A} now deadline_id (d : Deadline.t) db (k : Deadline.t -> M A) :
  Deadline.id d = deadline_id ->
  (deadline ← setattr (Deadline.set_is_completed true) d;
   deadline ← setattr (Deadline.set_completed_at (Some now)) deadline;
   deadline ← setattr (Deadline.set_updated_at now) deadline;
   _ ← commit; k deadline) (clean db)
  = k (completed now d)
      (clean (mkDB (users db)
                (update_rows Deadline.id deadline_id (completed now) (deadlines db))
                (notifications db))).
Proof.
  intros Hkey. unfold setattr, modify_deadline.
  cbv [mbind M_bind bind mret M_ret ret get_working put_working commit
         working committed outbox clean users deadlines notifications].
  simpl. rewrite Hkey, !update_rows_compose by reflexivity. reflexivity.
Qed.

Lemma find_deadline_key deadline_id user_id rows d :
  find (fun x => (Deadline.id x =? deadline_id) && (Deadline.user_id x =? user_id)) rows
  = Some d ->
  Deadline.id d = deadline_id /\ Deadline.user_id d = user_id /\ d ∈ rows.
Proof.
  intros H. destruct (find_Some_filter _ _ _ H) as (Hk & Hin & _).
  apply andb_true_iff in Hk as [H1 H2]. apply Z.eqb_eq in H1, H2. auto.
Qed.

(** X7: completing a recurring deadline for which the Recurrence
    Calculator raises: [mark_deadline_completed] raises the same
    exception, and what it leaves committed is the deadline marked
    completed at [now], no successor, and the other tables as they
    were. *)
Theorem complete_fails_when_calculator_raises
    (now : datetime) (deadline_id user_id : Z) (db : DB) (d : Deadline.t)
    (pattern : string) (e : Exn) :
  find (fun x => (Deadline.id x =? deadline_id) && (Deadline.user_id x =? user_id))
    (deadlines db) = Some d ->
  Deadline.is_recurring d = true ->
  Deadline.recurrence_pattern d = Some pattern ->
  pattern <> "" ->
  _calculate_next_due_date (Deadline.due_date d) pattern = Raise e ->
  mark_deadline_completed now deadline_id user_id (clean db)
  = (Raise e,
     clean (mkDB (users db)
              (update_rows Deadline.id deadline_id (completed now) (deadlines db))
              (notifications db))).
Proof.
  intros Hfind Hrec Hpat Hne Hdue.
  destruct (find_deadline_key _ _ _ _ Hfind) as (Hkey & _ & _).
  unfold mark_deadline_completed.
  rewrite run_try_except, run_bind, run_Deadline_query_first.
  change (working (clean db)) with db. rewrite Hfind. cbn beta iota.
  rewrite (mark_completed_prefix now deadline_id d db _ Hkey).
  change (Deadline.is_recurring (completed now d)) with (Deadline.is_recurring d).
  change (Deadline.recurrence_pattern (completed now d)) with (Deadline.recurrence_pattern d).
  rewrite Hrec, Hpat. simpl pattern_truthy.
  apply String.eqb_neq in Hne. rewrite Hne. cbn [negb andb].
  unfold _create_next_recurring_deadline.
  change (Deadline.recurrence_pattern (completed now d)) with (Deadline.recurrence_pattern d).
  change (Deadline.due_date (completed now d)) with (Deadline.due_date d).
  rewrite Hpat, Hne, Hdue. reflexivity.
Qed.

Lemma complete_fails_when_calculator_raises_witness :
  find (fun x => (Deadline.id x =? 1) && (Deadline.user_id x =? 1))
    (deadlines Scenario.db_month_end) = Some Scenario.month_end
  /\ Deadline.is_recurring Scenario.month_end = true
  /\ Deadline.recurrence_pattern Scenario.month_end = Some "monthly"
  /\ "monthly" <> ""
  /\ _calculate_next_due_date (Deadline.due_date Scenario.month_end) "monthly"
     = Raise (ValueError "day is out of range for month")
  /\ mark_deadline_completed Scenario.now 1 1 (clean Scenario.db_month_end)
     = (Raise (ValueError "day is out of range for month"),
        clean (mkDB (users Scenario.db_month_end)
                 (update_rows Deadline.id 1 (completed Scenario.now)
                    (deadlines Scenario.db_month_end))
                 (notifications Scenario.db_month_end))).
Proof.
  assert (Hfind : find (fun x => (Deadline.id x =? 1) && (Deadline.user_id x =? 1))
                    (deadlines Scenario.db_month_end) = Some Scenario.month_end)
    by reflexivity.
  assert (Hne : "monthly" <> "") by (apply (bool_decide_unpack _); vm_compute; exact I).
  assert (Hdue : _calculate_next_due_date (Deadline.due_date Scenario.month_end) "monthly"
                 = Raise (ValueError "day is out of range for month"))
    by (vm_compute; reflexivity).
  pose proof (complete_fails_when_calculator_raises Scenario.now 1 1 Scenario.db_month_end
                Scenario.month_end "monthly" _ Hfind eq_refl eq_refl Hne Hdue) as H.
  split; [exact Hfind |]. split; [reflexivity |]. split; [reflexivity |].
  split; [exact Hne |]. split; [exact Hdue |]. exact H.
Defined.

Lemma find_not_owned deadline_id user_id (rows : list Deadline.t) :
  (forall d, d ∈ rows -> Deadline.id d = deadline_id -> Deadline.user_id d <> user_id) ->
  find (fun x => (Deadline.id x =? deadline_id) && (Deadline.user_id x =? user_id)) rows
  = None.
Proof.
  intros H. destruct (find _ rows) as [d|] eqn:Hfind; [| reflexivity].
  destruct (find_deadline_key _ _ _ _ Hfind) as (Hk & Hu & Hin).
  exfalso. exact (H d Hin Hk Hu).
Qed.

(** X8: when no stored deadline has both the key [deadline_id] and the
    owner [user_id] (no such deadline, or a deadline of another user),
    reading, editing, completing and deleting it all raise
    [ValueError('Deadline not found')] and leave the session as it was. *)
Theorem deadline_of_another_user_is_not_found
    (env : Env) (now : datetime) (deadline_id user_id : Z) (update_data : Payload) (db : DB) :
  (forall d, d ∈ deadlines db -> Deadline.id d = deadline_id ->
             Deadline.user_id d <> user_id) ->
  get_deadline deadline_id user_id (clean db)
  = (Raise (ValueError "Deadline not found"), clean db)
  /\ update_deadline env now deadline_id user_id update_data (clean db)
     = (Raise (ValueError "Deadline not found"), clean db)
  /\ mark_deadline_completed now deadline_id user_id (clean db)
     = (Raise (ValueError "Deadline not found"), clean db)
  /\ delete_deadline deadline_id user_id (clean db)
     = (Raise (ValueError "Deadline not found"), clean db).
Proof.
  intros Hnot. apply find_not_owned in Hnot.
  unfold get_deadline, update_deadline, mark_deadline_completed, delete_deadline.
  rewrite !run_try_except, !run_bind, !run_Deadline_query_first.
  change (working (clean db)) with db. rewrite Hnot. repeat split; reflexivity.
Qed.

Lemma deadline_of_another_user_is_not_found_witness :
  (forall d, d ∈ deadlines Scenario.db_gst -> Deadline.id d = 1 -> Deadline.user_id d <> 2)
  /\ get_deadline 1 2 (clean Scenario.db_gst)
     = (Raise (ValueError "Deadline not found"), clean Scenario.db_gst)
  /\ update_deadline Scenario.env Scenario.now 1 2 Scenario.move_due_date (clean Scenario.db_gst)
     = (Raise (ValueError "Deadline not found"), clean Scenario.db_gst)
  /\ mark_deadline_completed Scenario.now 1 2 (clean Scenario.db_gst)
     = (Raise (ValueError "Deadline not found"), clean Scenario.db_gst)
  /\ delete_deadline 1 2 (clean Scenario.db_gst)
     = (Raise (ValueError "Deadline not found"), clean Scenario.db_gst).
Proof.
  assert (Hnot : forall d, d ∈ deadlines Scenario.db_gst -> Deadline.id d = 1 ->
                           Deadline.user_id d <> 2).
  { intros d Hin _. apply elem_of_cons in Hin as [-> | Hin]; [simpl; lia | inversion Hin]. }
  pose proof (deadline_of_another_user_is_not_found Scenario.env Scenario.now 1 2
                Scenario.move_due_date Scenario.db_gst Hnot) as H.
  split; [exact Hnot | exact H].
Defined.

(** X9: completing a deadline that is not recurring, or whose pattern is
    missing or empty: the call returns the deadline marked completed at
    [now]; the table holds it in place of the open one, no deadline is
    added, and the notifications are as they were. *)
Theorem complete_without_recurrence
    (now : datetime) (deadline_id user_id : Z) (db : DB) (d : Deadline.t) :
  find (fun x => (Deadline.id x =? deadline_id) && (Deadline.user_id x =? user_id))
    (deadlines db) = Some d ->
  Deadline.is_recurring d && pattern_truthy (Deadline.recurrence_pattern d) = false ->
  mark_deadline_completed now deadline_id user_id (clean db)
  = (Ok (completed now d),
     clean (mkDB (users db)
              (update_rows Deadline.id deadline_id (completed now) (deadlines db))
              (notifications db))).
Proof.
  intros Hfind Hnot.
  destruct (find_deadline_key _ _ _ _ Hfind) as (Hkey & _ & _).
  unfold mark_deadline_completed.
  rewrite run_try_except, run_bind, run_Deadline_query_first.
  change (working (clean db)) with db. rewrite Hfind. cbn beta iota.
  rewrite (mark_completed_prefix now deadline_id d db _ Hkey).
  change (Deadline.is_recurring (completed now d)) with (Deadline.is_recurring d).
  change (Deadline.recurrence_pattern (completed now d)) with (Deadline.recurrence_pattern d).
  rewrite Hnot. reflexivity.
Qed.

Lemma complete_without_recurrence_witness :
  let d := Deadline.set_is_recurring false Scenario.gst_deadline in
  let db := mkDB [Scenario.asha] [d] [] in
  find (fun x => (Deadline.id x =? 1) && (Deadline.user_id x =? 1)) (deadlines db) = Some d
  /\ (Deadline.is_recurring d && pattern_truthy (Deadline.recurrence_pattern d)) = false
  /\ mark_deadline_completed Scenario.now 1 1 (clean db)
     = (Ok (completed Scenario.now d),
        clean (mkDB (users db)
                 (update_rows Deadline.id 1 (completed Scenario.now) (deadlines db))
                 (notifications db))).
Proof.
  intros d db.
  assert (Hfind : find (fun x => (Deadline.id x =? 1) && (Deadline.user_id x =? 1))
                    (deadlines db) = Some d) by reflexivity.
  assert (Hnot : Deadline.is_recurring d && pattern_truthy (Deadline.recurrence_pattern d)
                 = false) by reflexivity.
  pose proof (complete_without_recurrence Scenario.now 1 1 db d Hfind Hnot) as H.
  split; [exact Hfind |]. split; [exact Hnot | exact H].
Defined.

(** X10: deleting a deadline of the user that no notification refers
    to.  The delete breaks no reference, so it is the same with and
    without enforcement of the foreign key of [notifications]:
    [delete_deadline] answers [True] and commits; the deadline table
    loses the rows with the key and keeps every other row; users and
    notifications are as they were, and the dispatcher selects the same
    rows as before. *)
Theorem delete_unreferenced_deadline
    (deadline_id user_id : Z) (db : DB) (d : Deadline.t) (now : datetime) :
  find (fun x => (Deadline.id x =? deadline_id) && (Deadline.user_id x =? user_id))
    (deadlines db) = Some d ->
  (forall n, n ∈ notifications db -> Notification.deadline_id n <> Some deadline_id) ->
  let '(r, s') := delete_deadline deadline_id user_id (clean db) in
  r = Ok true
  /\ working s' = committed s'
  /\ (forall x, x ∈ deadlines (committed s') <->
                x ∈ deadlines db /\ Deadline.id x <> deadline_id)
  /\ (forall n, n ∈ notifications (committed s') ->
                Notification.deadline_id n <> Some deadline_id)
  /\ users (committed s') = users db
  /\ notifications (committed s') = notifications db
  /\ pending_rows now (committed s') = pending_rows now db.
Proof.
  intros Hfind Hfree. destruct (find_deadline_key _ _ _ _ Hfind) as (Hkey & _ & _).
  unfold delete_deadline.
  rewrite run_try_except, run_bind, run_Deadline_query_first.
  change (working (clean db)) with db. rewrite Hfind. simpl.
  split; [reflexivity |]. split; [reflexivity |]. split.
  - intros x. split.
    + intros H. apply list_elem_of_filter in H as [Hx Hin].
      split; [exact Hin | rewrite <- Hkey; exact Hx].
    + intros [Hx Hne]. apply list_elem_of_filter. split; [rewrite Hkey; exact Hne | exact Hx].
  - split; [exact Hfree |]. repeat split; reflexivity.
Qed.

Lemma delete_unreferenced_deadline_witness :
  let renewal :=
    Deadline.mk 2 1 None "Licence renewal" None RENEWAL (mkdt 2025 6 30 0 0 0 0) false
      None [7; 3; 1] false None Scenario.now Scenario.now in
  let db := mkDB [Scenario.asha] [Scenario.gst_deadline; renewal]
              [Scenario.sent_row; Scenario.due_row] in
  let sweep_time := mkdt 2025 3 13 6 15 0 0 in
  find (fun x => (Deadline.id x =? 2) && (Deadline.user_id x =? 1)) (deadlines db)
  = Some renewal
  /\ (forall n, n ∈ notifications db -> Notification.deadline_id n <> Some 2)
  /\ let '(r, s') := delete_deadline 2 1 (clean db) in
     r = Ok true
     /\ working s' = committed s'
     /\ (forall x, x ∈ deadlines (committed s') <->
                   x ∈ deadlines db /\ Deadline.id x <> 2)
     /\ (forall n, n ∈ notifications (committed s') ->
                   Notification.deadline_id n <> Some 2)
     /\ users (committed s') = users db
     /\ notifications (committed s') = notifications db
     /\ pending_rows sweep_time (committed s') = pending_rows sweep_time db.
Proof.
  intros renewal db sweep_time.
  assert (Hfind : find (fun x => (Deadline.id x =? 2) && (Deadline.user_id x =? 1))
                    (deadlines db) = Some renewal) by reflexivity.
  assert (Hfree : forall n, n ∈ notifications db -> Notification.deadline_id n <> Some 2).
  { intros n Hn.
    apply elem_of_cons in Hn as [-> | Hn]; [discriminate |].
    apply elem_of_cons in Hn as [-> | Hn]; [discriminate | inversion Hn]. }
  pose proof (delete_unreferenced_deadline 2 1 db renewal sweep_time Hfind Hfree) as H.
  split; [exact Hfind |]. split; [exact Hfree | exact H].
Defined.

(** One step of a computation that starts with a lifted pure result. *)
Ltac lift_step H :=
  rewrite run_bind; unfold lift at 1; rewrite H; cbn [item]; cbn beta iota.

(** X11: [create_deadline] checks the request before it writes: a
    missing [due_date], a due date that does not parse, a missing
    [title], a missing [deadline_type] and a [deadline_type] that is no
    member of the enumeration each raise (in this order of precedence)
    and leave the session as it was. *)
Theorem create_deadline_rejects_before_writing
    (env : Env) (now : datetime) (user_id : Z) (deadline_data : Payload) (db : DB) :
  (p_due_date deadline_data = None ->
   create_deadline env now user_id deadline_data (clean db)
   = (Raise (KeyError "due_date"), clean db))
  /\ (forall raw e,
        p_due_date deadline_data = Some raw -> parse_due_date env raw = Raise e ->
        create_deadline env now user_id deadline_data (clean db) = (Raise e, clean db))
  /\ (forall raw due_date,
        p_due_date deadline_data = Some raw -> parse_due_date env raw = Ok due_date ->
        (p_title deadline_data = None ->
         create_deadline env now user_id deadline_data (clean db)
         = (Raise (KeyError "title"), clean db))
        /\ (forall title,
              p_title deadline_data = Some title ->
              (p_deadline_type deadline_data = None ->
               create_deadline env now user_id deadline_data (clean db)
               = (Raise (KeyError "deadline_type"), clean db))
              /\ (forall v e,
                    p_deadline_type deadline_data = Some v ->
                    DeadlineType_of_value v = Raise e ->
                    create_deadline env now user_id deadline_data (clean db)
                    = (Raise e, clean db)))).
Proof.
  unfold create_deadline. split; [| split].
  - intros H. rewrite run_try_except. lift_step H. reflexivity.
  - intros raw e Hdue Hparse. rewrite run_try_except.
    lift_step Hdue. lift_step Hparse. reflexivity.
  - intros raw due_date Hdue Hparse. split.
    + intros Htitle. rewrite run_try_except.
      lift_step Hdue. lift_step Hparse. lift_step Htitle. reflexivity.
    + intros title Htitle. split.
      * intros Htype. rewrite run_try_except.
        lift_step Hdue. lift_step Hparse. lift_step Htitle. lift_step Htype. reflexivity.
      * intros v e Hv Htype. rewrite run_try_except.
        lift_step Hdue. lift_step Hparse. lift_step Htitle. lift_step Hv.
        lift_step Htype. reflexivity.
Qed.

(** An edit without [due_date] touches the deadline table only. *)
Lemma both_update_deadline_without_due_date (Q : DB -> Prop) env now deadline_id user_id
    update_data :
  (forall db ds, Q db -> Q (mkDB (users db) ds (notifications db))) ->
  p_due_date update_data = None ->
  preserves (both Q) (update_deadline env now deadline_id user_id update_data).
Proof.
  intros HQ Hdue. unfold update_deadline. rewrite Hdue.
  apply preserves_try_except; [| intros e; apply both_handler].
  apply preserves_bind; [apply both_Deadline_query_first | intros [deadline|]];
    [| apply preserves_raise].
  repeat (apply preserves_bind;
          [first [apply both_set_if_present; exact HQ
                 | apply both_setattr; exact HQ
                 | apply both_commit
                 | apply preserves_ret
                 | apply preserves_when]
          | intros ?]);
    apply preserves_ret.
Qed.

(** X12: an edit whose request has no [due_date] never schedules
    anything: however the call ends, and also when the request changes
    [reminder_days], the notifications and the users are exactly as they
    were before. *)
Theorem update_without_due_date_schedules_nothing
    (env : Env) (now : datetime) (deadline_id user_id : Z) (update_data : Payload) (db : DB) :
  p_due_date update_data = None ->
  let s' := (update_deadline env now deadline_id user_id update_data (clean db)).2 in
  notifications (committed s') = notifications db
  /\ notifications (working s') = notifications db
  /\ users (committed s') = users db.
Proof.
  intros Hdue. simpl.
  pose (Q := fun db' : DB => notifications db' = notifications db /\ users db' = users db).
  assert (H : both Q (update_deadline env now deadline_id user_id update_data (clean db)).2).
  { apply both_update_deadline_without_due_date; [| exact Hdue |].
    - intros db' ds Hq. exact Hq.
    - apply both_clean. split; reflexivity. }
  destruct H as [[Hw _] [Hc Hu]]. repeat split; assumption.
Qed.

Lemma update_without_due_date_schedules_nothing_witness :
  let change_reminders :=
    mkPayload None None None None None None None (Some [14; 2]) in
  p_due_date change_reminders = None
  /\ let s' := (update_deadline Scenario.env Scenario.now 1 1 change_reminders
                  Scenario.after_create).2 in
     notifications (committed s') = notifications (committed Scenario.after_create)
     /\ notifications (working s') = notifications (committed Scenario.after_create)
     /\ users (committed s') = users (committed Scenario.after_create).
Proof.
  intros change_reminders.
  assert (Hdue : p_due_date change_reminders = None) by reflexivity.
  pose proof (update_without_due_date_schedules_nothing Scenario.env Scenario.now 1 1
                change_reminders (committed Scenario.after_create) Hdue) as H.
  assert (Hclean : clean (committed Scenario.after_create) = Scenario.after_create)
    by (vm_compute; reflexivity).
  rewrite Hclean in H.
  split; [exact Hdue | exact H].
Defined.

(** * Further properties of the GST deadline generator *)

Lemma lex_compare_eq (a b : list Z) : lex_compare a b = Eq -> a = b.
Proof.
  revert b. induction a as [|x a IH]; intros [|y b]; simpl; try discriminate; [reflexivity |].
  destruct (x ?= y) eqn:Hxy; try discriminate.
  intros H. apply Z.compare_eq in Hxy. subst y. f_equal. apply IH, H.
Qed.

Lemma dt_eqb_eq (a b : datetime) : dt_eqb a b = true -> a = b.
Proof.
  unfold dt_eqb, dt_compare. destruct (lex_compare _ _) eqn:H; try discriminate.
  intros _. apply lex_compare_eq in H. destruct a, b. unfold dt_fields in H. simpl in H.
  congruence.
Qed.

(** X13: [_create_gst_deadline] never raises and never touches the
    notifications or the users: a GST deadline is stored without any
    reminder being scheduled for it.  When no stored deadline has the
    user, the type gst_filing and the due date, the row it adds, last and
    under a fresh key, is an open recurring deadline whose recurrence
    pattern is the cadence as given and whose lead times are 7, 3 and 1
    days. *)
Theorem gst_deadline_is_stored_without_reminders
    (now : datetime) (user_id : Z) (business_type : string) (due_date : datetime) (db : DB) :
  let '(r, s') := _create_gst_deadline now user_id business_type due_date (clean db) in
  notifications (committed s') = notifications db
  /\ users (committed s') = users db
  /\ working s' = committed s'
  /\ (exists d, r = Ok d)
  /\ (find (gst_match user_id due_date) (deadlines db) = None ->
      exists d,
        r = Ok d
        /\ deadlines (committed s') = (deadlines db ++ [d])%list
        /\ (Deadline.id d ∉ Deadline.id <$> deadlines db)
        /\ Deadline.is_recurring d = true
        /\ Deadline.recurrence_pattern d = Some business_type
        /\ Deadline.reminder_days d = [7; 3; 1]
        /\ Deadline.is_completed d = false
        /\ Deadline.due_date d = due_date
        /\ Deadline.user_id d = user_id
        /\ Deadline.deadline_type d = GST_FILING).
Proof.
  unfold _create_gst_deadline. rewrite run_try_except, run_bind. simpl.
  destruct (find (gst_match user_id due_date) (deadlines db)) as [existing|] eqn:Hfind; simpl.
  - repeat split; [eexists; reflexivity | discriminate].
  - repeat split; [eexists; reflexivity |].
    intros _. eexists. repeat split. simpl. apply next_id_fresh.
Qed.

(** From a working copy without a matching deadline the generator adds
    one row and commits. *)
Lemma _create_gst_deadline_adds now user_id business_type due_date s :
  find (gst_match user_id due_date) (deadlines (working s)) = None ->
  exists d,
    Deadline.due_date d = due_date
    /\ Deadline.user_id d = user_id
    /\ Deadline.deadline_type d = GST_FILING
    /\ _create_gst_deadline now user_id business_type due_date s
       = (Ok d,
          let db' := mkDB (users (working s)) (deadlines (working s) ++ [d])
                          (notifications (working s)) in
          mkSession db' db' (outbox s)).
Proof.
  intros Hnone. unfold _create_gst_deadline.
  rewrite run_try_except, run_bind. simpl. rewrite Hnone. simpl.
  refine (ex_intro _ _ (conj _ (conj _ (conj _ eq_refl)))); reflexivity.
Qed.

(** X14: two runs of the generator at instants with different times of
    day give two deadlines.  The GST date keeps the time of day of its
    reference instant, so from a table without GST deadlines for the two
    dates, the deadline of the second run is added next to the deadline
    of the first. *)
Theorem gst_generator_duplicates_across_instants
    (now1 now2 r1 r2 : datetime) (user_id : Z) (business_type : string) (deadline_day : Z)
    (db : DB) :
  valid_datetime now1 = true -> valid_datetime now2 = true ->
  time_of_day_us now1 <> time_of_day_us now2 ->
  _calculate_next_gst_deadline now1 business_type deadline_day = Ok r1 ->
  _calculate_next_gst_deadline now2 business_type deadline_day = Ok r2 ->
  find (gst_match user_id r1) (deadlines db) = None ->
  find (gst_match user_id r2) (deadlines db) = None ->
  let s1 := (_create_gst_deadline now1 user_id business_type r1 (clean db)).2 in
  let s2 := (_create_gst_deadline now2 user_id business_type r2 s1).2 in
  Deadline.due_date <$> deadlines (committed s2)
  = ((Deadline.due_date <$> deadlines db) ++ [r1; r2])%list
  /\ r1 <> r2.
Proof.
  intros Hv1 Hv2 Htime Hr1 Hr2 Hnone1 Hnone2.
  assert (Ht1 : at_time_of now1 r1 = r1)
    by (eapply gst_deadline_keeps_time; [apply valid_datetime_split, Hv1 | exact Hr1]).
  assert (Ht2 : at_time_of now2 r2 = r2)
    by (eapply gst_deadline_keeps_time; [apply valid_datetime_split, Hv2 | exact Hr2]).
  assert (Hne : r1 <> r2).
  { intros Heq. subst r2. apply Htime. unfold time_of_day_us.
    rewrite <- Ht1 in Ht2. unfold at_time_of in Ht2. inversion Ht2. congruence. }
  assert (Hdt : dt_eqb r1 r2 = false).
  { destruct (dt_eqb r1 r2) eqn:H; [| reflexivity]. apply dt_eqb_eq in H. contradiction. }
  destruct (_create_gst_deadline_adds now1 user_id business_type r1 (clean db) Hnone1)
    as (d1 & Hdue1 & _ & _ & ->).
  cbn zeta. cbn [snd clean working users deadlines notifications outbox].
  match goal with
  | |- context [_create_gst_deadline now2 _ _ _ ?s] =>
      destruct (_create_gst_deadline_adds now2 user_id business_type r2 s)
        as (d2 & Hdue2 & _ & _ & ->)
  end.
  { cbn [working deadlines]. rewrite (find_app_None _ _ _ Hnone2).
    simpl. unfold gst_match. rewrite Hdue1, Hdt, !andb_false_r. reflexivity. }
  cbn [snd committed working deadlines].
  split; [| exact Hne].
  rewrite !fmap_app. simpl. rewrite Hdue1, Hdue2, <- app_assoc. reflexivity.
Qed.

Lemma gst_generator_duplicates_across_instants_witness :
  let now1 := mkdt 2025 3 25 10 15 0 0 in
  let now2 := mkdt 2025 3 25 16 40 0 0 in
  let r1 := mkdt 2025 4 20 10 15 0 0 in
  let r2 := mkdt 2025 4 20 16 40 0 0 in
  valid_datetime now1 = true /\ valid_datetime now2 = true
  /\ time_of_day_us now1 <> time_of_day_us now2
  /\ _calculate_next_gst_deadline now1 "monthly" 20 = Ok r1
  /\ _calculate_next_gst_deadline now2 "monthly" 20 = Ok r2
  /\ find (gst_match 1 r1) (deadlines Scenario.db0) = None
  /\ find (gst_match 1 r2) (deadlines Scenario.db0) = None
  /\ Deadline.due_date
       <$> deadlines (committed
             (_create_gst_deadline now2 1 "monthly" r2
                (_create_gst_deadline now1 1 "monthly" r1 (clean Scenario.db0)).2).2)
     = ((Deadline.due_date <$> deadlines Scenario.db0) ++ [r1; r2])%list
  /\ r1 <> r2.
Proof.
  intros now1 now2 r1 r2.
  assert (H1 : valid_datetime now1 = true) by (vm_compute; reflexivity).
  assert (H2 : valid_datetime now2 = true) by (vm_compute; reflexivity).
  assert (H3 : time_of_day_us now1 <> time_of_day_us now2) by (vm_compute; discriminate).
  assert (H4 : _calculate_next_gst_deadline now1 "monthly" 20 = Ok r1)
    by (vm_compute; reflexivity).
  assert (H5 : _calculate_next_gst_deadline now2 "monthly" 20 = Ok r2)
    by (vm_compute; reflexivity).
  assert (H6 : find (gst_match 1 r1) (deadlines Scenario.db0) = None)
    by (vm_compute; reflexivity).
  assert (H7 : find (gst_match 1 r2) (deadlines Scenario.db0) = None)
    by (vm_compute; reflexivity).
  pose proof (gst_generator_duplicates_across_instants
                now1 now2 r1 r2 1 "monthly" 20 Scenario.db0 H1 H2 H3 H4 H5 H6 H7) as H.
  split; [exact H1 |]. split; [exact H2 |]. split; [exact H3 |]. split; [exact H4 |].
  split; [exact H5 |]. split; [exact H6 |]. split; [exact H7 |]. exact H.
Defined.

(** * Further properties of the Notification Scheduler *)

Lemma fan_out_on_cons channels now t ts :
  fan_out_on channels now (t :: ts)
  = (fan_out_on channels now [t] ++ fan_out_on channels now ts)%list.
Proof. unfold fan_out_on. simpl. rewrite app_nil_r. reflexivity. Qed.

(** One turn of the loop for any user, from a session without
    uncommitted changes: one committed row per enabled channel when the
    instant is after [now], nothing otherwise. *)
Lemma schedule_reminder_day_run_on now deadline user days_before t s :
  notify_at (Deadline.due_date deadline) days_before = Ok t ->
  committed s = working s ->
  exists created,
    channel_and_instant <$> created = fan_out_on (enabled_channels user) now [t]
    /\ Forall (fresh_reminder deadline) created
    /\ schedule_reminder_day now deadline user (prefs_of user) days_before s
       = (Ok tt,
          let w := mkDB (users (working s)) (deadlines (working s))
                     (notifications (working s) ++ created) in
          mkSession w w (outbox s)).
Proof.
  intros Ht Hclean. destruct s as [c w o]. simpl in Hclean. subst c.
  destruct w as [U D N].
  apply notify_at_inv in Ht as (td & Htd & Hsub).
  unfold schedule_reminder_day, fan_out_on, enabled_channels. simpl.
  rewrite !run_bind. unfold lift. rewrite Htd, Hsub.
  rewrite run_bind. cbn beta iota.
  destruct (dt_leb t now) eqn:Hpast.
  - exists []. split; [reflexivity |]. split; [constructor |].
    simpl. rewrite app_nil_r. reflexivity.
  - destruct (truthy (dict_get (prefs_of user) "email" (JBool true)));
      destruct (truthy (dict_get (prefs_of user) "sms" (JBool false)));
      destruct (truthy (dict_get (prefs_of user) "whatsapp" (JBool false)));
      destruct (truthy (dict_get (prefs_of user) "push" (JBool true)));
      destruct (has_phone user);
      cbv [mbind M_bind bind mret M_ret ret _create_notification try_except
             session_add_notification get_working put_working commit when andb
             working committed outbox users deadlines notifications];
      rewrite <- ?app_assoc; simpl;
      first [ exists []; split; [reflexivity |]; split; [constructor |];
              rewrite app_nil_r; reflexivity
            | eexists; split; [| split]; cycle 2;
              [reflexivity | reflexivity | repeat constructor] ].
Qed.

(** The whole loop for any user and any list of lead times. *)
Lemma schedule_loop_run_on now deadline user days instants s :
  Forall2 (fun days_before t => notify_at (Deadline.due_date deadline) days_before = Ok t)
    days instants ->
  committed s = working s ->
  exists created,
    channel_and_instant <$> created = fan_out_on (enabled_channels user) now instants
    /\ Forall (fresh_reminder deadline) created
    /\ for_each days (schedule_reminder_day now deadline user (prefs_of user)) s
       = (Ok tt,
          let w := mkDB (users (working s)) (deadlines (working s))
                     (notifications (working s) ++ created) in
          mkSession w w (outbox s)).
Proof.
  intros Hdays. revert s.
  induction Hdays as [|days_before t days instants Ht _ IH]; intros s Hclean.
  - exists []. repeat split; [constructor |]. simpl.
    destruct s as [c w o]. simpl in *. subst c. destruct w. rewrite app_nil_r. reflexivity.
  - destruct (schedule_reminder_day_run_on now deadline user days_before t s Ht Hclean)
      as (first & Hfirst & Hfresh & Hrun).
    rewrite for_each_cons, run_bind, Hrun.
    match goal with
    | |- context [for_each _ _ ?s1] =>
        destruct (IH s1 eq_refl) as (created & Hcreated & Hfresh' & Hloop); rewrite Hloop
    end.
    exists (first ++ created)%list. rewrite fmap_app, Hfirst, Hcreated, <- fan_out_on_cons.
    repeat split; [apply Forall_app; split; assumption |].
    simpl. rewrite <- app_assoc. reflexivity.
Qed.

Lemma fan_out_on_channel channels now instants (p : NotificationType * datetime) :
  p ∈ fan_out_on channels now instants -> p.1 ∈ channels /\ dt_leb p.2 now = false.
Proof.
  unfold fan_out_on. rewrite list_elem_of_In, in_flat_map.
  intros (t & _ & Hp). destruct (dt_leb t now) eqn:Hpast; [destruct Hp |].
  apply list_elem_of_In, list_elem_of_fmap in Hp as (c & -> & Hc).
  split; [exact Hc | exact Hpast].
Qed.

(** X15: the reminders follow the preferences of the owner.  For any
    owner and any list of lead times whose instants exist, the scheduler
    answers without raising and appends, for each instant after [now]
    and in the order of the lead times, one fresh unsent row per enabled
    channel (e-mail and push unless switched off, SMS and WhatsApp only
    when switched on and a phone number is on file), and nothing for the
    other instants.  Without a phone number no SMS or WhatsApp row is
    created whatever the preferences say, and an owner without stored
    preferences gets e-mail and push. *)
Theorem reminders_follow_preferences
    (now : datetime) (deadline : Deadline.t) (user : User.t) (db : DB)
    (instants : list datetime) :
  find (fun u => User.id u =? Deadline.user_id deadline) (users db) = Some user ->
  Forall2 (fun days_before t => notify_at (Deadline.due_date deadline) days_before = Ok t)
    (Deadline.reminder_days deadline) instants ->
  let '(r, s') := schedule_deadline_notifications now deadline (clean db) in
  r = Ok tt
  /\ users (committed s') = users db
  /\ deadlines (committed s') = deadlines db
  /\ exists created,
       notifications (committed s') = (notifications db ++ created)%list
       /\ channel_and_instant <$> created
          = fan_out_on (enabled_channels user) now instants
       /\ Forall (fresh_reminder deadline) created
       /\ (has_phone user = false ->
           forall n, n ∈ created ->
             Notification.notification_type n = EMAIL
             \/ Notification.notification_type n = PUSH)
       /\ (User.notification_preferences user = None ->
           channel_and_instant <$> created = fan_out_on [EMAIL; PUSH] now instants)
       /\ (forall n, n ∈ created -> dt_leb (Notification.scheduled_for n) now = false).
Proof.
  intros Huser Hdays.
  destruct (schedule_loop_run_on now deadline user _ instants (clean db) Hdays eq_refl)
    as (created & Hcreated & Hfresh & Hrun).
  unfold schedule_deadline_notifications.
  rewrite run_try_except, run_bind, run_User_query_get.
  change (working (clean db)) with db. rewrite Huser. cbn beta iota.
  rewrite Hrun.
  split; [reflexivity |]. split; [reflexivity |]. split; [reflexivity |].
  exists created. simpl.
  assert (Hin : forall n, n ∈ created ->
                  channel_and_instant n ∈ fan_out_on (enabled_channels user) now instants).
  { intros n Hn. rewrite <- Hcreated. apply list_elem_of_fmap_2. exact Hn. }
  repeat split; try assumption.
  - intros Hphone n Hn. apply Hin, fan_out_on_channel in Hn as [Hn _].
    unfold enabled_channels in Hn. rewrite Hphone, !andb_false_r in Hn. simpl in Hn.
    destruct (truthy (dict_get (prefs_of user) "email" (JBool true)));
      destruct (truthy (dict_get (prefs_of user) "push" (JBool true)));
      simpl in Hn;
      repeat (apply elem_of_cons in Hn as [Hn | Hn]; [auto |]);
      inversion Hn.
  - intros Hprefs. rewrite Hcreated. unfold enabled_channels, prefs_of.
    rewrite Hprefs. reflexivity.
  - intros n Hn. apply Hin, fan_out_on_channel in Hn as [_ Hn]. exact Hn.
Qed.

Lemma reminders_follow_preferences_witness :
  let ravi :=
    User.mk 2 "ravi@example.org" None "Asia/Kolkata"
      (Some (<["sms" := JBool true]> (<["push" := JBool false]> ∅))) in
  let deadline :=
    Deadline.mk 1 2 None "Licence renewal" None RENEWAL (mkdt 2025 3 20 0 0 0 0) false
      None [30; 7; 1] false None Scenario.now Scenario.now in
  let db := mkDB [ravi] [deadline] [] in
  let instants := [mkdt 2025 2 18 0 0 0 0; mkdt 2025 3 13 0 0 0 0; mkdt 2025 3 19 0 0 0 0] in
  find (fun u => User.id u =? Deadline.user_id deadline) (users db) = Some ravi
  /\ Forall2 (fun days_before t => notify_at (Deadline.due_date deadline) days_before = Ok t)
       (Deadline.reminder_days deadline) instants
  /\ (schedule_deadline_notifications Scenario.now deadline (clean db)).1 = Ok tt
  /\ channel_and_instant
       <$> notifications
             (committed (schedule_deadline_notifications Scenario.now deadline (clean db)).2)
     = [(EMAIL, mkdt 2025 3 13 0 0 0 0); (EMAIL, mkdt 2025 3 19 0 0 0 0)].
Proof.
  intros ravi deadline db instants.
  assert (H1 : find (fun u => User.id u =? Deadline.user_id deadline) (users db) = Some ravi)
    by (vm_compute; reflexivity).
  assert (H2 : Forall2 (fun days_before t =>
                          notify_at (Deadline.due_date deadline) days_before = Ok t)
                 (Deadline.reminder_days deadline) instants)
    by (repeat constructor).
  pose proof (reminders_follow_preferences Scenario.now deadline ravi db instants H1 H2) as H.
  split; [exact H1 |]. split; [exact H2 |].
  destruct (schedule_deadline_notifications Scenario.now deadline (clean db)) as [r s'].
  destruct H as (Hr & _ & _ & created & Hn & Hc & _).
  split; [exact Hr |].
  cbn [snd]. rewrite Hn. cbn [notifications db app]. rewrite Hc.
  vm_compute. reflexivity.
Defined.

Lemma reminders_computable_instants due_date days :
  reminders_computable due_date days = true ->
  exists instants,
    Forall2 (fun days_before t => notify_at due_date days_before = Ok t) days instants.
Proof.
  unfold reminders_computable. induction days as [|days_before days IH]; simpl.
  - intros _. exists []. constructor.
  - intros H. apply andb_true_iff in H as [Hfirst Hrest].
    destruct (IH Hrest) as (instants & Hinstants).
    destruct (notify_at due_date days_before) as [t|e] eqn:Ht; [| discriminate].
    exists (t :: instants). constructor; assumption.
Qed.

(** The scheduler from a session without uncommitted changes, when the
    instants of the lead times exist. *)
Lemma schedule_deadline_notifications_run now deadline s :
  reminders_computable (Deadline.due_date deadline) (Deadline.reminder_days deadline) = true ->
  committed s = working s ->
  exists created,
    schedule_deadline_notifications now deadline s
    = (Ok tt,
       let w := mkDB (users (working s)) (deadlines (working s))
                  (notifications (working s) ++ created) in
       mkSession w w (outbox s))
    /\ Forall (fresh_reminder deadline) created
    /\ (forall n, n ∈ created -> dt_leb (Notification.scheduled_for n) now = false)
    /\ (no_such_user (Deadline.user_id deadline) (working s) -> created = []).
Proof.
  intros Hdays Hclean.
  apply reminders_computable_instants in Hdays as (instants & Hinstants).
  unfold schedule_deadline_notifications, no_such_user.
  rewrite run_try_except, run_bind, run_User_query_get.
  destruct (find _ (users (working s))) as [user|] eqn:Huser; cbn beta iota.
  - destruct (schedule_loop_run_on now deadline user _ instants s Hinstants Hclean)
      as (created & Hcreated & Hfresh & Hrun).
    exists created. rewrite Hrun. repeat split; [assumption | | discriminate].
    intros n Hn.
    apply (fan_out_on_channel (enabled_channels user) now instants (channel_and_instant n)).
    rewrite <- Hcreated. apply list_elem_of_fmap_2. exact Hn.
  - exists []. repeat split; [| constructor | intros n Hn; inversion Hn].
    destruct s as [c w o]. simpl in *. subst c. destruct w. simpl.
    rewrite app_nil_r. reflexivity.
Qed.

(** * Creation of a deadline *)

(** The scheduler for a deadline whose owner is stored, from a session
    without uncommitted changes. *)
Lemma schedule_deadline_notifications_found now deadline user instants s :
  find (fun u => User.id u =? Deadline.user_id deadline) (users (working s)) = Some user ->
  Forall2 (fun days_before t => notify_at (Deadline.due_date deadline) days_before = Ok t)
    (Deadline.reminder_days deadline) instants ->
  committed s = working s ->
  exists created,
    schedule_deadline_notifications now deadline s
    = (Ok tt,
       let w := mkDB (users (working s)) (deadlines (working s))
                  (notifications (working s) ++ created) in
       mkSession w w (outbox s))
    /\ channel_and_instant <$> created
       = fan_out_on (enabled_channels user) now instants
    /\ Forall (fresh_reminder deadline) created.
Proof.
  intros Huser Hinstants Hclean.
  destruct (schedule_loop_run_on now deadline user _ instants s Hinstants Hclean)
    as (created & Hcreated & Hfresh & Hrun).
  exists created. split; [| split; assumption].
  unfold schedule_deadline_notifications.
  rewrite run_try_except, run_bind, run_User_query_get, Huser. cbn beta iota.
  rewrite Hrun. reflexivity.
Qed.

(** X16: a request of a stored user that carries [due_date], [title]
    and a [deadline_type] of the enumeration, names no document, and
    whose lead times (7, 3 and 1 days when the request gives none) all
    have an instant, is stored and scheduled: [create_deadline] returns
    the new deadline, open, under a fresh key, with the absent optional
    fields at their defaults; the deadline table grows by that row, and
    the notification table grows by the reminders of that deadline: for
    each instant after [now], in the order of the lead times, one fresh
    unsent row per enabled channel of the user, and no other row. *)
Theorem create_deadline_stores_and_schedules
    (env : Env) (now : datetime) (user_id : Z) (deadline_data : Payload) (db : DB)
    (user : User.t) (raw : DueDate) (due_date : datetime) (title type_value : string)
    (deadline_type : DeadlineType) (instants : list datetime) :
  find (fun u => User.id u =? user_id) (users db) = Some user ->
  p_due_date deadline_data = Some raw ->
  parse_due_date env raw = Ok due_date ->
  p_title deadline_data = Some title ->
  p_deadline_type deadline_data = Some type_value ->
  DeadlineType_of_value type_value = Ok deadline_type ->
  default None (p_document_id deadline_data) = None ->
  Forall2 (fun days_before t => notify_at due_date days_before = Ok t)
    (default [7; 3; 1] (p_reminder_days deadline_data)) instants ->
  let d :=
    Deadline.mk (next_id (Deadline.id <$> deadlines db)) user_id None title
      (default None (p_description deadline_data)) deadline_type due_date
      (default false (p_is_recurring deadline_data))
      (default None (p_recurrence_pattern deadline_data))
      (default [7; 3; 1] (p_reminder_days deadline_data))
      false None now now in
  let '(r, s') := create_deadline env now user_id deadline_data (clean db) in
  r = Ok d
  /\ (Deadline.id d ∉ Deadline.id <$> deadlines db)
  /\ working s' = committed s'
  /\ exists created,
       committed s'
       = mkDB (users db) (deadlines db ++ [d]) (notifications db ++ created)
       /\ channel_and_instant <$> created
          = fan_out_on (enabled_channels user) now instants
       /\ Forall (fresh_reminder d) created
       /\ (forall n, n ∈ created -> dt_leb (Notification.scheduled_for n) now = false).
Proof.
  intros Huser Hdue Hparse Htitle Htype Hvalue Hdoc Hinstants d.
  unfold create_deadline. rewrite run_try_except.
  lift_step Hdue. lift_step Hparse. lift_step Htitle. lift_step Htype. lift_step Hvalue.
  rewrite Hdoc. rewrite run_bind.
  change (session_add_deadline ?x (clean db))
    with (Ok d, mkSession db (mkDB (users db) (deadlines db ++ [d]) (notifications db)) []).
  cbn beta iota. rewrite run_bind.
  change (commit ?s)
    with (Ok tt, clean (mkDB (users db) (deadlines db ++ [d]) (notifications db))).
  cbn beta iota. rewrite run_bind.
  destruct (schedule_deadline_notifications_found now d user instants
              (clean (mkDB (users db) (deadlines db ++ [d]) (notifications db))))
    as (created & Hrun & Hcreated & Hfresh); [exact Huser | exact Hinstants | reflexivity |].
  rewrite Hrun. cbn.
  split; [reflexivity |]. split; [apply next_id_fresh |]. split; [reflexivity |].
  exists created. split; [reflexivity |]. split; [exact Hcreated |].
  split; [exact Hfresh |].
  intros n Hn.
  apply (fan_out_on_channel (enabled_channels user) now instants (channel_and_instant n)).
  rewrite <- Hcreated. apply list_elem_of_fmap_2. exact Hn.
Qed.

Lemma create_deadline_stores_and_schedules_witness :
  let request :=
    mkPayload (Some (DueDatetime (mkdt 2025 3 20 0 0 0 0))) None (Some "Licence renewal")
      None (Some "renewal") None None None in
  let d :=
    Deadline.mk 1 1 None "Licence renewal" None RENEWAL (mkdt 2025 3 20 0 0 0 0) false
      None [7; 3; 1] false None Scenario.now Scenario.now in
  let instants :=
    [mkdt 2025 3 13 0 0 0 0; mkdt 2025 3 17 0 0 0 0; mkdt 2025 3 19 0 0 0 0] in
  let s' := (create_deadline Scenario.env Scenario.now 1 request (clean Scenario.db0)).2 in
  find (fun u => User.id u =? 1) (users Scenario.db0) = Some Scenario.asha
  /\ Forall2 (fun days_before t => notify_at (mkdt 2025 3 20 0 0 0 0) days_before = Ok t)
       [7; 3; 1] instants
  /\ (create_deadline Scenario.env Scenario.now 1 request (clean Scenario.db0)).1 = Ok d
  /\ deadlines (committed s') = [d]
  /\ channel_and_instant <$> notifications (committed s')
     = fan_out_on [EMAIL; SMS; WHATSAPP; PUSH] Scenario.now instants
  /\ length (notifications (committed s')) = 12%nat.
Proof.
  intros request d instants s'. subst s'.
  assert (H1 : find (fun u => User.id u =? 1) (users Scenario.db0) = Some Scenario.asha)
    by (vm_compute; reflexivity).
  assert (H2 : Forall2 (fun days_before t =>
                          notify_at (mkdt 2025 3 20 0 0 0 0) days_before = Ok t)
                 [7; 3; 1] instants) by (repeat constructor).
  pose proof (create_deadline_stores_and_schedules Scenario.env Scenario.now 1 request
                Scenario.db0 Scenario.asha (DueDatetime (mkdt 2025 3 20 0 0 0 0))
                (mkdt 2025 3 20 0 0 0 0) "Licence renewal" "renewal" RENEWAL instants
                H1 eq_refl eq_refl eq_refl eq_refl eq_refl eq_refl H2) as H.
  split; [exact H1 |]. split; [exact H2 |].
  cbv zeta in H.
  destruct (create_deadline Scenario.env Scenario.now 1 request (clean Scenario.db0))
    as [r s'].
  destruct H as (Hr & _ & _ & created & Hc & Hchannels & _).
  cbn [fst snd]. rewrite Hc. cbn [deadlines notifications Scenario.db0 app].
  split; [exact Hr |]. split; [reflexivity |].
  split; [exact Hchannels |].
  apply (f_equal length) in Hchannels. rewrite length_fmap in Hchannels.
  exact Hchannels.
Defined.

(** * The queries of the Deadline Lifecycle Manager *)

Lemma lex_compare_le_trans (a b c : list Z) :
  lex_compare a b <> Gt -> lex_compare b c <> Gt -> lex_compare a c <> Gt.
Proof.
  revert b c. induction a as [|x a IH]; intros [|y b] [|z c]; simpl; try congruence.
  destruct (Z.compare_spec x y), (Z.compare_spec y z), (Z.compare_spec x z);
    try congruence; try lia.
  apply IH.
Qed.

Lemma dt_leb_trans (a b c : datetime) :
  dt_leb a b = true -> dt_leb b c = true -> dt_leb a c = true.
Proof.
  unfold dt_leb, dt_compare. intros Hab Hbc.
  pose proof (lex_compare_le_trans (dt_fields a) (dt_fields b) (dt_fields c)) as H.
  destruct (lex_compare (dt_fields a) (dt_fields b)); try discriminate;
    destruct (lex_compare (dt_fields b) (dt_fields c)); try discriminate;
    destruct (lex_compare (dt_fields a) (dt_fields c)); try reflexivity;
    exfalso; apply H; congruence.
Qed.

Lemma dt_leb_total (a b : datetime) : dt_leb a b = false -> dt_leb b a = true.
Proof.
  intros H. apply dt_ltb_le. rewrite dt_ltb_leb, H. reflexivity.
Qed.

Lemma elem_of_insert_by_due_date (d x : Deadline.t) (l : list Deadline.t) :
  x ∈ insert_by_due_date d l <-> x = d \/ x ∈ l.
Proof.
  induction l as [|y l IH]; simpl.
  - rewrite elem_of_cons. reflexivity.
  - destruct (dt_leb (Deadline.due_date d) (Deadline.due_date y)).
    + rewrite elem_of_cons. reflexivity.
    + rewrite !elem_of_cons, IH. tauto.
Qed.

Lemma elem_of_order_by_due_date (x : Deadline.t) (l : list Deadline.t) :
  x ∈ order_by_due_date l <-> x ∈ l.
Proof.
  unfold order_by_due_date. induction l as [|y l IH]; simpl; [reflexivity |].
  rewrite elem_of_insert_by_due_date, IH, elem_of_cons. reflexivity.
Qed.

Lemma insert_by_due_date_sorted (d : Deadline.t) (l : list Deadline.t) :
  sorted_by_due_date l -> sorted_by_due_date (insert_by_due_date d l).
Proof.
  induction l as [|y l IH]; simpl.
  - intros _. split; [constructor | exact I].
  - intros [Hy Hl].
    destruct (dt_leb (Deadline.due_date d) (Deadline.due_date y)) eqn:Hdy; simpl.
    + split; [| split; assumption].
      constructor; [exact Hdy |].
      eapply Forall_impl; [exact Hy |]. intros z Hz. simpl in Hz.
      eapply dt_leb_trans; eassumption.
    + split; [| apply IH, Hl].
      apply Forall_forall. intros z Hz.
      apply elem_of_insert_by_due_date in Hz as [-> | Hz].
      * apply dt_leb_total, Hdy.
      * rewrite Forall_forall in Hy. apply Hy, Hz.
Qed.

Lemma order_by_due_date_sorted (l : list Deadline.t) :
  sorted_by_due_date (order_by_due_date l).
Proof.
  unfold order_by_due_date. induction l as [|y l IH]; simpl; [exact I |].
  apply insert_by_due_date_sorted, IH.
Qed.

Lemma dt_ltb_irrefl (a : datetime) : dt_ltb a a = false.
Proof. unfold dt_ltb, dt_compare. rewrite lex_compare_refl. reflexivity. Qed.

Lemma dt_ltb_asym (a b : datetime) : dt_ltb a b = true -> dt_ltb b a = false.
Proof.
  intros H. rewrite dt_ltb_leb. apply dt_ltb_le in H. rewrite H. reflexivity.
Qed.

(** X17: the two lists of open deadlines of a user.  When the end of
    the look-ahead window exists, [get_upcoming_deadlines] and
    [get_overdue_deadlines] answer without changing the session; each
    answer is in ascending order of the due date; the upcoming ones are
    the open deadlines of the user due after [now] and not after the
    end of the window, the overdue ones those due before [now]; no
    deadline is in both, and a deadline due exactly at [now] is in
    neither. *)
Theorem upcoming_and_overdue_deadlines
    (now : datetime) (user_id days_ahead : Z) (s : Session)
    (td : timedelta) (end_date : datetime) :
  timedelta_new days_ahead 0 0 0 = Ok td ->
  dt_add now td = Ok end_date ->
  exists upcoming overdue,
    get_upcoming_deadlines now user_id days_ahead s = (Ok upcoming, s)
    /\ get_overdue_deadlines now user_id s = (Ok overdue, s)
    /\ sorted_by_due_date upcoming
    /\ sorted_by_due_date overdue
    /\ (forall d, d ∈ upcoming <->
          d ∈ deadlines (working s)
          /\ Deadline.user_id d = user_id
          /\ Deadline.is_completed d = false
          /\ dt_ltb now (Deadline.due_date d) = true
          /\ dt_leb (Deadline.due_date d) end_date = true)
    /\ (forall d, d ∈ overdue <->
          d ∈ deadlines (working s)
          /\ Deadline.user_id d = user_id
          /\ Deadline.is_completed d = false
          /\ dt_ltb (Deadline.due_date d) now = true)
    /\ (forall d, d ∈ upcoming -> d ∉ overdue)
    /\ (forall d, Deadline.due_date d = now -> (d ∉ upcoming) /\ (d ∉ overdue)).
Proof.
  intros Htd Hend.
  assert (Hup : forall d,
            d ∈ order_by_due_date
                  (List.filter (upcoming_filter now end_date user_id) (deadlines (working s)))
            <-> d ∈ deadlines (working s)
                /\ Deadline.user_id d = user_id
                /\ Deadline.is_completed d = false
                /\ dt_ltb now (Deadline.due_date d) = true
                /\ dt_leb (Deadline.due_date d) end_date = true).
  { intros d. rewrite elem_of_order_by_due_date, list_elem_of_In, filter_In,
      <- list_elem_of_In.
    unfold upcoming_filter. rewrite !andb_true_iff, negb_true_iff, Z.eqb_eq. tauto. }
  assert (Hov : forall d,
            d ∈ order_by_due_date
                  (List.filter (overdue_filter now user_id) (deadlines (working s)))
            <-> d ∈ deadlines (working s)
                /\ Deadline.user_id d = user_id
                /\ Deadline.is_completed d = false
                /\ dt_ltb (Deadline.due_date d) now = true).
  { intros d. rewrite elem_of_order_by_due_date, list_elem_of_In, filter_In,
      <- list_elem_of_In.
    unfold overdue_filter. rewrite !andb_true_iff, negb_true_iff, Z.eqb_eq. tauto. }
  eexists. eexists.
  split.
  { unfold get_upcoming_deadlines. rewrite run_try_except.
    lift_step Htd. lift_step Hend. reflexivity. }
  split; [reflexivity |].
  split; [apply order_by_due_date_sorted |].
  split; [apply order_by_due_date_sorted |].
  split; [exact Hup |]. split; [exact Hov |]. split.
  - intros d Hd Hd'. apply Hup in Hd as (_ & _ & _ & Hlater & _).
    apply Hov in Hd' as (_ & _ & _ & Hearlier).
    apply dt_ltb_asym in Hlater. congruence.
  - intros d Hdue. split.
    + intros Hd. apply Hup in Hd as (_ & _ & _ & Hlater & _).
      rewrite Hdue, dt_ltb_irrefl in Hlater. discriminate.
    + intros Hd. apply Hov in Hd as (_ & _ & _ & Hearlier).
      rewrite Hdue, dt_ltb_irrefl in Hearlier. discriminate.
Qed.

Lemma upcoming_and_overdue_deadlines_witness :
  let open due_date key :=
    Deadline.mk key 1 None "Filing" None CUSTOM due_date false None [7; 3; 1]
      false None Scenario.now Scenario.now in
  let d1 := open (mkdt 2025 3 20 0 0 0 0) 1 in
  let d2 := open (mkdt 2025 3 5 0 0 0 0) 2 in
  let d3 := open (mkdt 2025 2 1 0 0 0 0) 3 in
  let d4 := open Scenario.now 4 in
  let d5 := open (mkdt 2025 6 1 0 0 0 0) 5 in
  let s := clean (mkDB [Scenario.asha] [d1; d2; d3; d4; d5] []) in
  timedelta_new 30 0 0 0 = Ok (mktd (30 * US_PER_DAY))
  /\ dt_add Scenario.now (mktd (30 * US_PER_DAY)) = Ok (mkdt 2025 3 31 12 0 0 0)
  /\ get_upcoming_deadlines Scenario.now 1 30 s = (Ok [d2; d1], s)
  /\ get_overdue_deadlines Scenario.now 1 s = (Ok [d3], s)
  /\ sorted_by_due_date [d2; d1]
  /\ (d4 ∉ [d2; d1]) /\ (d4 ∉ [d3]).
Proof.
  intros open d1 d2 d3 d4 d5 s.
  assert (H1 : timedelta_new 30 0 0 0 = Ok (mktd (30 * US_PER_DAY)))
    by (vm_compute; reflexivity).
  assert (H2 : dt_add Scenario.now (mktd (30 * US_PER_DAY)) = Ok (mkdt 2025 3 31 12 0 0 0))
    by (vm_compute; reflexivity).
  pose proof (upcoming_and_overdue_deadlines Scenario.now 1 30 s _ _ H1 H2) as H.
  destruct H as (upcoming & overdue & Hup & Hov & Hsorted & _ & _ & _ & _ & Hnow).
  assert (Eup : upcoming = [d2; d1])
    by (vm_compute in Hup; injection Hup as <-; reflexivity).
  assert (Eov : overdue = [d3])
    by (vm_compute in Hov; injection Hov as <-; reflexivity).
  subst upcoming overdue.
  split; [exact H1 |]. split; [exact H2 |]. split; [exact Hup |]. split; [exact Hov |].
  split; [exact Hsorted |]. exact (Hnow d4 eq_refl).
Defined.

(** * The retention task *)

Lemma filter_filter {A} (f g : A -> bool) (l : list A) :
  List.filter g (List.filter f l) = List.filter (fun x => f x && g x) l.
Proof.
  induction l as [|x l IH]; simpl; [reflexivity |].
  destruct (f x); simpl; [destruct (g x) |]; rewrite IH; reflexivity.
Qed.

Lemma filter_all {A} (f : A -> bool) (l : list A) :
  (forall x, x ∈ l -> f x = true) -> List.filter f l = l.
Proof.
  induction l as [|x l IH]; intros H; simpl; [reflexivity |].
  rewrite (H x) by (apply elem_of_cons; auto).
  f_equal. apply IH. intros y Hy. apply H, elem_of_cons. auto.
Qed.

Lemma filter_none {A} (f : A -> bool) (l : list A) :
  (forall x, x ∈ l -> f x = false) -> List.filter f l = [].
Proof.
  induction l as [|x l IH]; intros H; simpl; [reflexivity |].
  rewrite (H x) by (apply elem_of_cons; auto).
  apply IH. intros y Hy. apply H, elem_of_cons. auto.
Qed.

(** The loop of deletions removes the rows that have the key of a
    selected row, and commits nothing. *)
Lemma delete_loop_run (selected : list Notification.t) (s : Session) :
  for_each selected
    (fun notification => session_delete_notification (Notification.id notification)) s
  = (Ok tt,
     mkSession (committed s)
       (mkDB (users (working s)) (deadlines (working s))
          (List.filter
             (fun n => negb (existsb (fun o => Notification.id o =? Notification.id n)
                               selected))
             (notifications (working s))))
       (outbox s)).
Proof.
  revert s. induction selected as [|o selected IH]; intros s.
  - simpl. rewrite filter_all by reflexivity. destruct s as [c [U D N] out]. reflexivity.
  - rewrite for_each_cons, run_bind.
    change (session_delete_notification (Notification.id o) s)
      with (Ok tt,
            mkSession (committed s)
              (mkDB (users (working s)) (deadlines (working s))
                 (List.filter (fun n => negb (Notification.id n =? Notification.id o))
                    (notifications (working s))))
              (outbox s)).
    cbn beta iota. rewrite IH. simpl. rewrite filter_filter.
    do 3 f_equal. apply filter_ext. intros n.
    rewrite (Z.eqb_sym (Notification.id o)), negb_orb. reflexivity.
Qed.

(** X18: the retention task deletes the rows that are marked sent and
    carry a [sent_at] more than 30 days before [now], and nothing else.
    With distinct keys in the notification table and a cutoff that
    exists, it commits, answers the number of rows deleted, keeps every
    other row as it is and in order (an unsent row and a row without
    [sent_at] are never deleted), leaves users and deadlines alone, and
    a second run at the same instant deletes nothing. *)
Theorem cleanup_deletes_only_old_sent_rows
    (now cutoff_date : datetime) (s : Session) :
  dt_sub now (mktd (30 * US_PER_DAY)) = Ok cutoff_date ->
  NoDup (Notification.id <$> notifications (working s)) ->
  let old n :=
    match Notification.sent_at n with
    | Some t => dt_ltb t cutoff_date
    | None => false
    end && Notification.is_sent n in
  let '(r, s') := cleanup_old_notifications now s in
  r = Ok (Some (Z.of_nat (length (List.filter old (notifications (working s))))))
  /\ working s' = committed s'
  /\ committed s'
     = mkDB (users (working s)) (deadlines (working s))
         (List.filter (fun n => negb (old n)) (notifications (working s)))
  /\ outbox s' = outbox s
  /\ (forall n, n ∈ notifications (working s) ->
        Notification.is_sent n = false \/ Notification.sent_at n = None ->
        n ∈ notifications (committed s'))
  /\ cleanup_old_notifications now s' = (Ok (Some 0), s').
Proof.
  intros Hcut Hnodup old.
  assert (Hkeys : forall n, n ∈ notifications (working s) ->
            negb (existsb (fun o => Notification.id o =? Notification.id n)
                    (List.filter old (notifications (working s))))
            = negb (old n)).
  { intros n Hn. f_equal. destruct (old n) eqn:Hold.
    - apply existsb_exists. exists n. split; [| apply Z.eqb_refl].
      apply filter_In. split; [apply list_elem_of_In, Hn | exact Hold].
    - destruct (existsb _ _) eqn:Hex; [| reflexivity].
      apply existsb_exists in Hex as (o & Ho & Hk).
      apply filter_In in Ho as [Ho Hold'].
      apply Z.eqb_eq in Hk. apply list_elem_of_In in Ho.
      rewrite (same_key_same_row Notification.id _ o n Hnodup Ho Hn Hk) in Hold'.
      congruence. }
  assert (Hrun : forall s0,
            cleanup_old_notifications now s0
            = (Ok (Some (Z.of_nat (length (old_notifications cutoff_date (working s0))))),
               let w := mkDB (users (working s0)) (deadlines (working s0))
                          (List.filter
                             (fun n => negb (existsb
                                               (fun o => Notification.id o =? Notification.id n)
                                               (old_notifications cutoff_date (working s0))))
                             (notifications (working s0))) in
               mkSession w w (outbox s0))).
  { intros s0. unfold cleanup_old_notifications. rewrite run_try_except.
    rewrite run_bind. unfold lift at 1.
    change (timedelta_new 30 0 0 0) with (Ok (mktd (30 * US_PER_DAY))). cbn beta iota.
    lift_step Hcut. rewrite run_bind. unfold get_working at 1. cbn beta iota.
    rewrite run_bind, delete_loop_run. reflexivity. }
  rewrite Hrun.
  change (old_notifications cutoff_date (working s))
    with (List.filter old (notifications (working s))).
  rewrite (filter_ext_in
             (fun n => negb (existsb (fun o => Notification.id o =? Notification.id n)
                               (List.filter old (notifications (working s)))))
             (fun n => negb (old n)))
    by (intros n Hn; apply Hkeys, list_elem_of_In, Hn).
  cbn zeta.
  split; [reflexivity |]. split; [reflexivity |]. split; [reflexivity |].
  split; [reflexivity |]. split.
  - intros n Hn Hkeep. apply list_elem_of_In, filter_In.
    split; [apply list_elem_of_In, Hn |].
    subst old. cbn beta. destruct Hkeep as [-> | ->]; [apply negb_true_iff, andb_false_r |].
    reflexivity.
  - rewrite Hrun. cbn [working notifications users deadlines outbox].
    change (old_notifications cutoff_date ?db) with (List.filter old (notifications db)).
    cbn [notifications]. rewrite filter_filter.
    rewrite (filter_none (fun x => negb (old x) && old x))
      by (intros x _; destruct (old x); reflexivity).
    simpl. rewrite filter_all by reflexivity. reflexivity.
Qed.

Lemma cleanup_deletes_only_old_sent_rows_witness :
  let now := mkdt 2025 6 1 3 0 0 0 in
  let s := clean Scenario.db_dispatch in
  dt_sub now (mktd (30 * US_PER_DAY)) = Ok (mkdt 2025 5 2 3 0 0 0)
  /\ NoDup (Notification.id <$> notifications (working s))
  /\ (cleanup_old_notifications now s).1 = Ok (Some 1)
  /\ notifications (committed (cleanup_old_notifications now s).2)
     = [Scenario.orphan_row; Scenario.due_row].
Proof.
  intros now s.
  assert (H1 : dt_sub now (mktd (30 * US_PER_DAY)) = Ok (mkdt 2025 5 2 3 0 0 0))
    by (vm_compute; reflexivity).
  assert (H2 : NoDup (Notification.id <$> notifications (working s)))
    by (apply (bool_decide_unpack _); vm_compute; exact I).
  pose proof (cleanup_deletes_only_old_sent_rows now _ s H1 H2) as H.
  cbv zeta in H.
  destruct (cleanup_old_notifications now s) as [r s'].
  destruct H as (Hr & _ & Hc & _).
  split; [exact H1 |]. split; [exact H2 |].
  cbn [fst snd]. rewrite Hr, Hc. split; vm_compute; reflexivity.
Defined.

(** * Marking a notification by hand *)

(** X19: [mark_notification_sent] looks the notification up by key and
    owner.  Without such a row (no such key, or a notification of
    another user) it raises [ValueError('Notification not found')] and
    leaves the session as it was.  With one, in a table with distinct
    keys, it returns the row marked sent at [now], commits that row in
    place of the old one, keeps every other row and calls no channel
    sender; through any number of later dispatcher sweeps the row stays
    as marked and no channel sender is ever called for it, whether or
    not it had been delivered before. *)
Theorem marked_notification_is_never_dispatched
    (now : datetime) (notification_id user_id : Z) (db : DB)
    (schedule : list (Env * datetime)) :
  NoDup (Notification.id <$> notifications db) ->
  let found :=
    find (fun n => (Notification.id n =? notification_id)
                   && (Notification.user_id n =? user_id)) (notifications db) in
  let mark n := Notification.set_sent_at (Some now) (Notification.set_is_sent true n) in
  let '(res, s1) := mark_notification_sent now notification_id user_id (clean db) in
  (found = None ->
   res = Raise (ValueError "Notification not found") /\ s1 = clean db)
  /\ (forall r, found = Some r ->
        res = Ok (mark r)
        /\ s1 = clean (mkDB (users db) (deadlines db)
                         (update_rows Notification.id notification_id mark
                            (notifications db)))
        /\ mark r ∈ notifications (committed s1)
        /\ (forall n, n ∈ notifications db -> Notification.id n <> notification_id ->
                      n ∈ notifications (committed s1))
        /\ let s' := run_sweeps schedule s1 in
           mark r ∈ notifications (committed s')
           /\ (forall sweep_time n, n ∈ pending_rows sweep_time (working s') ->
                 Notification.id n <> notification_id)
           /\ (forall ch, (notification_id, ch) ∉ outbox s')).
Proof.
  intros Hnd found mark. subst found.
  unfold mark_notification_sent. rewrite run_try_except, run_bind.
  unfold get_working at 1. cbn beta iota. change (working (clean db)) with db.
  destruct (find _ (notifications db)) as [r|] eqn:Hfind.
  - split; [discriminate |]. intros r0 [= <-].
    destruct (find_Some_filter _ _ _ Hfind) as (Hk & Hin & _).
    apply andb_true_iff in Hk as [Hk _]. apply Z.eqb_eq in Hk.
    set (s1 := clean (mkDB (users db) (deadlines db)
                        (update_rows Notification.id notification_id mark
                           (notifications db)))).
    change ((_ ← modify_notification notification_id _; _ ← commit; ret _) (clean db))
      with (Ok (mark r), s1).
    assert (Hmarked : mark r ∈ notifications (committed s1))
      by (apply update_rows_found; assumption).
    assert (Hkeys : NoDup (Notification.id <$> notifications (committed s1)))
      by (simpl; rewrite update_rows_keys; [exact Hnd | reflexivity]).
    split; [reflexivity |]. split; [reflexivity |]. split; [exact Hmarked |].
    split; [intros n Hn Hne; apply update_rows_other; assumption |].
    destruct (undisturbed_run_sweeps (mark r) (users db) schedule s1)
      as [[(Hw & Hndw & _) (Hc & _ & _)] Hout].
    { split; [| intros ch Hch; inversion Hch].
      split; repeat split; assumption. }
    { left. reflexivity. }
    cbn zeta. split; [exact Hc |]. split.
    + intros sweep_time n Hn Hid.
      apply pending_rows_elem in Hn as (Hnin & _ & Hunsent).
      assert (n = mark r) as ->
          by (eapply same_key_same_row; [exact Hndw | exact Hnin | exact Hw |];
              simpl; congruence).
      discriminate.
    + intros ch. specialize (Hout ch). simpl in Hout. rewrite Hk in Hout. exact Hout.
  - split; [| discriminate]. intros _. split; reflexivity.
Qed.

Lemma marked_notification_is_never_dispatched_witness :
  let marked :=
    Notification.set_sent_at (Some (mkdt 2025 3 13 6 10 0 0))
      (Notification.set_is_sent true Scenario.due_row) in
  NoDup (Notification.id <$> notifications Scenario.db_dispatch)
  /\ mark_notification_sent (mkdt 2025 3 13 6 10 0 0) 3 2 (clean Scenario.db_dispatch)
     = (Raise (ValueError "Notification not found"), clean Scenario.db_dispatch)
  /\ (mark_notification_sent (mkdt 2025 3 13 6 10 0 0) 3 1 (clean Scenario.db_dispatch)).1
     = Ok marked
  /\ let s' :=
       run_sweeps Scenario.sweeps
         (mark_notification_sent (mkdt 2025 3 13 6 10 0 0) 3 1
            (clean Scenario.db_dispatch)).2 in
     marked ∈ notifications (committed s')
     /\ (forall ch, (3, ch) ∉ outbox s').
Proof.
  intros marked.
  assert (H0 : NoDup (Notification.id <$> notifications Scenario.db_dispatch))
    by (apply (bool_decide_unpack _); vm_compute; exact I).
  pose proof (marked_notification_is_never_dispatched (mkdt 2025 3 13 6 10 0 0) 3 2
                Scenario.db_dispatch Scenario.sweeps H0) as Hother.
  pose proof (marked_notification_is_never_dispatched (mkdt 2025 3 13 6 10 0 0) 3 1
                Scenario.db_dispatch Scenario.sweeps H0) as Hown.
  cbv zeta in Hother, Hown.
  split; [exact H0 |].
  destruct (mark_notification_sent (mkdt 2025 3 13 6 10 0 0) 3 2 (clean Scenario.db_dispatch))
    as [res2 s2].
  destruct Hother as [Hother _].
  destruct (Hother eq_refl) as [-> ->].
  split; [reflexivity |].
  destruct (mark_notification_sent (mkdt 2025 3 13 6 10 0 0) 3 1 (clean Scenario.db_dispatch))
    as [res1 s1].
  destruct Hown as [_ Hown].
  destruct (Hown Scenario.due_row eq_refl) as (Hres & _ & _ & _ & Hstay & _ & Hout).
  split; [exact Hres |]. split; [exact Hstay | exact Hout].
Defined.

(** * Instants on the time line

    The calendar arithmetic of the embedding against the ordinal of the
    library: a step of one calendar day moves the ordinal by one, an
    addition moves the instant by the microseconds of the [timedelta],
    and the comparison of valid datetimes is the comparison of their
    instants. *)

Lemma year_length (y : Z) :
  _days_before_year (y + 1) = _days_before_year y + (if _is_leap y then 366 else 365).
Proof.
  unfold _days_before_year, _is_leap.
  replace (y + 1 - 1) with y by lia.
  destruct (y mod 4 =? 0) eqn:H4; destruct (y mod 100 =? 0) eqn:H100;
    destruct (y mod 400 =? 0) eqn:H400; simpl;
    rewrite ?Z.eqb_eq, ?Z.eqb_neq in *; divmod.
Qed.

Lemma month_length (y m : Z) :
  1 <= m <= 11 ->
  _days_before_month y (m + 1) = _days_before_month y m + _days_in_month y m.
Proof.
  intros Hm.
  assert (m = 1 \/ m = 2 \/ m = 3 \/ m = 4 \/ m = 5 \/ m = 6 \/ m = 7 \/ m = 8 \/ m = 9
          \/ m = 10 \/ m = 11) as Hcases by lia.
  unfold _days_before_month, _days_in_month.
  repeat (destruct Hcases as [-> | Hcases]); try subst m; simpl;
    destruct (_is_leap y); reflexivity.
Qed.

Lemma december_length (y : Z) :
  _days_before_month y 12 + 31 = if _is_leap y then 366 else 365.
Proof. unfold _days_before_month. simpl. destruct (_is_leap y); reflexivity. Qed.

Lemma succ_day_ordinal (d d' : datetime) :
  valid_date d = true -> succ_day d = Ok d' -> toordinal d' = toordinal d + 1.
Proof.
  rewrite valid_date_iff. intros (Hy & Hm & Hd). unfold succ_day, toordinal, _ymd2ord.
  destruct (day d <? _) eqn:H1; [intros [= <-]; simpl; lia |].
  apply Z.ltb_ge in H1.
  destruct (month d <? 12) eqn:H2.
  - apply Z.ltb_lt in H2. intros [= <-]; simpl.
    rewrite month_length by lia. lia.
  - apply Z.ltb_ge in H2. destruct (year d <? MAXYEAR); [| discriminate].
    intros [= <-]; simpl. rewrite year_length.
    assert (month d = 12) as Hdec by lia. rewrite Hdec in *.
    pose proof (december_length (year d)) as Hlen.
    assert (_days_in_month (year d) 12 = 31) as H31 by reflexivity.
    unfold _days_before_month at 1. simpl. lia.
Qed.

Lemma pred_day_ordinal (d d' : datetime) :
  valid_date d = true -> pred_day d = Ok d' ->
  toordinal d' = toordinal d - 1 /\ valid_date d' = true.
Proof.
  rewrite !valid_date_iff. intros (Hy & Hm & Hd). unfold pred_day, toordinal, _ymd2ord.
  destruct (1 <? day d) eqn:H1; [intros [= <-]; simpl; apply Z.ltb_lt in H1; lia |].
  apply Z.ltb_ge in H1.
  destruct (1 <? month d) eqn:H2.
  - apply Z.ltb_lt in H2. intros [= <-]; simpl.
    pose proof (month_length (year d) (month d - 1)) as Hlen.
    replace (month d - 1 + 1) with (month d) in Hlen by lia.
    pose proof (days_in_month_range (year d) (month d - 1)). lia.
  - apply Z.ltb_ge in H2. unfold MINYEAR. destruct (1 <? year d) eqn:H3; [| discriminate].
    apply Z.ltb_lt in H3. intros [= <-]; simpl.
    pose proof (year_length (year d - 1)) as Hlen.
    replace (year d - 1 + 1) with (year d) in Hlen by lia.
    pose proof (december_length (year d - 1)) as Hdec.
    assert (month d = 1) as Hjan by lia. rewrite Hjan.
    assert (_days_in_month (year d - 1) 12 = 31) as H31 by reflexivity.
    unfold _days_before_month at 2. simpl. lia.
Qed.

Lemma pred_day_time (d d' : datetime) :
  pred_day d = Ok d' -> at_time_of d d' = d' /\ valid_time d' = valid_time d.
Proof.
  unfold pred_day.
  repeat match goal with
         | |- context [if ?b then _ else _] => destruct b
         end; try discriminate; intros [= <-]; split; reflexivity.
Qed.

Lemma days_before_year_mono (y1 y2 : Z) :
  y1 <= y2 -> _days_before_year y1 + 365 * (y2 - y1) <= _days_before_year y2.
Proof.
  intros Hle. replace y2 with (y1 + Z.of_nat (Z.to_nat (y2 - y1))) by lia.
  generalize (Z.to_nat (y2 - y1)) as n. clear y2 Hle.
  induction n as [|n IH]; [rewrite Z.add_0_r; lia |].
  replace (y1 + Z.of_nat (S n)) with (y1 + Z.of_nat n + 1) by lia.
  rewrite year_length. destruct (_is_leap _); lia.
Qed.

Lemma ordinal_in_year (y m d : Z) :
  1 <= m <= 12 -> 1 <= d <= _days_in_month y m ->
  1 <= _days_before_month y m + d <= (if _is_leap y then 366 else 365).
Proof.
  intros Hm Hd.
  assert (m = 1 \/ m = 2 \/ m = 3 \/ m = 4 \/ m = 5 \/ m = 6 \/ m = 7 \/ m = 8 \/ m = 9
          \/ m = 10 \/ m = 11 \/ m = 12) as Hcases by lia.
  unfold _days_before_month, _days_in_month in *.
  repeat (destruct Hcases as [-> | Hcases]); try subst m; simpl in *;
    destruct (_is_leap y); simpl in *; lia.
Qed.

Lemma days_before_month_mono (y m1 m2 : Z) :
  1 <= m1 -> m1 < m2 -> m2 <= 12 ->
  _days_before_month y m1 + _days_in_month y m1 <= _days_before_month y m2.
Proof.
  intros H1 Hlt H2.
  replace m2 with (m1 + 1 + Z.of_nat (Z.to_nat (m2 - m1 - 1))) in * by lia.
  revert H2. generalize (Z.to_nat (m2 - m1 - 1)) as n. clear m2 Hlt.
  induction n as [|n IH]; intros H2.
  - rewrite Z.add_0_r. rewrite month_length by lia. lia.
  - replace (m1 + 1 + Z.of_nat (S n)) with (m1 + 1 + Z.of_nat n + 1) by lia.
    rewrite month_length by lia.
    pose proof (days_in_month_range y (m1 + 1 + Z.of_nat n)). lia.
Qed.

(** The ordinal grows with the calendar date. *)
Lemma toordinal_lt (a b : datetime) :
  valid_date a = true -> valid_date b = true -> date_lt a b -> toordinal a < toordinal b.
Proof.
  rewrite !valid_date_iff. intros (Hya & Hma & Hda) (Hyb & Hmb & Hdb) Hlt.
  unfold toordinal, _ymd2ord.
  pose proof (ordinal_in_year (year a) (month a) (day a) Hma Hda) as Ha.
  pose proof (ordinal_in_year (year b) (month b) (day b) Hmb Hdb) as Hb.
  destruct Hlt as [Hy | [Hy [Hm | [Hm Hd]]]].
  - pose proof (days_before_year_mono (year a + 1) (year b)) as Hmono.
    rewrite year_length in Hmono. destruct (_is_leap (year a)); lia.
  - rewrite <- Hy in *.
    pose proof (days_before_month_mono (year a) (month a) (month b)). lia.
  - rewrite <- Hy, <- Hm in *. lia.
Qed.

Lemma dt_compare_cases (a b : datetime) :
  match dt_compare a b with
  | Eq => a = b
  | Lt => date_lt a b
          \/ (toordinal a = toordinal b
              /\ (hour a < hour b
                  \/ (hour a = hour b
                      /\ (minute a < minute b
                          \/ (minute a = minute b
                              /\ (second a < second b
                                  \/ (second a = second b
                                      /\ microsecond a < microsecond b)))))))
  | Gt => True
  end.
Proof.
  destruct a as [y1 m1 d1 h1 mi1 s1 u1], b as [y2 m2 d2 h2 mi2 s2 u2].
  unfold dt_compare, dt_fields, date_lt, toordinal. simpl.
  destruct (Z.compare_spec y1 y2); try exact I; [subst | lia].
  destruct (Z.compare_spec m1 m2); try exact I; [subst | lia].
  destruct (Z.compare_spec d1 d2); try exact I; [subst | lia].
  destruct (Z.compare_spec h1 h2); try exact I; [subst | right; lia].
  destruct (Z.compare_spec mi1 mi2); try exact I; [subst | right; lia].
  destruct (Z.compare_spec s1 s2); try exact I; [subst | right; lia].
  destruct (Z.compare_spec u1 u2); try exact I; [subst; reflexivity | right; lia].
Qed.

(** The comparison of valid datetimes is the comparison of their
    instants. *)
Lemma dt_ltb_instant (a b : datetime) :
  valid_datetime a = true -> valid_datetime b = true ->
  dt_ltb a b = true <-> instant_us a < instant_us b.
Proof.
  intros Ha Hb.
  apply valid_datetime_split in Ha as [Hda Hta]. apply valid_datetime_split in Hb as [Hdb Htb].
  assert (Hlt : forall x y, valid_date x = true -> valid_time x = true ->
                  valid_date y = true -> valid_time y = true ->
                  dt_compare x y = Lt -> instant_us x < instant_us y).
  { intros x y Hdx Htx Hdy Hty Hc.
    pose proof (dt_compare_cases x y) as H. rewrite Hc in H.
    pose proof (time_of_day_range x Htx). pose proof (time_of_day_range y Hty).
    unfold instant_us. destruct H as [H | [Hord H]].
    - pose proof (toordinal_lt x y Hdx Hdy H). unfold US_PER_DAY, US_PER_SECOND in *. nia.
    - rewrite Hord. apply valid_time_iff in Htx, Hty.
      unfold time_of_day_us, US_PER_SECOND. lia. }
  unfold dt_ltb. split.
  - destruct (dt_compare a b) eqn:Hc; try discriminate. intros _. apply Hlt; assumption.
  - intros Hinst. destruct (dt_compare a b) eqn:Hc; [| reflexivity |].
    + pose proof (dt_compare_cases a b) as H. rewrite Hc in H. subst b. lia.
    + assert (dt_compare b a = Lt) as Hc'.
      { unfold dt_compare in *. rewrite lex_compare_antisym, Hc. reflexivity. }
      pose proof (Hlt b a Hdb Htb Hda Hta Hc'). lia.
Qed.

Lemma instant_us_inj (a b : datetime) :
  valid_datetime a = true -> valid_datetime b = true ->
  instant_us a = instant_us b -> a = b.
Proof.
  intros Ha Hb Heq.
  pose proof (dt_ltb_instant a b Ha Hb) as Hab.
  pose proof (dt_ltb_instant b a Hb Ha) as Hba.
  pose proof (dt_compare_cases a b) as H.
  unfold dt_ltb in Hab, Hba. unfold dt_compare in Hba.
  rewrite lex_compare_antisym in Hba. fold (dt_compare a b) in Hba.
  destruct (dt_compare a b); simpl in Hba.
  - exact H.
  - assert (instant_us a < instant_us b) by (apply Hab; reflexivity). lia.
  - assert (instant_us b < instant_us a) by (apply Hba; reflexivity). lia.
Qed.

Lemma shift_days_ordinal (n : Z) (d d' : datetime) :
  valid_date d = true -> shift_days n d = Ok d' ->
  toordinal d' = toordinal d + n /\ valid_date d' = true /\ at_time_of d d' = d'.
Proof.
  intros Hvalid. destruct n as [|p|p]; simpl.
  - intros [= <-]. rewrite Z.add_0_r. destruct d; auto.
  - revert d'.
    apply (Pos.iter_ind _ (step_result succ_day) (Ok d)
             (fun p r => forall d', r = Ok d' ->
                toordinal d' = toordinal d + Zpos p /\ valid_date d' = true
                /\ at_time_of d d' = d')).
    + simpl. intros d' Hd'. pose proof (succ_day_ordinal d d' Hvalid Hd').
      pose proof (succ_day_valid d d' Hvalid Hd'). apply succ_day_time in Hd' as [Ht _]. auto.
    + intros q r IH d' Hd'. destruct r as [x|e]; [| discriminate]. simpl in Hd'.
      destruct (IH x eq_refl) as (Hord & Hv & Ht).
      pose proof (succ_day_ordinal x d' Hv Hd'). pose proof (succ_day_valid x d' Hv Hd').
      apply succ_day_time in Hd' as [Ht' _].
      split; [lia |]. split; [assumption |].
      rewrite <- Ht', <- Ht. reflexivity.
  - revert d'.
    apply (Pos.iter_ind _ (step_result pred_day) (Ok d)
             (fun p r => forall d', r = Ok d' ->
                toordinal d' = toordinal d + Zneg p /\ valid_date d' = true
                /\ at_time_of d d' = d')).
    + simpl. intros d' Hd'. destruct (pred_day_ordinal d d' Hvalid Hd') as [Hord Hv].
      apply pred_day_time in Hd' as [Ht _]. split; [lia | auto].
    + intros q r IH d' Hd'. destruct r as [x|e]; [| discriminate]. simpl in Hd'.
      destruct (IH x eq_refl) as (Hord & Hv & Ht).
      destruct (pred_day_ordinal x d' Hv Hd') as [Hord' Hv'].
      apply pred_day_time in Hd' as [Ht' _].
      split; [lia |]. split; [assumption |].
      rewrite <- Ht', <- Ht. reflexivity.
Qed.

Lemma time_of_day_with (x : datetime) (r : Z) :
  0 <= r < US_PER_DAY ->
  time_of_day_us (with_time_of_day x r) = r
  /\ valid_time (with_time_of_day x r) = true.
Proof.
  intros Hr. unfold US_PER_DAY in Hr. split.
  - unfold time_of_day_us, with_time_of_day, US_PER_SECOND in *. simpl. divmod.
  - apply valid_time_iff. unfold with_time_of_day, US_PER_SECOND in *. simpl. divmod.
Qed.

(** When [dt + td] returns, it returns the valid datetime of the instant
    [td] later. *)
Lemma dt_add_instant (d d' : datetime) (td : timedelta) :
  valid_datetime d = true -> dt_add d td = Ok d' ->
  instant_us d' = instant_us d + td_us td /\ valid_datetime d' = true.
Proof.
  intros Hvalid. apply valid_datetime_split in Hvalid as [Hdate Htime].
  unfold dt_add. unfold mbind, Result_bind, rbind.
  destruct (shift_days _ d) as [x|e] eqn:Hx; [| discriminate]. intros [= <-].
  destruct (shift_days_ordinal _ d x Hdate Hx) as (Hord & Hv & _).
  assert (Hr : 0 <= (time_of_day_us d + td_us td) mod US_PER_DAY < US_PER_DAY)
    by (apply Z.mod_pos_bound; reflexivity).
  destruct (time_of_day_with x _ Hr) as [Htod Hvt].
  split.
  - unfold instant_us. rewrite Htod.
    change (toordinal (with_time_of_day x ?r)) with (toordinal x). rewrite Hord.
    pose proof (Z.div_mod (time_of_day_us d + td_us td) US_PER_DAY). 
    assert (US_PER_DAY <> 0) by discriminate. lia.
  - apply valid_datetime_split. split; [exact Hv | exact Hvt].
Qed.

(** An addition of at most a day in either direction, away from the
    ends of the calendar, returns. *)
Lemma dt_add_small (d : datetime) (td : timedelta) :
  valid_datetime d = true -> 1 < year d < 9999 ->
  - US_PER_DAY <= td_us td <= US_PER_DAY ->
  exists d', dt_add d td = Ok d' /\ year d - 1 <= year d' <= year d + 1.
Proof.
  intros Hvalid Hyear Htd. apply valid_datetime_split in Hvalid as [Hdate Htime].
  pose proof (time_of_day_range d Htime) as Htod.
  apply valid_date_iff in Hdate as (Hy & Hm & Hd).
  unfold dt_add.
  assert (Hq : (time_of_day_us d + td_us td) / US_PER_DAY = -1
               \/ (time_of_day_us d + td_us td) / US_PER_DAY = 0
               \/ (time_of_day_us d + td_us td) / US_PER_DAY = 1).
  { unfold US_PER_DAY, US_PER_SECOND in *. divmod. }
  destruct Hq as [-> | [-> | ->]]; simpl; unfold step_result, rbind.
  - unfold pred_day, MINYEAR.
    destruct (1 <? day d); [eexists; split; [reflexivity |]; simpl; lia |].
    destruct (1 <? month d); [eexists; split; [reflexivity |]; simpl; lia |].
    destruct (1 <? year d) eqn:H1; [eexists; split; [reflexivity |]; simpl; lia |].
    apply Z.ltb_ge in H1. lia.
  - eexists; split; [reflexivity |]; simpl; lia.
  - unfold succ_day, MAXYEAR.
    destruct (day d <? _); [eexists; split; [reflexivity |]; simpl; lia |].
    destruct (month d <? 12); [eexists; split; [reflexivity |]; simpl; lia |].
    destruct (year d <? 9999) eqn:H1; [eexists; split; [reflexivity |]; simpl; lia |].
    apply Z.ltb_ge in H1. lia.
Qed.

Lemma timedelta_new_minutes (offset : Z) :
  -1440 < offset < 1440 ->
  timedelta_new 0 0 offset 0 = Ok (mktd (offset * 60 * US_PER_SECOND)).
Proof.
  intros Hoff. unfold timedelta_new.
  replace ((((0 + 7 * 0) * 24 + 0) * 60 + offset) * 60 * US_PER_SECOND)
    with (offset * 60 * US_PER_SECOND) by lia.
  destruct ((-999999999 <=? _) && _) eqn:Hc; [reflexivity |].
  apply andb_false_iff in Hc as [Hc | Hc];
    [apply Z.leb_gt in Hc | apply Z.leb_gt in Hc];
    unfold US_PER_DAY, US_PER_SECOND in *; divmod.
Qed.

Lemma String_leb_refl (s : string) : String.leb s s = true.
Proof.
  unfold String.leb. pose proof (String.compare_antisym s s) as H.
  destruct (String.compare s s); try reflexivity. discriminate.
Qed.

Lemma dt_leb_year (a b : datetime) : dt_leb a b = true -> year a <= year b.
Proof.
  unfold dt_leb, dt_compare, dt_fields. simpl.
  destruct (Z.compare_spec (year a) (year b)); [lia | lia | discriminate].
Qed.

(** * Deferral out of the quiet hours *)

(** [int] reads back the two fields of a clock text. *)
Lemma clock_parses (h m : Z) :
  0 <= h <= 23 -> 0 <= m <= 59 ->
  match split_colon (clock h m) with
  | [hs; ms] =>
      match py_int hs, py_int ms with
      | Ok h', Ok m' => h' = h /\ m' = m
      | _, _ => False
      end
  | _ => False
  end.
Proof.
  intros Hh Hm.
  assert (Hall : forallb (fun h0 => forallb (fun m0 =>
            match split_colon (clock (Z.of_nat h0) (Z.of_nat m0)) with
            | [hs; ms] =>
                match py_int hs, py_int ms with
                | Ok h', Ok m' => (h' =? Z.of_nat h0) && (m' =? Z.of_nat m0)
                | _, _ => false
                end
            | _ => false
            end) (seq 0 60)) (seq 0 24) = true) by (vm_compute; reflexivity).
  rewrite forallb_forall in Hall.
  specialize (Hall (Z.to_nat h)). rewrite forallb_forall in Hall.
  assert (Hin : In (Z.to_nat h) (seq 0 24)) by (apply in_seq; lia).
  specialize (Hall Hin (Z.to_nat m)).
  assert (Hin' : In (Z.to_nat m) (seq 0 60)) by (apply in_seq; lia).
  specialize (Hall Hin'). rewrite !Z2Nat.id in Hall by lia.
  destruct (split_colon (clock h m)) as [|hs [|ms [|]]]; try discriminate.
  destruct (py_int hs); [| discriminate]. destruct (py_int ms); [| discriminate].
  apply andb_true_iff in Hall as [H1 H2]. apply Z.eqb_eq in H1, H2. auto.
Qed.

Lemma deferral_core env user t off h m :
  valid_datetime t = true -> 5 <= year t <= 9995 ->
  fixed_offset_zone env (User.timezone user) off ->
  dict_get (prefs_of user) "quiet_hours_end" (JStr "08:00") = JStr (clock h m) ->
  0 <= h <= 23 -> 0 <= m <= 59 ->
  exists t' L,
    _get_next_available_time env user t = Ok t'
    /\ valid_datetime t' = true
    /\ instant_us t < instant_us t' <= instant_us t + US_PER_DAY
    /\ year t' <= year t + 3
    /\ valid_datetime L = true
    /\ hour L = h /\ minute L = m
    /\ instant_us L = instant_us t' + off * 60 * US_PER_SECOND.
Proof.
  intros Hvalid Hyear (Hoff & tz & Htz & Hconst) Hend Hh Hm.
  set (o := off * 60 * US_PER_SECOND).
  assert (Ho : - US_PER_DAY < o < US_PER_DAY)
    by (unfold o, US_PER_DAY, US_PER_SECOND; lia).
  destruct (dt_add_small t (mktd o) Hvalid) as (local & Hlocal & Hyl);
    [lia | simpl; lia |].
  destruct (dt_add_instant t local (mktd o) Hvalid Hlocal) as [Hil Hvl]. simpl in Hil.
  pose proof Hvl as Hvl'. apply valid_datetime_split in Hvl' as [Hdl Htl].
  pose (next := mkdt (year local) (month local) (day local) h m 0 0).
  assert (Hvn : valid_datetime next = true).
  { apply valid_datetime_split. split; [exact Hdl |]. apply valid_time_iff. simpl. lia. }
  assert (Hnext : replace_time local h m 0 0 = Ok next).
  { unfold replace_time, datetime_new.
    apply valid_date_iff, check_date_fields_Ok in Hdl. rewrite Hdl.
    assert (check_time_fields h m 0 0 = Ok tt) as ->; [| reflexivity].
    pose proof (proj2 (valid_time_iff next)) as H. unfold valid_time in H. simpl in H.
    destruct (check_time_fields h m 0 0) as [[]|e]; [reflexivity |].
    simpl in H. discriminate H. lia. }
  pose proof (time_of_day_range local Htl) as Htodl.
  pose proof (time_of_day_range next (proj2 (proj1 (valid_datetime_split next) Hvn)))
    as Htodn.
  assert (Hordn : toordinal next = toordinal local) by reflexivity.
  assert (Hnext' : exists next',
            (if dt_leb next local
             then td ← timedelta_new 1 0 0 0; dt_add next td
             else Ok next) = Ok next'
            /\ valid_datetime next' = true
            /\ instant_us local < instant_us next' <= instant_us local + US_PER_DAY
            /\ hour next' = h /\ minute next' = m
            /\ year local - 1 <= year next' <= year local + 1).
  { destruct (dt_leb next local) eqn:Hcmp.
    - change (timedelta_new 1 0 0 0) with (Ok (mktd (1 * US_PER_DAY))).
      change (mbind ?k (Ok ?x)) with (k x). cbn beta.
      destruct (dt_add_small next (mktd (1 * US_PER_DAY)) Hvn) as (next' & Hadd & Hyn);
        [simpl; lia | simpl; lia |].
      destruct (dt_add_instant next next' _ Hvn Hadd) as [Hi Hv]. simpl in Hi.
      exists next'. split; [exact Hadd |]. split; [exact Hv |].
      assert (Hle : instant_us next <= instant_us local).
      { destruct (Z.le_gt_cases (instant_us next) (instant_us local)) as [H | H]; [exact H |].
        apply (dt_ltb_instant local next Hvl Hvn) in H.
        rewrite dt_ltb_leb, Hcmp in H. discriminate. }
      split; [unfold instant_us in *; rewrite Hordn in *; lia |].
      rewrite (dt_add_days next 1) in Hadd
        by (apply valid_datetime_split in Hvn; tauto).
      apply succ_days_time in Hadd. rewrite <- Hadd. simpl in Hyn. simpl. auto.
    - exists next. split; [reflexivity |]. split; [exact Hvn |].
      assert (Hlt : instant_us local < instant_us next).
      { apply (dt_ltb_instant local next Hvl Hvn). rewrite dt_ltb_leb, Hcmp. reflexivity. }
      split; [unfold instant_us in *; rewrite Hordn in *; lia |].
      simpl. repeat split; lia. }
  destruct Hnext' as (next' & Hstep & Hvn' & Hin' & Hhour & Hminute & Hyn').
  destruct (dt_add_small next' (mktd (- o)) Hvn') as (t' & Hback & Hyt');
    [lia | simpl; lia |].
  destruct (dt_add_instant next' t' _ Hvn' Hback) as [Hit' Hvt']. simpl in Hit'.
  exists t', next'.
  split.
  - unfold _get_next_available_time. rewrite Hend.
    unfold lookup_timezone. rewrite Htz.
    change (mbind ?k (Ok ?x)) with (k x). cbn beta.
    unfold astimezone. rewrite Hconst, (timedelta_new_minutes off Hoff).
    change (mbind ?k (Ok ?x)) with (k x). cbn beta. fold o. rewrite Hlocal.
    change (mbind ?k (Ok ?x)) with (k x). cbn beta iota.
    change (mbind ?k (Ok ?x)) with (k x). cbn beta iota.
    change (mbind ?k (Ok ?x)) with (k x). cbn beta iota.
    pose proof (clock_parses h m Hh Hm) as Hparse.
    destruct (split_colon (clock h m)) as [|hs [|ms [|? ?]]]; try contradiction.
    destruct (py_int hs) as [h'|]; [| contradiction].
    destruct (py_int ms) as [m'|]; [| contradiction].
    destruct Hparse as [-> ->].
    change (mbind ?k (Ok ?x)) with (k x). cbn beta iota.
    change (mbind ?k (Ok ?x)) with (k x). cbn beta iota.
    change (mbind ?k (Ok ?x)) with (k x). cbn beta iota.
    rewrite Hnext.
    change (mbind ?k (Ok ?x)) with (k x). cbn beta iota.
    rewrite Hstep.
    change (mbind ?k (Ok ?x)) with (k x). cbn beta iota.
    change (mbind ?k (Ok ?x)) with (k x). cbn beta iota.
    unfold dt_sub. rewrite (timedelta_new_minutes off Hoff).
    change (mbind ?k (Ok ?x)) with (k x). cbn beta. simpl td_us. fold o.
    rewrite Hback. reflexivity.
  - split; [exact Hvt' |]. split; [lia |]. split; [lia |].
    split; [exact Hvn' |]. split; [exact Hhour |]. split; [exact Hminute |].
    fold o. lia.
Qed.

(** The minute at which the quiet hours end is itself quiet: the window
    is closed at both ends. *)
Lemma quiet_at_quiet_end env user t L off h m qs :
  valid_datetime t = true -> 1 < year t < 9999 ->
  fixed_offset_zone env (User.timezone user) off ->
  dict_get (prefs_of user) "quiet_hours_end" (JStr "08:00") = JStr (clock h m) ->
  dict_get (prefs_of user) "quiet_hours_start" (JStr "22:00") = JStr qs ->
  valid_datetime L = true -> hour L = h -> minute L = m ->
  instant_us L = instant_us t + off * 60 * US_PER_SECOND ->
  _is_quiet_hours env user t = true.
Proof.
  intros Hvalid Hyear (Hoff & tz & Htz & Hconst) Hend Hstart HvL Hhour Hminute HiL.
  set (o := off * 60 * US_PER_SECOND) in *.
  assert (Ho : - US_PER_DAY < o < US_PER_DAY)
    by (unfold o, US_PER_DAY, US_PER_SECOND; lia).
  destruct (dt_add_small t (mktd o) Hvalid) as (local & Hlocal & _);
    [lia | simpl; lia |].
  destruct (dt_add_instant t local (mktd o) Hvalid Hlocal) as [Hil Hvl]. simpl in Hil.
  assert (local = L) as -> by (apply instant_us_inj; [assumption | assumption | lia]).
  unfold _is_quiet_hours. rewrite Hend, Hstart.
  unfold lookup_timezone. rewrite Htz.
  change (mbind ?k (Ok ?x)) with (k x). cbn beta.
  unfold astimezone. rewrite Hconst, (timedelta_new_minutes off Hoff).
  change (mbind ?k (Ok ?x)) with (k x). cbn beta. fold o. rewrite Hlocal.
  change (mbind ?k (Ok ?x)) with (k x). cbn beta iota.
  change (mbind ?k (Ok ?x)) with (k x). cbn beta iota.
  assert (strftime_HM L = clock h m) as ->
      by (unfold strftime_HM, clock; simpl; rewrite Hhour, Hminute; reflexivity).
  unfold py_ge, py_le.
  change (mbind ?k (Ok ?x)) with (k x). cbn beta iota.
  destruct (String.leb qs (clock h m)) eqn:Hcmp.
  - change (mbind ?k (Ok ?x)) with (k x). cbn beta iota.
    rewrite String_leb_refl. reflexivity.
  - change (mbind ?k (Ok ?x)) with (k x). cbn beta iota.
    rewrite String_leb_refl. reflexivity.
Qed.

(** A send within the quiet hours moves the row and calls no sender. *)
Lemma send_notification_quiet env now n user t' s :
  find (fun u => User.id u =? Notification.user_id n) (users (working s)) = Some user ->
  _is_quiet_hours env user (Notification.scheduled_for n) = true ->
  _get_next_available_time env user (Notification.scheduled_for n) = Ok t' ->
  send_notification env now n s
  = (Ok true,
     let w := mkDB (users (working s)) (deadlines (working s))
                (update_rows Notification.id (Notification.id n)
                   (Notification.set_scheduled_for t') (notifications (working s))) in
     mkSession w w (outbox s)).
Proof.
  intros Huser Hquiet Hnext. unfold send_notification.
  rewrite run_try_except, run_bind, run_User_query_get, Huser. cbn beta iota.
  rewrite Hquiet. rewrite run_bind. unfold lift at 1. rewrite Hnext. reflexivity.
Qed.

(** X20: a send within the quiet hours does not get the notification
    out of them.  For a user in a zone of fixed offset whose quiet hours
    end at the clock time [h]:[m], and a notification scheduled at a
    valid instant within the quiet hours: [send_notification] answers
    [True] without calling a channel sender, and commits the row, still
    unsent, at the instant [_get_next_available_time] computes.  That
    instant is later than the scheduled one by at most a day, and it is
    again within the quiet hours, whose window is closed at its end. *)
Theorem deferral_stays_in_quiet_hours
    (env : Env) (now : datetime) (user : User.t) (n : Notification.t) (s : Session)
    (off h m : Z) (qs : string) :
  find (fun u => User.id u =? Notification.user_id n) (users (working s)) = Some user ->
  valid_datetime (Notification.scheduled_for n) = true ->
  5 <= year (Notification.scheduled_for n) <= 9995 ->
  fixed_offset_zone env (User.timezone user) off ->
  dict_get (prefs_of user) "quiet_hours_end" (JStr "08:00") = JStr (clock h m) ->
  0 <= h <= 23 -> 0 <= m <= 59 ->
  dict_get (prefs_of user) "quiet_hours_start" (JStr "22:00") = JStr qs ->
  _is_quiet_hours env user (Notification.scheduled_for n) = true ->
  exists t',
    _get_next_available_time env user (Notification.scheduled_for n) = Ok t'
    /\ send_notification env now n s
       = (Ok true,
          let w := mkDB (users (working s)) (deadlines (working s))
                     (update_rows Notification.id (Notification.id n)
                        (Notification.set_scheduled_for t') (notifications (working s))) in
          mkSession w w (outbox s))
    /\ valid_datetime t' = true
    /\ dt_ltb (Notification.scheduled_for n) t' = true
    /\ instant_us t' <= instant_us (Notification.scheduled_for n) + US_PER_DAY
    /\ _is_quiet_hours env user t' = true.
Proof.
  intros Huser Hvalid Hyear Hzone Hend Hh Hm Hstart Hquiet.
  destruct (deferral_core env user _ off h m Hvalid Hyear Hzone Hend Hh Hm)
    as (t' & L & Hnext & Hvt' & Hlater & Hyt' & HvL & Hhour & Hminute & HiL).
  assert (Hlt : dt_ltb (Notification.scheduled_for n) t' = true)
    by (apply dt_ltb_instant; [assumption | assumption | lia]).
  exists t'. split; [exact Hnext |].
  split; [apply (send_notification_quiet env now n user t' s); assumption |].
  split; [exact Hvt' |]. split; [exact Hlt |]. split; [lia |].
  apply dt_ltb_le, dt_leb_year in Hlt.
  eapply (quiet_at_quiet_end env user t' L off h m qs); try eassumption. lia.
Qed.

Lemma deferral_stays_in_quiet_hours_witness :
  let late :=
    Notification.mk 7 1 (Some 1) "Reminder: GST return"
      "Deadline 'GST return' due in 7 days on 2025-03-20."
      PUSH false None (mkdt 2025 3 13 18 0 0 0) Scenario.now in
  let s := clean (mkDB [Scenario.asha] [Scenario.gst_deadline] [late]) in
  let sweep_time := mkdt 2025 3 13 18 5 0 0 in
  fixed_offset_zone Scenario.env (User.timezone Scenario.asha) 330
  /\ dict_get (prefs_of Scenario.asha) "quiet_hours_end" (JStr "08:00") = JStr (clock 8 0)
  /\ dict_get (prefs_of Scenario.asha) "quiet_hours_start" (JStr "22:00") = JStr "22:00"
  /\ _is_quiet_hours Scenario.env Scenario.asha (Notification.scheduled_for late) = true
  /\ _get_next_available_time Scenario.env Scenario.asha (Notification.scheduled_for late)
     = Ok (mkdt 2025 3 14 2 30 0 0)
  /\ (send_notification Scenario.env sweep_time late s).1 = Ok true
  /\ outbox (send_notification Scenario.env sweep_time late s).2 = []
  /\ _is_quiet_hours Scenario.env Scenario.asha (mkdt 2025 3 14 2 30 0 0) = true.
Proof.
  intros late s sweep_time.
  assert (H1 : fixed_offset_zone Scenario.env (User.timezone Scenario.asha) 330)
    by (split; [lia | exists (fun _ => 330); split; reflexivity]).
  assert (H2 : dict_get (prefs_of Scenario.asha) "quiet_hours_end" (JStr "08:00")
               = JStr (clock 8 0)) by (vm_compute; reflexivity).
  assert (H3 : dict_get (prefs_of Scenario.asha) "quiet_hours_start" (JStr "22:00")
               = JStr "22:00") by (vm_compute; reflexivity).
  assert (H4 : _is_quiet_hours Scenario.env Scenario.asha (Notification.scheduled_for late)
               = true) by (vm_compute; reflexivity).
  assert (H5 : find (fun u => User.id u =? Notification.user_id late) (users (working s))
               = Some Scenario.asha) by (vm_compute; reflexivity).
  assert (H6 : valid_datetime (Notification.scheduled_for late) = true)
    by (vm_compute; reflexivity).
  assert (H7 : 5 <= year (Notification.scheduled_for late) <= 9995) by (simpl; lia).
  assert (H8 : 0 <= 8 <= 23) by lia.
  assert (H9 : 0 <= 0 <= 59) by lia.
  pose proof (deferral_stays_in_quiet_hours Scenario.env sweep_time Scenario.asha late s
                330 8 0 "22:00" H5 H6 H7 H1 H2 H8 H9 H3 H4) as H.
  destruct H as (t' & Hnext & Hsend & _ & _ & _ & Hquiet).
  assert (Ht' : t' = mkdt 2025 3 14 2 30 0 0)
    by (vm_compute in Hnext; injection Hnext as <-; reflexivity).
  subst t'.
  split; [exact H1 |]. split; [exact H2 |]. split; [exact H3 |]. split; [exact H4 |].
  split; [exact Hnext |]. rewrite Hsend.
  split; [reflexivity |]. split; [reflexivity | exact Hquiet].
Defined.

(** ** A notification within the quiet hours is never delivered *)

Lemma is_quiet_hours_zone e1 e2 user t :
  pytz_timezone e1 (User.timezone user) = pytz_timezone e2 (User.timezone user) ->
  _is_quiet_hours e1 user t = _is_quiet_hours e2 user t.
Proof.
  intros H. unfold _is_quiet_hours, lookup_timezone. rewrite H. reflexivity.
Qed.

Lemma fixed_offset_zone_same e1 e2 name off :
  pytz_timezone e1 name = pytz_timezone e2 name ->
  fixed_offset_zone e2 name off -> fixed_offset_zone e1 name off.
Proof.
  intros H (Hoff & tz & Htz & Hconst). split; [exact Hoff |].
  exists tz. rewrite H. split; assumption.
Qed.

Lemma NoDup_fmap_filter {A} (key : A -> Z) (p : A -> bool) (l : list A) :
  NoDup (key <$> l) -> NoDup (key <$> List.filter p l).
Proof.
  induction l as [|x l IH]; simpl; [intros H; exact H |].
  intros H. apply NoDup_cons in H as [Hx Hl].
  destruct (p x); simpl; [| apply IH, Hl].
  apply NoDup_cons. split; [| apply IH, Hl].
  intros Hin. apply Hx. apply list_elem_of_fmap in Hin as (y & Hy & Hin).
  apply list_elem_of_fmap. exists y. split; [exact Hy |].
  apply list_elem_of_In in Hin. apply filter_In in Hin as [Hin _].
  apply list_elem_of_In. exact Hin.
Qed.

Section QuietSweeps.
Variables (env0 : Env) (user : User.t) (off h m : Z) (qs : string).
Variables (r : Notification.t) (U : list User.t).
Hypothesis Hzone : fixed_offset_zone env0 (User.timezone user) off.
Hypothesis Hend :
  dict_get (prefs_of user) "quiet_hours_end" (JStr "08:00") = JStr (clock h m).
Hypothesis Hh : 0 <= h <= 23.
Hypothesis Hm : 0 <= m <= 59.
Hypothesis Hstart : dict_get (prefs_of user) "quiet_hours_start" (JStr "22:00") = JStr qs.
Hypothesis Huser : find (fun u => User.id u =? Notification.user_id r) U = Some user.

(** The sends of one sweep keep the row held: the send of the row
    itself moves it to another instant within the quiet hours, and the
    sends of the other rows do not touch it. *)
Lemma quiet_loop env now (l : list Notification.t) :
  sweep_in_zone env0 user (env, now) ->
  forall s t,
    undisturbed (Notification.set_scheduled_for t r) U s ->
    held_in_quiet_hours env0 user r t ->
    NoDup (Notification.id <$> l) ->
    (forall n, n ∈ l ->
       dt_leb (Notification.scheduled_for n) now = true
       /\ (Notification.id n = Notification.id r ->
           n = Notification.set_scheduled_for t r)) ->
    exists t',
      undisturbed (Notification.set_scheduled_for t' r) U
        (for_each l (fun n => _ ← send_notification env now n; ret tt) s).2
      /\ held_in_quiet_hours env0 user r t'.
Proof.
  intros [Hsame Hnow]. simpl in Hsame, Hnow.
  induction l as [|n l IH]; intros s t Hs Hheld Hnd Hl.
  - exists t. split; assumption.
  - simpl in Hnd. apply NoDup_cons in Hnd as [Hn Hnd].
    destruct (Hl n) as [Hdue Hrow]; [apply elem_of_cons; auto |].
    rewrite for_each_cons, run_bind, run_bind.
    destruct (decide (Notification.id n = Notification.id r)) as [Hid | Hid].
    + specialize (Hrow Hid). subst n. simpl in Hdue.
      destruct Hheld as (Hvalid & Hyear & Hquiet & Hfirst).
      pose proof (fixed_offset_zone_same env env0 _ off Hsame Hzone) as Hzone'.
      destruct (deferral_core env user t off h m Hvalid Hyear Hzone' Hend Hh Hm)
        as (t' & L & Hnext & Hvt' & Hlater & Hyt' & HvL & Hhour & Hminute & HiL).
      assert (Hlt : dt_ltb t t' = true)
        by (apply dt_ltb_instant; [assumption | assumption | lia]).
      pose proof (dt_leb_year _ _ (dt_ltb_le _ _ Hlt)) as Hyears.
      pose proof (dt_leb_year _ _ Hdue) as Hselected.
      destruct Hs as [[(Hw & Hndw & Hu) (Hc & Hndc & Huc)] Hout].
      rewrite (send_notification_quiet env now _ user t' s).
      * cbn beta iota zeta.
        change (ret tt ?s1) with (Ok tt, s1). cbn beta iota.
        apply (IH _ t'); [| | exact Hnd |].
        -- split; [split; repeat split; simpl |].
           ++ apply (update_rows_found Notification.id _
                       (Notification.set_scheduled_for t') _ _ Hw). reflexivity.
           ++ rewrite update_rows_keys; [exact Hndw | reflexivity].
           ++ exact Hu.
           ++ apply (update_rows_found Notification.id _
                       (Notification.set_scheduled_for t') _ _ Hw). reflexivity.
           ++ rewrite update_rows_keys; [exact Hndw | reflexivity].
           ++ exact Hu.
           ++ exact Hout.
        -- split; [exact Hvt' |]. split; [lia |]. split.
           ++ eapply (quiet_at_quiet_end env0 user t' L off h m qs); try eassumption. lia.
           ++ eapply dt_leb_trans; [exact Hfirst | apply dt_ltb_le, Hlt].
        -- intros n' Hn'. destruct (Hl n') as [Hdue' _]; [apply elem_of_cons; auto |].
           split; [exact Hdue' |]. intros Hid'. exfalso. apply Hn.
           simpl. rewrite <- Hid'. apply list_elem_of_fmap_2. exact Hn'.
      * simpl. rewrite Hu. exact Huser.
      * simpl. rewrite (is_quiet_hours_zone env env0 user t Hsame). exact Hquiet.
      * exact Hnext.
    + pose proof (undisturbed_send _ U env now n s Hs (or_introl Hid)) as Hs1.
      destruct (send_notification env now n s) as [[b|e] s1]; simpl in Hs1 |- *.
      * change (ret tt s1) with (Ok tt, s1). cbn beta iota.
        apply (IH _ t); [exact Hs1 | exact Hheld | exact Hnd |].
        intros n' Hn'. apply Hl, elem_of_cons. auto.
      * exists t. split; assumption.
Qed.

Lemma quiet_sweep env now s t :
  sweep_in_zone env0 user (env, now) ->
  undisturbed (Notification.set_scheduled_for t r) U s ->
  held_in_quiet_hours env0 user r t ->
  exists t',
    undisturbed (Notification.set_scheduled_for t' r) U
      (process_deadline_reminders env now s).2
    /\ held_in_quiet_hours env0 user r t'.
Proof.
  intros Hsweep Hs Hheld. rewrite sweep_state.
  pose proof Hs as [[(Hw & Hndw & _) _] _].
  apply (quiet_loop env now _ Hsweep s t Hs Hheld).
  - apply NoDup_fmap_filter, Hndw.
  - intros n Hn. apply pending_rows_elem in Hn as (Hin & Hdue & _).
    split; [exact Hdue |]. intros Hid.
    eapply same_key_same_row; [exact Hndw | exact Hin | exact Hw | exact Hid].
Qed.

Lemma quiet_run_sweeps schedule s t :
  Forall (sweep_in_zone env0 user) schedule ->
  undisturbed (Notification.set_scheduled_for t r) U s ->
  held_in_quiet_hours env0 user r t ->
  exists t',
    undisturbed (Notification.set_scheduled_for t' r) U (run_sweeps schedule s)
    /\ held_in_quiet_hours env0 user r t'.
Proof.
  intros Hall. revert s t.
  induction Hall as [|[env now] rest Hsweep _ IH]; intros s t Hs Hheld; simpl.
  - exists t. split; assumption.
  - destruct (quiet_sweep env now s t Hsweep Hs Hheld) as (t1 & Hs1 & Hheld1).
    exact (IH _ t1 Hs1 Hheld1).
Qed.
End QuietSweeps.

(** X21: a notification that is scheduled within the quiet hours of its
    user is never delivered.  For a user in a zone of fixed offset whose
    quiet hours end at the clock time [h]:[m], and a row under a key of
    its own that is scheduled at a valid instant within the quiet hours:
    through any number of dispatcher sweeps, whatever the channel
    senders would answer, no channel sender is ever called for the row;
    the row stays stored with nothing but [scheduled_for] changed, at an
    instant not before the first one that is again within the quiet
    hours.  Every sweep that selects the row moves it to the minute at
    which the quiet hours end, and that minute counts as quiet. *)
Theorem quiet_notification_is_never_delivered
    (schedule : list (Env * datetime)) (env : Env) (db : DB) (r : Notification.t)
    (user : User.t) (off h m : Z) (qs : string) :
  NoDup (Notification.id <$> notifications db) ->
  r ∈ notifications db ->
  find (fun u => User.id u =? Notification.user_id r) (users db) = Some user ->
  fixed_offset_zone env (User.timezone user) off ->
  dict_get (prefs_of user) "quiet_hours_end" (JStr "08:00") = JStr (clock h m) ->
  0 <= h <= 23 -> 0 <= m <= 59 ->
  dict_get (prefs_of user) "quiet_hours_start" (JStr "22:00") = JStr qs ->
  valid_datetime (Notification.scheduled_for r) = true ->
  5 <= year (Notification.scheduled_for r) <= 9995 ->
  _is_quiet_hours env user (Notification.scheduled_for r) = true ->
  Forall (sweep_in_zone env user) schedule ->
  let s' := run_sweeps schedule (clean db) in
  (forall ch, (Notification.id r, ch) ∉ outbox s')
  /\ exists t,
       Notification.set_scheduled_for t r ∈ notifications (committed s')
       /\ dt_leb (Notification.scheduled_for r) t = true
       /\ _is_quiet_hours env user t = true.
Proof.
  intros Hnd Hin Huser Hzone Hend Hh Hm Hstart Hvalid Hyear Hquiet Hall. cbn zeta.
  assert (Hr : Notification.set_scheduled_for (Notification.scheduled_for r) r = r)
    by (destruct r; reflexivity).
  destruct (quiet_run_sweeps env user off h m qs r (users db) Hzone Hend Hh Hm Hstart Huser
              schedule (clean db) (Notification.scheduled_for r) Hall)
    as (t & [[_ (Hc & _ & _)] Hout] & (_ & _ & Hq & Hfirst)).
  - rewrite Hr. apply undisturbed_clean; assumption.
  - split; [exact Hvalid |]. split; [exact Hyear |]. split; [exact Hquiet |].
    unfold dt_leb, dt_compare. rewrite lex_compare_refl. reflexivity.
  - split; [exact Hout |]. exists t. repeat split; assumption.
Qed.

Lemma quiet_notification_is_never_delivered_witness :
  let late :=
    Notification.mk 7 1 (Some 1) "Reminder: GST return"
      "Deadline 'GST return' due in 7 days on 2025-03-20."
      PUSH false None (mkdt 2025 3 13 18 0 0 0) Scenario.now in
  let db := mkDB [Scenario.asha] [Scenario.gst_deadline] [late] in
  let schedule :=
    [(Scenario.env, mkdt 2025 3 13 18 5 0 0);
     (Scenario.env, mkdt 2025 3 14 2 35 0 0);
     (Scenario.env, mkdt 2025 3 15 9 0 0 0)] in
  _is_quiet_hours Scenario.env Scenario.asha (Notification.scheduled_for late) = true
  /\ Forall (sweep_in_zone Scenario.env Scenario.asha) schedule
  /\ (forall ch, (7, ch) ∉ outbox (run_sweeps schedule (clean db)))
  /\ notifications (committed (run_sweeps schedule (clean db)))
     = [Notification.set_scheduled_for (mkdt 2025 3 16 2 30 0 0) late].
Proof.
  intros late db schedule.
  assert (H0 : NoDup (Notification.id <$> notifications db))
    by (apply (bool_decide_unpack _); vm_compute; exact I).
  assert (H1 : late ∈ notifications db) by (apply elem_of_cons; left; reflexivity).
  assert (H2 : find (fun u => User.id u =? Notification.user_id late) (users db)
               = Some Scenario.asha) by (vm_compute; reflexivity).
  assert (H3 : fixed_offset_zone Scenario.env (User.timezone Scenario.asha) 330)
    by (split; [lia | exists (fun _ => 330); split; reflexivity]).
  assert (H4 : dict_get (prefs_of Scenario.asha) "quiet_hours_end" (JStr "08:00")
               = JStr (clock 8 0)) by (vm_compute; reflexivity).
  assert (H5 : dict_get (prefs_of Scenario.asha) "quiet_hours_start" (JStr "22:00")
               = JStr "22:00") by (vm_compute; reflexivity).
  assert (H6 : valid_datetime (Notification.scheduled_for late) = true)
    by (vm_compute; reflexivity).
  assert (H7 : 5 <= year (Notification.scheduled_for late) <= 9995) by (simpl; lia).
  assert (H8 : _is_quiet_hours Scenario.env Scenario.asha (Notification.scheduled_for late)
               = true) by (vm_compute; reflexivity).
  assert (H9 : Forall (sweep_in_zone Scenario.env Scenario.asha) schedule)
    by (repeat constructor; simpl; lia).
  assert (Hh : 0 <= 8 <= 23) by lia.
  assert (Hm : 0 <= 0 <= 59) by lia.
  pose proof (quiet_notification_is_never_delivered schedule Scenario.env db late
                Scenario.asha 330 8 0 "22:00" H0 H1 H2 H3 H4 Hh Hm H5 H6 H7 H8 H9) as H.
  cbn zeta in H. destruct H as [Hout _].
  split; [exact H8 |]. split; [exact H9 |]. split; [exact Hout |].
  vm_compute. reflexivity.
Defined.

(** * Completing a deadline again *)

(** The whole session after the completion of a recurring deadline. *)
Lemma mark_deadline_completed_run now deadline_id user_id db d pattern next_due_date :
  find (fun x => (Deadline.id x =? deadline_id) && (Deadline.user_id x =? user_id))
    (deadlines db) = Some d ->
  Deadline.is_recurring d = true ->
  Deadline.recurrence_pattern d = Some pattern ->
  pattern <> "" ->
  _calculate_next_due_date (Deadline.due_date d) pattern = Ok next_due_date ->
  reminders_computable next_due_date (Deadline.reminder_days d) = true ->
  exists created,
    mark_deadline_completed now deadline_id user_id (clean db)
    = (Ok (completed now d),
       clean (mkDB (users db)
                (update_rows Deadline.id deadline_id (completed now) (deadlines db)
                 ++ [successor_of now d (next_id (Deadline.id <$> deadlines db))
                       next_due_date])
                (notifications db ++ created))).
Proof.
  intros Hfind Hrec Hpat Hne Hdue Hdays.
  destruct (find_deadline_key _ _ _ _ Hfind) as (Hkey & _ & _).
  unfold mark_deadline_completed.
  rewrite run_try_except, run_bind, run_Deadline_query_first.
  change (working (clean db)) with db. rewrite Hfind. cbn beta iota.
  rewrite (mark_completed_prefix now deadline_id d db _ Hkey).
  change (Deadline.is_recurring (completed now d)) with (Deadline.is_recurring d).
  change (Deadline.recurrence_pattern (completed now d)) with (Deadline.recurrence_pattern d).
  rewrite Hrec, Hpat. simpl pattern_truthy.
  apply String.eqb_neq in Hne. rewrite Hne. cbn [negb andb].
  unfold _create_next_recurring_deadline.
  change (Deadline.recurrence_pattern (completed now d)) with (Deadline.recurrence_pattern d).
  change (Deadline.due_date (completed now d)) with (Deadline.due_date d).
  rewrite Hpat, Hne. rewrite !run_bind, run_try_except, run_bind.
  unfold lift at 1. rewrite Hdue. cbn beta iota. rewrite run_bind.
  set (db1 := mkDB (users db)
                (update_rows Deadline.id deadline_id (completed now) (deadlines db))
                (notifications db)).
  set (spawned := successor_of now d (next_id (Deadline.id <$> deadlines db)) next_due_date).
  assert (Hids : Deadline.id <$> deadlines db1 = Deadline.id <$> deadlines db)
    by (apply update_rows_keys; reflexivity).
  match goal with
  | |- context [session_add_deadline ?x (clean db1)] =>
      assert (session_add_deadline x (clean db1)
              = (Ok spawned,
                 mkSession db1 (mkDB (users db1) (deadlines db1 ++ [spawned])
                                  (notifications db1)) [])) as ->
        by (unfold session_add_deadline, spawned, successor_of;
            cbv [mbind M_bind bind mret M_ret ret get_working put_working
                   working clean committed outbox];
            rewrite Hids, Hpat; reflexivity)
  end.
  cbn beta iota. rewrite run_bind. cbn [commit working committed outbox].
  cbn beta iota. rewrite run_bind.
  destruct (schedule_deadline_notifications_run now spawned
              (clean (mkDB (users db1) (deadlines db1 ++ [spawned]) (notifications db1))))
    as (created & Hrun & _); [exact Hdays | reflexivity |].
  exists created. unfold clean in Hrun at 1. rewrite Hrun. reflexivity.
Qed.

Lemma find_after_update deadline_id user_id (f : Deadline.t -> Deadline.t)
    (rows extra : list Deadline.t) (d : Deadline.t) :
  (forall x, Deadline.id (f x) = Deadline.id x /\ Deadline.user_id (f x) = Deadline.user_id x) ->
  find (fun x => (Deadline.id x =? deadline_id) && (Deadline.user_id x =? user_id)) rows
  = Some d ->
  find (fun x => (Deadline.id x =? deadline_id) && (Deadline.user_id x =? user_id))
    (update_rows Deadline.id deadline_id f rows ++ extra)
  = Some (f d).
Proof.
  intros Hf. unfold update_rows. induction rows as [|x rows IH]; simpl; [discriminate |].
  destruct (Deadline.id x =? deadline_id) eqn:Hid; simpl.
  - destruct (Hf x) as [-> ->]. rewrite Hid. simpl.
    destruct (Deadline.user_id x =? user_id); [intros [= <-]; reflexivity | exact IH].
  - rewrite Hid. simpl. exact IH.
Qed.

(** X22: completion is not guarded against repetition.  Completing a
    recurring deadline a second time answers as the first time did and
    spawns a second successor: the table then ends with two open
    deadlines under different keys, both due at the date the Recurrence
    Calculator gives for the completed one. *)
Theorem completing_twice_spawns_two_successors
    (now1 now2 : datetime) (deadline_id user_id : Z) (db : DB) (d : Deadline.t)
    (pattern : string) (next_due_date : datetime) :
  find (fun x => (Deadline.id x =? deadline_id) && (Deadline.user_id x =? user_id))
    (deadlines db) = Some d ->
  Deadline.is_recurring d = true ->
  Deadline.recurrence_pattern d = Some pattern ->
  pattern <> "" ->
  _calculate_next_due_date (Deadline.due_date d) pattern = Ok next_due_date ->
  reminders_computable next_due_date (Deadline.reminder_days d) = true ->
  let s1 := (mark_deadline_completed now1 deadline_id user_id (clean db)).2 in
  let '(r2, s2) := mark_deadline_completed now2 deadline_id user_id s1 in
  r2 = Ok (completed now2 (completed now1 d))
  /\ exists first second,
       deadlines (committed s2)
       = (update_rows Deadline.id deadline_id
            (fun x => completed now2 (completed now1 x)) (deadlines db)
          ++ [first; second])%list
       /\ Deadline.due_date first = next_due_date
       /\ Deadline.due_date second = next_due_date
       /\ Deadline.is_completed first = false
       /\ Deadline.is_completed second = false
       /\ Deadline.id first <> Deadline.id second
       /\ Deadline.id first <> deadline_id
       /\ Deadline.id second <> deadline_id.
Proof.
  intros Hfind Hrec Hpat Hne Hdue Hdays.
  destruct (find_deadline_key _ _ _ _ Hfind) as (Hkey & _ & Hin).
  destruct (mark_deadline_completed_run now1 deadline_id user_id db d pattern next_due_date
              Hfind Hrec Hpat Hne Hdue Hdays) as (created1 & ->).
  cbn zeta. cbn [snd].
  set (first := successor_of now1 d (next_id (Deadline.id <$> deadlines db)) next_due_date).
  set (db1 := mkDB _ _ _).
  assert (Hfind1 : find (fun x => (Deadline.id x =? deadline_id)
                                  && (Deadline.user_id x =? user_id)) (deadlines db1)
                   = Some (completed now1 d)).
  { apply find_after_update; [intros x; split; reflexivity | exact Hfind]. }
  destruct (mark_deadline_completed_run now2 deadline_id user_id db1 (completed now1 d)
              pattern next_due_date Hfind1 Hrec Hpat Hne Hdue Hdays) as (created2 & ->).
  split; [reflexivity |].
  eexists first, _. split.
  - cbn [committed clean deadlines db1].
    unfold update_rows at 1. rewrite fmap_app. fold (update_rows Deadline.id deadline_id
      (completed now2) (update_rows Deadline.id deadline_id (completed now1) (deadlines db))).
    rewrite update_rows_compose by reflexivity.
    rewrite <- app_assoc. f_equal. simpl.
    assert (Hfresh : (Deadline.id first =? deadline_id) = false).
    { apply Z.eqb_neq. intros Heq.
      apply (next_id_fresh (Deadline.id <$> deadlines db)).
      change (next_id (Deadline.id <$> deadlines db)) with (Deadline.id first).
      rewrite Heq, <- Hkey. apply list_elem_of_fmap_2. exact Hin. }
    change (Deadline.id first) with (next_id (Deadline.id <$> deadlines db)) in Hfresh.
    rewrite Hfresh. reflexivity.
  - assert (Hfirst : Deadline.id first ∈ (Deadline.id <$> deadlines db1)).
    { cbn [deadlines db1]. rewrite fmap_app. apply elem_of_app. right.
      apply elem_of_cons. left. reflexivity. }
    assert (Hdid : deadline_id ∈ (Deadline.id <$> deadlines db1)).
    { cbn [deadlines db1]. rewrite fmap_app. apply elem_of_app. left.
      rewrite update_rows_keys by reflexivity.
      rewrite <- Hkey. apply list_elem_of_fmap_2. exact Hin. }
    pose proof (next_id_above _ _ Hfirst) as Habove.
    pose proof (next_id_above _ _ Hdid) as Habove'.
    assert (Hdid0 : deadline_id ∈ (Deadline.id <$> deadlines db))
      by (rewrite <- Hkey; apply list_elem_of_fmap_2; exact Hin).
    pose proof (next_id_above _ _ Hdid0) as Habove0.
    repeat split; simpl; try reflexivity; simpl in Habove; lia.
Qed.

Lemma completing_twice_spawns_two_successors_witness :
  let later := mkdt 2025 3 2 9 0 0 0 in
  find (fun x => (Deadline.id x =? 1) && (Deadline.user_id x =? 1))
    (deadlines Scenario.db_gst) = Some Scenario.gst_deadline
  /\ _calculate_next_due_date (Deadline.due_date Scenario.gst_deadline) "monthly"
     = Ok (mkdt 2025 4 20 0 0 0 0)
  /\ reminders_computable (mkdt 2025 4 20 0 0 0 0)
       (Deadline.reminder_days Scenario.gst_deadline) = true
  /\ (let s1 := (mark_deadline_completed Scenario.now 1 1 (clean Scenario.db_gst)).2 in
      let s2 := (mark_deadline_completed later 1 1 s1).2 in
      Deadline.id <$> deadlines (committed s2) = [1; 2; 3]
      /\ Deadline.due_date <$> deadlines (committed s2)
         = [mkdt 2025 3 20 0 0 0 0; mkdt 2025 4 20 0 0 0 0; mkdt 2025 4 20 0 0 0 0]).
Proof.
  intros later.
  assert (H1 : find (fun x => (Deadline.id x =? 1) && (Deadline.user_id x =? 1))
                 (deadlines Scenario.db_gst) = Some Scenario.gst_deadline)
    by (vm_compute; reflexivity).
  assert (H2 : _calculate_next_due_date (Deadline.due_date Scenario.gst_deadline) "monthly"
               = Ok (mkdt 2025 4 20 0 0 0 0)) by (vm_compute; reflexivity).
  assert (H3 : reminders_computable (mkdt 2025 4 20 0 0 0 0)
                 (Deadline.reminder_days Scenario.gst_deadline) = true)
    by (vm_compute; reflexivity).
  assert (H4 : "monthly" <> "") by discriminate.
  pose proof (completing_twice_spawns_two_successors Scenario.now later 1 1
                Scenario.db_gst Scenario.gst_deadline "monthly" (mkdt 2025 4 20 0 0 0 0)
                H1 eq_refl eq_refl H4 H2 H3) as H.
  assert (Hkeys : Deadline.id
                    <$> deadlines
                          (committed
                             (mark_deadline_completed later 1 1
                                (mark_deadline_completed Scenario.now 1 1
                                   (clean Scenario.db_gst)).2).2)
                  = [1; 2; 3]) by (vm_compute; reflexivity).
  split; [exact H1 |]. split; [exact H2 |]. split; [exact H3 |].
  cbv zeta in H |- *. split; [exact Hkeys |]. clear Hkeys.
  destruct (mark_deadline_completed later 1 1
              (mark_deadline_completed Scenario.now 1 1 (clean Scenario.db_gst)).2)
    as [r2 s2].
  destruct H as (_ & first & second & Hrows & Hd1 & Hd2 & _).
  cbn [snd]. rewrite Hrows, !fmap_app. cbn [fmap list_fmap].
  rewrite Hd1, Hd2. vm_compute. reflexivity.
Defined.

(** * Dispatch outside the quiet hours *)

(** X23: a send outside the quiet hours of an existing user answers
    what the channel sender of the row answers, and commits the rows of
    its key with [is_sent] at that answer and [sent_at] at [now] or at
    [None].  The answer is the outcome of the delivery on the channel
    of the row when the sender is configured (a mail user for e-mail; a
    Twilio client and a phone number of the user for SMS and WhatsApp),
    [False] without a call when it is not, and always [True] for push.
    Exactly the sender of the channel of the row is called, once, and
    only when it is configured.  A delivery that fails leaves the row
    unsent with its [sent_at] cleared, so that every later sweep
    selects it again. *)
Theorem dispatch_outside_quiet_hours
    (env : Env) (now : datetime) (n : Notification.t) (user : User.t) (s : Session) :
  find (fun u => User.id u =? Notification.user_id n) (users (working s)) = Some user ->
  _is_quiet_hours env user (Notification.scheduled_for n) = false ->
  let success := channel_sender_answer env user n in
  let dispatched x :=
    Notification.set_sent_at (if success then Some now else None)
      (Notification.set_is_sent success x) in
  let s' :=
    let w := mkDB (users (working s)) (deadlines (working s))
               (update_rows Notification.id (Notification.id n) dispatched
                  (notifications (working s))) in
    mkSession w w
      (outbox s
       ++ (if channel_sender_called env user n
           then [(Notification.id n, Notification.notification_type n)]
           else []))%list in
  send_notification env now n s = (Ok success, s')
  /\ (success = true -> channel_sender_called env user n = true)
  /\ (n ∈ notifications (working s) ->
      dispatched n ∈ notifications (committed s')
      /\ (success = false ->
          forall later, dt_leb (Notification.scheduled_for n) later = true ->
            dispatched n ∈ pending_rows later (committed s'))).
Proof.
  intros Huser Hquiet. cbv zeta. split; [| split].
  - unfold send_notification.
    rewrite run_try_except, run_bind, run_User_query_get, Huser. cbn beta iota.
    rewrite Hquiet. rewrite run_bind.
    unfold channel_sender_answer, channel_sender_called.
    destruct s as [c w o].
    destruct (Notification.notification_type n);
      unfold _send_email, _send_sms, _send_whatsapp, _send_push.
    + destruct (MAIL_USERNAME env); simpl; [reflexivity |].
      rewrite app_nil_r. reflexivity.
    + destruct (twilio_client env); destruct (has_phone user); simpl;
        rewrite ?app_nil_r; reflexivity.
    + destruct (twilio_client env); destruct (has_phone user); simpl;
        rewrite ?app_nil_r; reflexivity.
    + reflexivity.
  - unfold channel_sender_answer, channel_sender_called.
    destruct (Notification.notification_type n);
      [intros H | intros H | intros H | reflexivity];
      apply andb_true_iff in H as [H _]; exact H.
  - intros Hin. cbn [committed notifications].
    assert (Hrow : Notification.set_sent_at
                     (if channel_sender_answer env user n then Some now else None)
                     (Notification.set_is_sent (channel_sender_answer env user n) n)
                   ∈ update_rows Notification.id (Notification.id n)
                       (fun x => Notification.set_sent_at
                                   (if channel_sender_answer env user n
                                    then Some now else None)
                                   (Notification.set_is_sent
                                      (channel_sender_answer env user n) x))
                       (notifications (working s))).
    { apply (update_rows_found Notification.id (Notification.id n)
               (fun x => Notification.set_sent_at
                           (if channel_sender_answer env user n then Some now else None)
                           (Notification.set_is_sent (channel_sender_answer env user n) x))
               _ n Hin).
      reflexivity. }
    split; [exact Hrow |].
    intros Hfail later Hdue. apply pending_rows_elem. cbn [notifications].
    split; [exact Hrow |]. split; [exact Hdue |]. simpl. exact Hfail.
Qed.

Lemma dispatch_outside_quiet_hours_witness :
  let bounced :=
    mkEnv (pytz_timezone Scenario.env) (fromisoformat Scenario.env) true true
      (fun _ _ => false) (fun _ _ _ => true) in
  let reminder :=
    Notification.mk 5 1 (Some 1) "Reminder: GST return"
      "Your deadline 'GST return' is due in 7 days on 2025-03-20."
      EMAIL false None (mkdt 2025 3 13 6 0 0 0) Scenario.now in
  let s := clean (mkDB [Scenario.asha] [Scenario.gst_deadline] [reminder]) in
  let sweep_time := mkdt 2025 3 13 6 15 0 0 in
  find (fun u => User.id u =? Notification.user_id reminder) (users (working s))
  = Some Scenario.asha
  /\ _is_quiet_hours Scenario.env Scenario.asha (Notification.scheduled_for reminder) = false
  /\ _is_quiet_hours bounced Scenario.asha (Notification.scheduled_for reminder) = false
  /\ send_notification Scenario.env sweep_time reminder s
     = (Ok true,
        mkSession
          (mkDB [Scenario.asha] [Scenario.gst_deadline]
             [Notification.set_sent_at (Some sweep_time)
                (Notification.set_is_sent true reminder)])
          (mkDB [Scenario.asha] [Scenario.gst_deadline]
             [Notification.set_sent_at (Some sweep_time)
                (Notification.set_is_sent true reminder)])
          [(5, EMAIL)])
  /\ send_notification bounced sweep_time reminder s
     = (Ok false,
        mkSession (mkDB [Scenario.asha] [Scenario.gst_deadline] [reminder])
          (mkDB [Scenario.asha] [Scenario.gst_deadline] [reminder])
          [(5, EMAIL)]).
Proof.
  intros bounced reminder s sweep_time.
  assert (H1 : find (fun u => User.id u =? Notification.user_id reminder) (users (working s))
               = Some Scenario.asha) by (vm_compute; reflexivity).
  assert (H2 : _is_quiet_hours Scenario.env Scenario.asha
                 (Notification.scheduled_for reminder) = false)
    by (vm_compute; reflexivity).
  assert (H3 : _is_quiet_hours bounced Scenario.asha
                 (Notification.scheduled_for reminder) = false)
    by (vm_compute; reflexivity).
  pose proof (dispatch_outside_quiet_hours Scenario.env sweep_time reminder Scenario.asha s
                H1 H2) as [Hsent _].
  pose proof (dispatch_outside_quiet_hours bounced sweep_time reminder Scenario.asha s
                H1 H3) as [Hfailed _].
  split; [exact H1 |]. split; [exact H2 |]. split; [exact H3 |].
  split; [exact Hsent | exact Hfailed].
Defined.

(** * The send task *)

(** A send that raises has rolled the session back and called no
    sender. *)
Lemma send_notification_raise env now n s e s1 :
  send_notification env now n s = (Raise e, s1) ->
  s1 = mkSession (committed s) (committed s) (outbox s).
Proof.
  unfold send_notification. rewrite run_try_except, run_bind, run_User_query_get.
  cbn beta iota.
  destruct (find _ (users (working s))) as [user|]; [| discriminate].
  destruct (_is_quiet_hours env user (Notification.scheduled_for n)).
  - rewrite run_bind. unfold lift at 1.
    destruct (_get_next_available_time env user (Notification.scheduled_for n)) as [t|e'];
      [discriminate |].
    cbn. intros [= _ <-]. reflexivity.
  - rewrite run_bind. destruct s as [c w o].
    destruct (Notification.notification_type n);
      unfold _send_email, _send_sms, _send_whatsapp, _send_push;
      repeat match goal with
             | |- context [if ?b then _ else _] => destruct b
             end; discriminate.
Qed.

(** X24: [send_notification_task] never raises.  For a key without a
    notification it answers [False] and leaves the session as it was;
    for a stored notification it answers what [send_notification]
    answers and leaves the session that the send leaves; and when the
    send raises it answers [False], with the session rolled back to the
    last commit and no channel sender called. *)
Theorem send_task_contains_failures
    (env : Env) (now : datetime) (notification_id : Z) (s : Session) :
  let found :=
    find (fun n => Notification.id n =? notification_id) (notifications (working s)) in
  let '(r, s') := send_notification_task env now notification_id s in
  exists answer,
    r = Ok answer
    /\ (found = None -> answer = false /\ s' = s)
    /\ (forall n, found = Some n ->
          match send_notification env now n s with
          | (Ok success, s1) => answer = success /\ s' = s1
          | (Raise _, _) =>
              answer = false
              /\ s' = mkSession (committed s) (committed s) (outbox s)
          end).
Proof.
  cbn zeta. unfold send_notification_task.
  rewrite run_try_except, run_bind. unfold get_working at 1. cbn beta iota.
  destruct (find _ (notifications (working s))) as [n|].
  - destruct (send_notification env now n s) as [[b|e] s1] eqn:Hsend.
    + exists b. split; [reflexivity |]. split; [discriminate |].
      intros n0 [= <-]. rewrite Hsend. split; reflexivity.
    + exists false. split; [reflexivity |]. split; [discriminate |].
      intros n0 [= <-]. rewrite Hsend. split; [reflexivity |].
      apply send_notification_raise in Hsend. exact Hsend.
  - exists false. split; [reflexivity |]. split; [split; reflexivity | discriminate].
Qed.

(** * What an edit cannot change *)

Section ProtectedFields.
Variable db0 : DB.

Lemma protected_setattr f d :
  (forall x, protected_fields (f x) = protected_fields x) ->
  preserves (both (same_protected_fields db0)) (setattr f d).
Proof.
  intros Hf. apply preserves_bind; [| intros _; apply preserves_ret].
  intros s [[Hw Hu] Hc]. split; [| exact Hc]. split; [| exact Hu]. simpl.
  rewrite <- Hw. unfold update_rows. rewrite <- list_fmap_compose.
  apply list_fmap_ext. intros _ x _. simpl.
  destruct (Deadline.id x =? Deadline.id d); [apply Hf | reflexivity].
Qed.

Lemma protected_set_if_present {A} (v : option A) f d :
  (forall a x, protected_fields (f a x) = protected_fields x) ->
  preserves (both (same_protected_fields db0)) (set_if_present v f d).
Proof.
  intros Hf. destruct v as [a|]; [apply protected_setattr, Hf | apply preserves_ret].
Qed.

Lemma protected_update_deadline env now deadline_id user_id update_data :
  preserves (both (same_protected_fields db0))
    (update_deadline env now deadline_id user_id update_data).
Proof.
  apply preserves_try_except; [| intros e; apply both_handler].
  apply preserves_bind; [apply both_Deadline_query_first | intros [deadline|]];
    [| apply preserves_raise].
  apply preserves_bind; [apply protected_set_if_present; reflexivity | intros d1].
  apply preserves_bind; [apply protected_set_if_present; reflexivity | intros d2].
  apply preserves_bind.
  { destruct (p_due_date update_data); [| apply preserves_ret].
    apply preserves_bind; [apply preserves_lift | intros due].
    apply protected_setattr. reflexivity. }
  intros d3.
  apply preserves_bind; [apply protected_set_if_present; reflexivity | intros d4].
  apply preserves_bind; [apply protected_set_if_present; reflexivity | intros d5].
  apply preserves_bind; [apply protected_set_if_present; reflexivity | intros d6].
  apply preserves_bind; [apply protected_setattr; reflexivity | intros d7].
  apply preserves_bind; [apply both_commit | intros _].
  apply preserves_bind; [| intros _; apply preserves_ret].
  apply preserves_when, both_schedule_deadline_notifications.
  intros db n H. exact H.
Qed.
End ProtectedFields.

(** X25: no request to [update_deadline] moves a deadline to another
    user or document, changes its key or its type, completes or reopens
    it, or changes its creation time: whatever the request and however
    the call ends, the deadline table has the same rows in the same
    order as far as these fields go, in the committed database and in
    the working copy, and the users are as they were. *)
Theorem update_keeps_protected_fields
    (env : Env) (now : datetime) (deadline_id user_id : Z) (update_data : Payload) (db : DB) :
  let s' := (update_deadline env now deadline_id user_id update_data (clean db)).2 in
  protected_fields <$> deadlines (committed s') = protected_fields <$> deadlines db
  /\ protected_fields <$> deadlines (working s') = protected_fields <$> deadlines db
  /\ users (committed s') = users db
  /\ length (deadlines (committed s')) = length (deadlines db).
Proof.
  cbn zeta.
  destruct (protected_update_deadline db env now deadline_id user_id update_data (clean db))
    as [[Hw _] [Hc Hu]]; [apply both_clean; split; reflexivity |].
  repeat split; try assumption.
  apply (f_equal length) in Hc. rewrite !length_fmap in Hc. exact Hc.
Qed.

(** X26: an edit whose [due_date] does not parse changes nothing, also
    when the request names a title and a description, which are assigned
    before the due date is parsed: the call raises the error of the
    parser and the session is as it was. *)
Theorem update_with_bad_due_date_changes_nothing
    (env : Env) (now : datetime) (deadline_id user_id : Z) (update_data : Payload) (db : DB)
    (d : Deadline.t) (raw : DueDate) (e : Exn) :
  find (fun x => (Deadline.id x =? deadline_id) && (Deadline.user_id x =? user_id))
    (deadlines db) = Some d ->
  p_due_date update_data = Some raw ->
  parse_due_date env raw = Raise e ->
  update_deadline env now deadline_id user_id update_data (clean db) = (Raise e, clean db).
Proof.
  intros Hfind Hdue Hparse. unfold update_deadline.
  rewrite run_try_except, run_bind, run_Deadline_query_first.
  change (working (clean db)) with db. rewrite Hfind. cbn beta iota.
  rewrite Hdue.
  destruct (p_title update_data) as [title|];
    destruct (p_description update_data) as [description|];
    cbv [set_if_present setattr modify_deadline mbind M_bind bind mret M_ret ret
           get_working put_working lift rollback raise clean working committed outbox];
    rewrite Hparse; reflexivity.
Qed.

Lemma update_with_bad_due_date_changes_nothing_witness :
  let request :=
    mkPayload (Some (DueStr "next Friday")) None (Some "GST return (moved)")
      (Some (Some "moved by a week")) None None None None in
  find (fun x => (Deadline.id x =? 1) && (Deadline.user_id x =? 1))
    (deadlines Scenario.db_gst) = Some Scenario.gst_deadline
  /\ parse_due_date Scenario.env (DueStr "next Friday")
     = Raise (ValueError "Invalid isoformat string")
  /\ update_deadline Scenario.env Scenario.now 1 1 request (clean Scenario.db_gst)
     = (Raise (ValueError "Invalid isoformat string"), clean Scenario.db_gst).
Proof.
  intros request.
  assert (H1 : find (fun x => (Deadline.id x =? 1) && (Deadline.user_id x =? 1))
                 (deadlines Scenario.db_gst) = Some Scenario.gst_deadline)
    by (vm_compute; reflexivity).
  assert (H2 : parse_due_date Scenario.env (DueStr "next Friday")
               = Raise (ValueError "Invalid isoformat string"))
    by (vm_compute; reflexivity).
  pose proof (update_with_bad_due_date_changes_nothing Scenario.env Scenario.now 1 1 request
                Scenario.db_gst Scenario.gst_deadline (DueStr "next Friday") _
                H1 eq_refl H2) as H.
  split; [exact H1 |]. split; [exact H2 | exact H].
Defined.

(** * What a sweep answers *)

Lemma next_available_time_returns env user t :
  valid_datetime t = true -> 1 < year t < 9999 ->
  is_ok (_get_next_available_time env user t) = true.
Proof.
  intros Hvalid Hyear. unfold _get_next_available_time.
  match goal with
  | |- context [match ?b with Ok _ => _ | Raise _ => _ end] => destruct b as [x|e]
  end; [reflexivity |].
  change (timedelta_new 0 1 0 0) with (Ok (mktd (3600 * US_PER_SECOND))).
  change (mbind ?k (Ok ?x)) with (k x). cbn beta.
  destruct (dt_add_small t (mktd (3600 * US_PER_SECOND)) Hvalid Hyear) as (t' & -> & _);
    [unfold US_PER_DAY, US_PER_SECOND; simpl; lia | reflexivity].
Qed.

Lemma send_notification_returns env now n :
  schedulable n -> never_raises (send_notification env now n).
Proof.
  intros [Hvalid Hyear] s. unfold send_notification.
  rewrite run_try_except, run_bind, run_User_query_get. cbn beta iota.
  destruct (find _ (users (working s))) as [user|]; [| reflexivity].
  destruct (_is_quiet_hours env user (Notification.scheduled_for n)).
  - rewrite run_bind. unfold lift at 1.
    pose proof (next_available_time_returns env user _ Hvalid Hyear) as Hnext.
    destruct (_get_next_available_time env user (Notification.scheduled_for n)) as [t|e];
      [reflexivity | discriminate].
  - rewrite run_bind. destruct s as [c w o].
    destruct (Notification.notification_type n);
      unfold _send_email, _send_sms, _send_whatsapp, _send_push;
      repeat match goal with
             | |- context [if ?b then _ else _] => destruct b
             end; reflexivity.
Qed.

(** X27: a sweep answers the number of rows it selected, not the number
    it delivered.  When the scheduled instant of every pending row is a
    valid datetime of a year from 2 to 9998, no send raises, and
    [process_pending_notifications] returns the number of unsent rows
    that are due at [now], the rows that were deferred, that failed or
    whose user does not exist included; [process_deadline_reminders]
    reports that number. *)
Theorem sweep_answers_number_selected (env : Env) (now : datetime) (s : Session) :
  Forall schedulable (pending_rows now (working s)) ->
  (process_pending_notifications env now s).1
  = Ok (Z.of_nat (length (pending_rows now (working s))))
  /\ (process_deadline_reminders env now s).1
     = Ok (Some (Z.of_nat (length (pending_rows now (working s))))).
Proof.
  intros Hall.
  assert (Hloop : is_ok (for_each (pending_rows now (working s))
                           (fun notification =>
                              _ ← send_notification env now notification; ret tt) s).1
                  = true).
  { apply never_raises_for_each. intros n Hn.
    apply never_raises_bind; [| intros _; apply never_raises_ret].
    apply send_notification_returns.
    rewrite Forall_forall in Hall. apply Hall, Hn. }
  assert (Hcount : (process_pending_notifications env now s).1
                   = Ok (Z.of_nat (length (pending_rows now (working s))))).
  { unfold process_pending_notifications, get_pending_notifications.
    rewrite !run_try_except, !run_bind, !run_try_except, !run_bind.
    unfold get_working at 1. cbn beta iota.
    change (ret ?x s) with (Ok x, s). cbn beta iota. rewrite run_bind.
    destruct (for_each _ _ s) as [[[]|e] s1]; [reflexivity | discriminate]. }
  split; [exact Hcount |].
  unfold process_deadline_reminders. rewrite run_try_except, run_bind.
  destruct (process_pending_notifications env now s) as [[count|e] s1];
    simpl in Hcount; [| discriminate].
  injection Hcount as ->. reflexivity.
Qed.

Lemma sweep_answers_number_selected_witness :
  let sweep_time := mkdt 2025 3 13 6 15 0 0 in
  let s := clean Scenario.db_dispatch in
  Forall schedulable (pending_rows sweep_time (working s))
  /\ (process_pending_notifications Scenario.env sweep_time s).1 = Ok 2
  /\ (process_deadline_reminders Scenario.env sweep_time s).1 = Ok (Some 2)
  /\ outbox (process_deadline_reminders Scenario.env sweep_time s).2 = [(3, PUSH)].
Proof.
  intros sweep_time s.
  assert (H1 : Forall schedulable (pending_rows sweep_time (working s))).
  { repeat constructor; simpl; lia. }
  pose proof (sweep_answers_number_selected Scenario.env sweep_time s H1) as [Hp Hr].
  split; [exact H1 |]. split; [exact Hp |]. split; [exact Hr |].
  vm_compute. reflexivity.
Defined.
